(** * Opey chat client: conversation state, controller and stream decoder

    A shallow embedding of the streaming chat client of the portal:
    - [ChatState]     (lib/opey/state/ChatState.ts): the transcript and its
      mutation primitives, with the notifications sent to subscribers;
    - [ChatController] (lib/opey/controllers/ChatController.ts): the reduction
      of stream events into state mutations and the public operations;
    - [RestChatService] (lib/opey/services/RestChatService.ts): the response
      handling and the line decoder of the event stream.

    JavaScript objects that the code mutates in place are modelled as values
    in the list that holds them: a mutation of the object returned by
    [find] is an update of the first element of the list that satisfies the
    predicate.  Every message object is created by one call and stored once,
    so no two positions of the transcript alias. *)

From stdpp Require Import gmap strings list pretty.
From Stdlib Require Import ZArith Ascii.

Set Warnings "-register-all".
Open Scope string_scope.
Open Scope list_scope.

(** ** JavaScript values that the client carries without inspecting them *)

Module Js.

(** What [JSON.parse] produces, plus [undefined] for a missing property.
    Numbers of the protocol are counts and status codes. *)
Inductive value : Type :=
| Undefined
| Null
| Bool (b : bool)
| Num (n : Z)
| Str (s : string)
| Arr (items : list value)
| Obj (fields : list (string * value)).

(** ToBoolean *)
Definition truthy (v : value) : bool :=
  match v with
  | Undefined | Null => false
  | Bool b => b
  | Num n => negb (n =? 0)%Z
  | Str s => negb (String.eqb s "")
  | Arr _ | Obj _ => true
  end.

(** [a || b] *)
Definition or_else (a b : value) : value := if truthy a then a else b.

(** An Error object: its [name] and its [message]. *)
Record Error := { name : string; message : string }.

(** Anything a promise can reject with or a [throw] can raise. *)
Inductive thrown : Type :=
| ThrownError (e : Error)
| ThrownValue (v : value).

(** [error instanceof Error ? error.message : fallback] *)
Definition message_or (fallback : string) (t : thrown) : string :=
  match t with
  | ThrownError e => message e
  | ThrownValue _ => fallback
  end.

(** Truthiness of an optional boolean property ([undefined] when absent). *)
Definition flag (b : option bool) : bool := default false b.

End Js.

(** ** types.ts *)

Definition Time := Z.

Inductive Role := RUser | RAssistant | RTool | RError | RApprovalRequest.

Definition Role_eqb (a b : Role) : bool :=
  match a, b with
  | RUser, RUser | RAssistant, RAssistant | RTool, RTool
  | RError, RError | RApprovalRequest, RApprovalRequest => true
  | _, _ => false
  end.

Inductive ToolStatus := StatusSuccess | StatusError.

Inductive ApprovalStatus := Approved | Denied.

(** The approval message and the metadata that the backend supplies with
    an approval request.  [addApprovalRequest] is the only writer of these
    eight properties and writes them together, so the message holds them as
    one optional group. *)
Record ApprovalMetadata := {
  approvalMessage : string;
  riskLevel : string;
  affectedResources : list string;
  reversible : bool;
  estimatedImpact : string;
  similarOperationsCount : Z;
  availableApprovalLevels : list string;
  defaultApprovalLevel : string
}.

(** What a read of a property of the plain object [toolInstanceCounts] can
    give, and so what [instanceNumber] can hold: [undefined], a count,
    [NaN], a function that the object inherits from [Object.prototype], or
    [Object.prototype] itself (the value of the inherited accessor
    [__proto__]). *)
Inductive Member :=
| MUndefined
| MNumber (n : nat)
| MNaN
| MFunction
| MPrototype.

(** The properties [ToolMessage] adds to [BaseMessage]; each is [None]
    ([undefined]) on an object that does not have it. *)
Record ToolFields := {
  toolName : option string;
  toolCallId : option string;
  toolInput : option Js.value;
  status : option ToolStatus;
  toolOutput : option Js.value;
  instanceNumber : option Member;
  waitingForApproval : option bool;
  approvalStatus : option ApprovalStatus;
  approvalLevel : option string;
  approval : option ApprovalMetadata
}.

Definition no_tool_fields : ToolFields :=
  {| toolName := None; toolCallId := None; toolInput := None; status := None;
     toolOutput := None; instanceNumber := None; waitingForApproval := None;
     approvalStatus := None; approvalLevel := None; approval := None |}.

(** A message object of the transcript.  The transcript is a
    [BaseMessage[]] that also holds the tool messages, hence [tool]. *)
Record BaseMessage := {
  id_ : string;
  correlationId : option string;
  role : Role;
  message : string;
  timestamp : Time;
  isStreaming : option bool;
  isLoading : option bool;
  isPending : option bool;
  error : option string;
  cancelled : option bool;
  tool : ToolFields
}.

(** *** Property assignments *)

Definition set_id (v : string) (m : BaseMessage) : BaseMessage :=
  {| id_ := v; correlationId := correlationId m; role := role m;
     message := message m; timestamp := timestamp m;
     isStreaming := isStreaming m; isLoading := isLoading m;
     isPending := isPending m; error := error m; cancelled := cancelled m;
     tool := tool m |}.

Definition set_message (v : string) (m : BaseMessage) : BaseMessage :=
  {| id_ := id_ m; correlationId := correlationId m; role := role m;
     message := v; timestamp := timestamp m;
     isStreaming := isStreaming m; isLoading := isLoading m;
     isPending := isPending m; error := error m; cancelled := cancelled m;
     tool := tool m |}.

Definition set_isStreaming (v : option bool) (m : BaseMessage) : BaseMessage :=
  {| id_ := id_ m; correlationId := correlationId m; role := role m;
     message := message m; timestamp := timestamp m;
     isStreaming := v; isLoading := isLoading m;
     isPending := isPending m; error := error m; cancelled := cancelled m;
     tool := tool m |}.

Definition set_isPending (v : option bool) (m : BaseMessage) : BaseMessage :=
  {| id_ := id_ m; correlationId := correlationId m; role := role m;
     message := message m; timestamp := timestamp m;
     isStreaming := isStreaming m; isLoading := isLoading m;
     isPending := v; error := error m; cancelled := cancelled m;
     tool := tool m |}.

Definition set_error (v : option string) (m : BaseMessage) : BaseMessage :=
  {| id_ := id_ m; correlationId := correlationId m; role := role m;
     message := message m; timestamp := timestamp m;
     isStreaming := isStreaming m; isLoading := isLoading m;
     isPending := isPending m; error := v; cancelled := cancelled m;
     tool := tool m |}.

Definition set_cancelled (v : option bool) (m : BaseMessage) : BaseMessage :=
  {| id_ := id_ m; correlationId := correlationId m; role := role m;
     message := message m; timestamp := timestamp m;
     isStreaming := isStreaming m; isLoading := isLoading m;
     isPending := isPending m; error := error m; cancelled := v;
     tool := tool m |}.

Definition set_tool (v : ToolFields) (m : BaseMessage) : BaseMessage :=
  {| id_ := id_ m; correlationId := correlationId m; role := role m;
     message := message m; timestamp := timestamp m;
     isStreaming := isStreaming m; isLoading := isLoading m;
     isPending := isPending m; error := error m; cancelled := cancelled m;
     tool := v |}.

Definition tf_set_status (v : option ToolStatus) (t : ToolFields) : ToolFields :=
  {| toolName := toolName t; toolCallId := toolCallId t;
     toolInput := toolInput t; status := v; toolOutput := toolOutput t;
     instanceNumber := instanceNumber t;
     waitingForApproval := waitingForApproval t;
     approvalStatus := approvalStatus t; approvalLevel := approvalLevel t;
     approval := approval t |}.

Definition tf_set_toolOutput (v : option Js.value) (t : ToolFields) : ToolFields :=
  {| toolName := toolName t; toolCallId := toolCallId t;
     toolInput := toolInput t; status := status t; toolOutput := v;
     instanceNumber := instanceNumber t;
     waitingForApproval := waitingForApproval t;
     approvalStatus := approvalStatus t; approvalLevel := approvalLevel t;
     approval := approval t |}.

Definition tf_set_waitingForApproval (v : option bool) (t : ToolFields) : ToolFields :=
  {| toolName := toolName t; toolCallId := toolCallId t;
     toolInput := toolInput t; status := status t; toolOutput := toolOutput t;
     instanceNumber := instanceNumber t;
     waitingForApproval := v;
     approvalStatus := approvalStatus t; approvalLevel := approvalLevel t;
     approval := approval t |}.

Definition tf_set_approvalStatus (v : option ApprovalStatus) (t : ToolFields) : ToolFields :=
  {| toolName := toolName t; toolCallId := toolCallId t;
     toolInput := toolInput t; status := status t; toolOutput := toolOutput t;
     instanceNumber := instanceNumber t;
     waitingForApproval := waitingForApproval t;
     approvalStatus := v; approvalLevel := approvalLevel t;
     approval := approval t |}.

Definition tf_set_approvalLevel (v : option string) (t : ToolFields) : ToolFields :=
  {| toolName := toolName t; toolCallId := toolCallId t;
     toolInput := toolInput t; status := status t; toolOutput := toolOutput t;
     instanceNumber := instanceNumber t;
     waitingForApproval := waitingForApproval t;
     approvalStatus := approvalStatus t; approvalLevel := v;
     approval := approval t |}.

Definition tf_set_approval (v : option ApprovalMetadata) (t : ToolFields) : ToolFields :=
  {| toolName := toolName t; toolCallId := toolCallId t;
     toolInput := toolInput t; status := status t; toolOutput := toolOutput t;
     instanceNumber := instanceNumber t;
     waitingForApproval := waitingForApproval t;
     approvalStatus := approvalStatus t; approvalLevel := approvalLevel t;
     approval := v |}.

Definition on_tool (f : ToolFields -> ToolFields) (m : BaseMessage) : BaseMessage :=
  set_tool (f (tool m)) m.

Definition set_status v := on_tool (tf_set_status v).
Definition set_toolOutput v := on_tool (tf_set_toolOutput v).
Definition set_waitingForApproval v := on_tool (tf_set_waitingForApproval v).
Definition set_approvalStatus v := on_tool (tf_set_approvalStatus v).
Definition set_approvalLevel v := on_tool (tf_set_approvalLevel v).
Definition set_approval v := on_tool (tf_set_approval v).

(** An object literal passed as [Partial<ToolMessage>]: the properties it
    lists, in order.  A property listed with [undefined] is [None]. *)
Inductive Assignment :=
| A_isStreaming (v : option bool)
| A_error (v : option string)
| A_status (v : option ToolStatus)
| A_toolOutput (v : option Js.value)
| A_waitingForApproval (v : option bool)
| A_approvalStatus (v : option ApprovalStatus)
| A_approvalLevel (v : option string).

Definition assign1 (m : BaseMessage) (a : Assignment) : BaseMessage :=
  match a with
  | A_isStreaming v => set_isStreaming v m
  | A_error v => set_error v m
  | A_status v => set_status v m
  | A_toolOutput v => set_toolOutput v m
  | A_waitingForApproval v => set_waitingForApproval v m
  | A_approvalStatus v => set_approvalStatus v m
  | A_approvalLevel v => set_approvalLevel v m
  end.

(** [Object.assign(target, updates)] *)
Definition Object_assign (updates : list Assignment) (m : BaseMessage) : BaseMessage :=
  foldl assign1 m updates.

(** ** Array helpers *)

(** [arr.findIndex(p)], with [None] for -1. *)
Fixpoint findIndex {A} (p : A -> bool) (l : list A) : option nat :=
  match l with
  | [] => None
  | x :: r => if p x then Some 0 else S <$> findIndex p r
  end.

(** The mutation [f] applied to the object that [arr.find(p)] returns. *)
Fixpoint update_first {A} (p : A -> bool) (f : A -> A) (l : list A) : list A :=
  match l with
  | [] => []
  | x :: r => if p x then f x :: r else x :: update_first p f r
  end.

(** ** ChatState.ts *)

Record ChatStateSnapshot := {
  snap_threadId : string;
  snap_messages : list BaseMessage
}.

(** A subscriber function, by identity. *)
Definition Subscriber := nat.

Module ChatState.

(** The fields of the class, and [delivered]: the calls of subscriber
    functions made so far, oldest first, each with the snapshot it received.
    Subscribers observe; they do not call back into the state. *)
Record t := {
  threadId : string;
  messages : list BaseMessage;
  subscribers : list Subscriber;
  sessionStartTime : Time;
  delivered : list (Subscriber * ChatStateSnapshot)
}.

(** [new ChatState(threadId)] with a thread id given or generated. *)
Definition new (threadId : string) (now : Time) : t :=
  {| threadId := threadId; messages := []; subscribers := [];
     sessionStartTime := now; delivered := [] |}.

Definition with_messages (ms : list BaseMessage) (s : t) : t :=
  {| threadId := threadId s; messages := ms; subscribers := subscribers s;
     sessionStartTime := sessionStartTime s; delivered := delivered s |}.

Definition snapshot (s : t) : ChatStateSnapshot :=
  {| snap_threadId := threadId s; snap_messages := messages s |}.

Definition emit (s : t) : t :=
  {| threadId := threadId s; messages := messages s;
     subscribers := subscribers s; sessionStartTime := sessionStartTime s;
     delivered := delivered s ++ map (fun fn => (fn, snapshot s)) (subscribers s) |}.

Definition getThreadId (s : t) : string := threadId s.

Definition setThreadId (newId : string) (now : Time) (s : t) : t :=
  emit {| threadId := newId; messages := []; subscribers := subscribers s;
          sessionStartTime := now; delivered := delivered s |}.

Definition syncThreadId (backendThreadId : string) (s : t) : t :=
  if negb (String.eqb (threadId s) backendThreadId) then
    emit {| threadId := backendThreadId; messages := messages s;
            subscribers := subscribers s;
            sessionStartTime := sessionStartTime s; delivered := delivered s |}
  else s.

Definition has_id (i : string) (m : BaseMessage) : bool := String.eqb (id_ m) i.

(** [msg.correlationId === correlationId && msg.isPending === true] *)
Definition is_pending_for (correlationId' : string) (m : BaseMessage) : bool :=
  match correlationId m with
  | Some c => String.eqb c correlationId'
  | None => false
  end
  && match isPending m with Some true => true | _ => false end.

Definition syncUserMessage (backendId correlationId' : string) (s : t) : t :=
  match find (has_id backendId) (messages s) with
  | Some _ => s
  | None =>
      match findIndex (is_pending_for correlationId') (messages s) with
      | Some index =>
          emit (with_messages
                  (alter (fun m => set_isPending (Some false) (set_id backendId m))
                         index (messages s)) s)
      | None => s
      end
  end.

Definition addMessage (m : BaseMessage) (s : t) : t :=
  if existsb (has_id (id_ m)) (messages s) then s
  else emit (with_messages (messages s ++ [m]) s).

Definition addToolMessage (toolMessage : BaseMessage) (s : t) : t :=
  if existsb (has_id (id_ toolMessage)) (messages s) then s
  else emit (with_messages (messages s ++ [toolMessage]) s).

Definition getMessage (messageId : string) (s : t) : option BaseMessage :=
  find (has_id messageId) (messages s).

(** [msg.role === 'tool' && msg.toolCallId === toolCallId] *)
Definition is_tool_call (toolCallId' : string) (m : BaseMessage) : bool :=
  Role_eqb (role m) RTool
  && match toolCallId (tool m) with
     | Some c => String.eqb c toolCallId'
     | None => false
     end.

Definition getToolMessageByCallId (toolCallId' : string) (s : t) : option BaseMessage :=
  find (is_tool_call toolCallId') (messages s).

Definition addApprovalRequest (toolCallId' toolName' : string)
    (toolInput' : Js.value) (metadata : ApprovalMetadata) (now : Time) (s : t) : t :=
  let s1 :=
    match getToolMessageByCallId toolCallId' s with
    | Some _ =>
        with_messages
          (update_first (is_tool_call toolCallId')
             (fun m => set_approval (Some metadata)
                         (set_approvalStatus None
                            (set_waitingForApproval (Some true) m)))
             (messages s)) s
    | None =>
        addToolMessage
          {| id_ := toolCallId'; correlationId := None; role := RTool;
             message := ""; timestamp := now;
             isStreaming := Some false; isLoading := None; isPending := None;
             error := None; cancelled := None;
             tool := {| toolName := Some toolName';
                        toolCallId := Some toolCallId';
                        toolInput := Some toolInput';
                        status := None; toolOutput := None;
                        instanceNumber := None;
                        waitingForApproval := Some true;
                        approvalStatus := None; approvalLevel := None;
                        approval := Some metadata |} |} s
    end in
  emit s1.

(** One element of the array given to [addBatchApprovalRequest]; [bc_now]
    is the clock reading when its message object is created. *)
Record BatchToolCall := {
  bc_toolCallId : string;
  bc_toolName : string;
  bc_toolInput : Js.value;
  bc_metadata : ApprovalMetadata;
  bc_now : Time
}.

Definition addBatchApprovalRequest (toolCalls : list BatchToolCall) (s : t) : t :=
  foldl (fun s toolCall =>
           addApprovalRequest (bc_toolCallId toolCall) (bc_toolName toolCall)
             (bc_toolInput toolCall) (bc_metadata toolCall) (bc_now toolCall) s)
        s toolCalls.

Definition getPendingApprovals (s : t) : list BaseMessage :=
  filter (fun m => Role_eqb (role m) RTool
                   && Js.flag (waitingForApproval (tool m)) = true) (messages s).

Definition updateApprovalRequest (toolCallId' : string) (approved : bool) (s : t) : t :=
  emit (with_messages
          (update_first (is_tool_call toolCallId')
             (set_approvalStatus (Some (if approved then Approved else Denied)))
             (messages s)) s).

(** What [removeApprovalRequest] does to the tool message it finds. *)
Definition started (m : BaseMessage) : BaseMessage :=
  let m1 := set_waitingForApproval (Some false) m in
  match approvalStatus (tool m1) with
  | Some Approved => set_isStreaming (Some true) m1
  | _ => m1
  end.

Definition removeApprovalRequest (toolCallId' : string) (s : t) : t :=
  emit (with_messages
          (update_first (is_tool_call toolCallId') started (messages s)) s).

(** [!msg.isLoading] *)
Definition not_loading (m : BaseMessage) : Prop :=
  negb (Js.flag (isLoading m)) = true.

Definition removeLoadingMessages (s : t) : t :=
  emit (with_messages (filter not_loading (messages s)) s).

Definition appendToMessage (messageId text : string) (s : t) : t :=
  match find (has_id messageId) (messages s) with
  | Some _ =>
      emit (with_messages
              (update_first (has_id messageId)
                 (fun m => set_message (message m +:+ text) m) (messages s)) s)
  | None => s
  end.

Definition markMessageComplete (messageId : string) (s : t) : t :=
  match find (has_id messageId) (messages s) with
  | None => s
  | Some m =>
      if negb (Js.flag (isStreaming m)) then s
      else emit (with_messages
                   (update_first (has_id messageId)
                      (set_isStreaming (Some false)) (messages s)) s)
  end.

Definition updateMessage (messageId : string) (updates : list Assignment) (s : t) : t :=
  match find (has_id messageId) (messages s) with
  | Some _ =>
      emit (with_messages
              (update_first (has_id messageId) (Object_assign updates)
                 (messages s)) s)
  | None => s
  end.

Definition updateToolMessage (toolCallId' : string) (updates : list Assignment) (s : t) : t :=
  match getToolMessageByCallId toolCallId' s with
  | Some _ =>
      emit (with_messages
              (update_first (is_tool_call toolCallId') (Object_assign updates)
                 (messages s)) s)
  | None => s
  end.

Definition subscribe (fn : Subscriber) (s : t) : t :=
  {| threadId := threadId s; messages := messages s;
     subscribers := subscribers s ++ [fn];
     sessionStartTime := sessionStartTime s;
     delivered := delivered s ++ [(fn, snapshot s)] |}.

Definition stopAllStreaming (s : t) : t :=
  let updated := existsb (fun m => Js.flag (isStreaming m)) (messages s) in
  let ms := map (fun m => if Js.flag (isStreaming m)
                          then set_cancelled (Some true)
                                 (set_isStreaming (Some false) m)
                          else m) (messages s) in
  if updated then emit (with_messages ms s) else with_messages ms s.

Definition removeMessagesAfter (messageId : string) (s : t) : t :=
  match findIndex (has_id messageId) (messages s) with
  | None => s
  | Some index => emit (with_messages (take (index + 1) (messages s)) s)
  end.

Definition clear (now : Time) (s : t) : t :=
  emit {| threadId := threadId s; messages := []; subscribers := subscribers s;
          sessionStartTime := now; delivered := delivered s |}.

(** Some message of the transcript is a loading placeholder: what the chat
    component tests with [messages.some((m) => m.isLoading)]. *)
Definition has_loading (s : t) : bool :=
  existsb (fun m => Js.flag (isLoading m)) (messages s).

End ChatState.

(** ** ChatService.ts: the events and the calls of the transport interface *)

Inductive StreamEvent :=
| user_message_confirmed (messageId correlationId' content : string) (timestamp' : Z)
| assistant_start (messageId : string) (timestamp' : Time)
| assistant_token (messageId token : string)
| assistant_complete (messageId : string)
| tool_start (toolCallId' toolName' : string) (toolInput' : Js.value)
| tool_token (toolCallId' token : string)
| tool_complete (toolCallId' toolName' : string) (toolOutput' : Js.value)
    (status' : ToolStatus)
| approval_request (toolCallId' toolName' : string) (toolInput' : Js.value)
    (metadata : ApprovalMetadata)
| batch_approval_request (toolCalls : list ChatState.BatchToolCall)
    (options : list string)
| thread_sync (threadId' : string)
| error_event (messageId : option string) (error' : string).

(** A call of a method of [ChatService], with its arguments. *)
Inductive ServiceCall :=
| Send (msg : BaseMessage) (threadId' : string)
| SendApproval (toolCallId' : string) (approved : bool) (threadId' : string)
    (approvalLevel' : option string)
| SendBatchApproval (decisions : list (string * (bool * string)))
    (threadId' : string)
| Regenerate (messageId threadId' : string)
| Cancel (threadId' : string).

(** How an awaited promise settles. *)
Inductive Settled :=
| Resolved
| Rejected (reason : Js.thrown).

(** [s.includes(sub)] *)
Fixpoint includes (sub s : string) : bool :=
  String.prefix sub s ||
  match s with
  | EmptyString => false
  | String _ r => includes sub r
  end.

(** ** ChatController.ts *)

Module ChatController.

(** [toolInstanceCounts] is a plain object, [{}]: the map holds its own
    properties, and what it has no own property for it inherits from
    [Object.prototype]. *)
Record t := {
  state : ChatState.t;
  toolInstanceCounts : gmap string Member
}.

Definition new (state : ChatState.t) : t :=
  {| state := state; toolInstanceCounts := ∅ |}.

Definition on_state (f : ChatState.t -> ChatState.t) (c : t) : t :=
  {| state := f (state c); toolInstanceCounts := toolInstanceCounts c |}.

(** The names of the function members of [Object.prototype], which every
    plain object inherits.  Its one other member is the accessor
    [__proto__]. *)
Definition Object_prototype_functions : list string :=
  ["constructor"; "hasOwnProperty"; "isPrototypeOf"; "propertyIsEnumerable";
   "toLocaleString"; "toString"; "valueOf"; "__defineGetter__";
   "__defineSetter__"; "__lookupGetter__"; "__lookupSetter__"].

(** [counts[name]]: the getter of [__proto__] gives the prototype; else the
    own property, else the inherited member, else [undefined]. *)
Definition read_count (name : string) (counts : gmap string Member) : Member :=
  if String.eqb name "__proto__" then MPrototype
  else match counts !! name with
       | Some v => v
       | None =>
           if bool_decide (name ∈ Object_prototype_functions) then MFunction
           else MUndefined
       end.

(** [counts[name] = v] for a number [v]: the setter of [__proto__] ignores
    a value that is not an object; any other name gets an own property. *)
Definition write_count (name : string) (v : Member) (counts : gmap string Member)
  : gmap string Member :=
  if String.eqb name "__proto__" then counts else <[name := v]> counts.

(** ToBoolean of what a read gives. *)
Definition truthy_member (v : Member) : bool :=
  match v with
  | MUndefined | MNumber 0 | MNaN => false
  | MNumber (S _) | MFunction | MPrototype => true
  end.

(** [v + 1] after ToNumeric: a function and an object convert to [NaN]. *)
Definition incremented (v : Member) : Member :=
  match v with
  | MNumber n => MNumber (S n)
  | MUndefined | MNaN | MFunction | MPrototype => MNaN
  end.

Definition assignToolInstance (toolName' : string) (counts : gmap string Member)
  : gmap string Member * Member :=
  let counts1 :=
    if negb (truthy_member (read_count toolName' counts))
    then write_count toolName' (MNumber 0) counts
    else counts in
  let counts2 :=
    write_count toolName' (incremented (read_count toolName' counts1)) counts1 in
  (counts2, read_count toolName' counts2).

Definition loading_message (i : string) (now : Time) : BaseMessage :=
  {| id_ := i; correlationId := None; role := RAssistant; message := "";
     timestamp := now; isStreaming := None; isLoading := Some true;
     isPending := None; error := None; cancelled := None;
     tool := no_tool_fields |}.

Definition error_message (i : string) (now : Time) (e : string) : BaseMessage :=
  {| id_ := i; correlationId := None; role := RError; message := "";
     timestamp := now; isStreaming := None; isLoading := None;
     isPending := None; error := Some e; cancelled := None;
     tool := no_tool_fields |}.

Definition assistant_message (i : string) (ts : Time) : BaseMessage :=
  {| id_ := i; correlationId := None; role := RAssistant; message := "";
     timestamp := ts; isStreaming := Some true; isLoading := None;
     isPending := None; error := None; cancelled := None;
     tool := no_tool_fields |}.

Definition user_message (cid text : string) (now : Time) : BaseMessage :=
  {| id_ := cid; correlationId := Some cid; role := RUser; message := text;
     timestamp := now; isStreaming := None; isLoading := None;
     isPending := Some true; error := None; cancelled := None;
     tool := no_tool_fields |}.

Definition started_tool_message (toolCallId' toolName' : string)
    (toolInput' : Js.value) (now : Time) (instanceNumber' : Member) : BaseMessage :=
  {| id_ := toolCallId'; correlationId := None; role := RTool; message := "";
     timestamp := now; isStreaming := Some true; isLoading := None;
     isPending := None; error := None; cancelled := None;
     tool := {| toolName := Some toolName'; toolCallId := Some toolCallId';
                toolInput := Some toolInput'; status := None;
                toolOutput := None; instanceNumber := Some instanceNumber';
                waitingForApproval := None; approvalStatus := None;
                approvalLevel := None; approval := None |} |}.

Section Handlers.

(** [JSON.stringify], of the platform. *)
Variable JSON_stringify : Js.value -> string.

(** The [updates] object built in the [tool_complete] case. *)
Definition tool_complete_updates (toolOutput' : Js.value) (status' : ToolStatus)
  : list Assignment :=
  [A_toolOutput (Some toolOutput'); A_status (Some status')] ++
  match status' with
  | StatusError =>
      if Js.truthy toolOutput' then
        let errorOutput :=
          match toolOutput' with
          | Js.Str s => s
          | v => JSON_stringify v
          end in
        [A_error (Some ("Tool execution failed: " +:+ errorOutput))]
      else []
  | StatusSuccess => []
  end.

(** The callback registered with [service.onStreamEvent].  [now] is the
    clock reading and [uuid] the identifier drawn while the event is
    handled. *)
Definition onStreamEvent (event : StreamEvent) (now : Time) (uuid : string)
    (c : t) : t :=
  match event with
  | user_message_confirmed messageId correlationId' _ _ =>
      on_state (ChatState.syncUserMessage messageId correlationId') c
  | thread_sync threadId' =>
      on_state (ChatState.syncThreadId threadId') c
  | assistant_start messageId ts =>
      on_state (fun s =>
        ChatState.addMessage (assistant_message messageId ts)
          (ChatState.removeLoadingMessages s)) c
  | assistant_token messageId token =>
      on_state (ChatState.appendToMessage messageId token) c
  | assistant_complete messageId =>
      on_state (ChatState.markMessageComplete messageId) c
  | tool_start toolCallId' toolName' toolInput' =>
      let s1 := ChatState.removeApprovalRequest toolCallId' (state c) in
      let '(counts, instanceNumber') :=
        assignToolInstance toolName' (toolInstanceCounts c) in
      {| state :=
           ChatState.addToolMessage
             (started_tool_message toolCallId' toolName' toolInput' now
                instanceNumber') s1;
         toolInstanceCounts := counts |}
  | tool_token _ _ => c
  | tool_complete toolCallId' _ toolOutput' status' =>
      on_state (fun s =>
        ChatState.markMessageComplete toolCallId'
          (ChatState.updateToolMessage toolCallId'
             (tool_complete_updates toolOutput' status') s)) c
  | error_event messageId error' =>
      match messageId with
      | Some i =>
          if negb (String.eqb i "") then
            match ChatState.getMessage i (state c) with
            | Some m =>
                if negb (Role_eqb (role m) RTool)
                then on_state (ChatState.updateMessage i [A_error (Some error')]) c
                else c
            | None => c
            end
          else on_state (ChatState.addMessage (error_message uuid now error')) c
      | None => on_state (ChatState.addMessage (error_message uuid now error')) c
      end
  | approval_request toolCallId' toolName' toolInput' metadata =>
      on_state (ChatState.addApprovalRequest toolCallId' toolName' toolInput'
                  metadata now) c
  | batch_approval_request toolCalls _ =>
      on_state (ChatState.addBatchApprovalRequest toolCalls) c
  end.

(** The callback registered with [service.onError]. *)
Definition onError (err : Js.Error) (now : Time) (uuid : string) (c : t) : t :=
  let c1 := on_state ChatState.removeLoadingMessages c in
  if negb (String.eqb (Js.message err) "")
     && includes "BodyStreamBuffer was aborted" (Js.message err)
  then c1
  else on_state (ChatState.addMessage (error_message uuid now (Js.message err))) c1.

End Handlers.

(** *** Public operations

    An operation that awaits the transport is given in two parts: what it
    does up to the call of the transport, with the call it makes, and what
    it does when the promise of that call settles. *)

(** [send(text)]: [cid] and [lid] are the two identifiers drawn, [now1] and
    [now2] the two clock readings.  The promise of the transport is
    returned as it is. *)
Definition send (text cid lid : string) (now1 now2 : Time) (c : t)
  : t * ServiceCall :=
  let msg := user_message cid text now1 in
  let s1 := ChatState.addMessage msg (state c) in
  let s2 := ChatState.addMessage (loading_message lid now2) s1 in
  ({| state := s2; toolInstanceCounts := toolInstanceCounts c |},
   Send msg (ChatState.getThreadId s2)).

(** [a || b] on optional strings. *)
Definition str_or (a : option string) (b : option string) : option string :=
  match a with
  | Some s => if String.eqb s "" then b else a
  | None => b
  end.

(** [approvalLevel || toolMessage?.defaultApprovalLevel || 'user'] *)
Definition levelToUse (toolCallId' : string) (approvalLevel' : option string)
    (c : t) : string :=
  let toolMessage := ChatState.getToolMessageByCallId toolCallId' (state c) in
  let toolDefault :=
    m ← toolMessage; defaultApprovalLevel <$> approval (tool m) in
  default "user" (str_or (str_or approvalLevel' toolDefault) (Some "user")).

Definition approveToolCall (toolCallId' : string) (approvalLevel' : option string)
    (c : t) : t * ServiceCall :=
  let level := levelToUse toolCallId' approvalLevel' c in
  let c1 :=
    on_state (fun s =>
      ChatState.updateToolMessage toolCallId'
        [A_approvalStatus (Some Approved); A_approvalLevel (Some level);
         A_waitingForApproval (Some false)]
        (ChatState.updateApprovalRequest toolCallId' true s)) c in
  (c1, SendApproval toolCallId' true (ChatState.getThreadId (state c1)) (Some level)).

(** The error strings of the two [catch] blocks. *)
Definition approval_failed (reason : Js.thrown) : string :=
  "Failed to send approval: " +:+ Js.message_or "Unknown error" reason.

Definition denial_failed (reason : Js.thrown) : string :=
  "Failed to send denial: " +:+ Js.message_or "Unknown error" reason.

(** The rest of [approveToolCall] once [sendApproval] has settled; the
    result is how the promise of [approveToolCall] settles. *)
Definition approveToolCall_settle (toolCallId' : string) (outcome : Settled)
    (c : t) : t * Settled :=
  match outcome with
  | Resolved => (c, Resolved)
  | Rejected reason =>
      (on_state
         (ChatState.updateToolMessage toolCallId'
            [A_approvalStatus None; A_approvalLevel None;
             A_waitingForApproval (Some true);
             A_error (Some (approval_failed reason))]) c,
       Rejected reason)
  end.

Definition denied_updates : list Assignment :=
  [A_approvalStatus (Some Denied); A_waitingForApproval (Some false);
   A_isStreaming (Some false); A_status (Some StatusError);
   A_toolOutput (Some (Js.Str "Tool execution was denied by user"))].

Definition denyToolCall (toolCallId' : string) (c : t) : t * ServiceCall :=
  let c1 :=
    on_state (fun s =>
      ChatState.updateToolMessage toolCallId' denied_updates
        (ChatState.updateApprovalRequest toolCallId' false s)) c in
  (c1, SendApproval toolCallId' false (ChatState.getThreadId (state c1)) None).

Definition denyToolCall_settle (toolCallId' : string) (outcome : Settled)
    (c : t) : t * Settled :=
  match outcome with
  | Resolved => (c, Resolved)
  | Rejected reason =>
      (on_state
         (ChatState.updateToolMessage toolCallId'
            [A_error (Some (denial_failed reason))]) c,
       Resolved)
  end.

(** [decisions] is the [Map], in its iteration order. *)
Definition submitBatchApproval (decisions : list (string * (bool * string)))
    (c : t) : t * ServiceCall :=
  let c1 :=
    foldl (fun c '(toolCallId', (approved, level)) =>
      on_state (fun s =>
        let s1 := ChatState.updateApprovalRequest toolCallId' approved s in
        if approved then
          ChatState.updateToolMessage toolCallId'
            [A_approvalStatus (Some Approved); A_approvalLevel (Some level);
             A_waitingForApproval (Some false)] s1
        else ChatState.updateToolMessage toolCallId' denied_updates s1) c)
      c decisions in
  (c1, SendBatchApproval decisions (ChatState.getThreadId (state c1))).

Definition submitBatchApproval_settle (decisions : list (string * (bool * string)))
    (outcome : Settled) (c : t) : t * Settled :=
  match outcome with
  | Resolved => (c, Resolved)
  | Rejected reason =>
      (foldl (fun c '(toolCallId', _) =>
         on_state
           (ChatState.updateToolMessage toolCallId'
              [A_approvalStatus None; A_approvalLevel None;
               A_waitingForApproval (Some true);
               A_error (Some (approval_failed reason))]) c)
         c decisions,
       Rejected reason)
  end.

Definition getPendingApprovals (c : t) : list BaseMessage :=
  ChatState.getPendingApprovals (state c).

(** [stop()]: the promise of [service.cancel] is awaited and nothing follows. *)
Definition stop (c : t) : t * ServiceCall :=
  let c1 := on_state ChatState.stopAllStreaming c in
  (c1, Cancel (ChatState.getThreadId (state c1))).

Definition regenerate (messageId lid : string) (now : Time) (c : t)
  : t * ServiceCall :=
  let c1 :=
    on_state (fun s =>
      ChatState.addMessage (loading_message lid now)
        (ChatState.removeMessagesAfter messageId s)) c in
  (c1, Regenerate messageId (ChatState.getThreadId (state c1))).

Definition regenerate_settle (outcome : Settled) (c : t) : t * Settled :=
  match outcome with
  | Resolved => (c, Resolved)
  | Rejected reason =>
      (on_state ChatState.removeLoadingMessages c, Rejected reason)
  end.

Definition cancel (c : t) : t * ServiceCall :=
  (c, Cancel (ChatState.getThreadId (state c))).

(** *** Runs of the controller

    Everything that can happen to a controller: a callback of the transport,
    a public operation (up to its call of the transport, or from the
    settlement of that call on), or a direct use of the public [state]. *)
Inductive Op :=
| OnStreamEvent (event : StreamEvent) (now : Time) (uuid : string)
| OnError (err : Js.Error) (now : Time) (uuid : string)
| OpSend (text cid lid : string) (now1 now2 : Time)
| OpApproveToolCall (toolCallId' : string) (approvalLevel' : option string)
| OpApproveToolCallSettle (toolCallId' : string) (outcome : Settled)
| OpDenyToolCall (toolCallId' : string)
| OpDenyToolCallSettle (toolCallId' : string) (outcome : Settled)
| OpSubmitBatchApproval (decisions : list (string * (bool * string)))
| OpSubmitBatchApprovalSettle (decisions : list (string * (bool * string)))
    (outcome : Settled)
| OpStop
| OpRegenerate (messageId lid : string) (now : Time)
| OpRegenerateSettle (outcome : Settled)
| OpCancel
| OnState (f : ChatState.t -> ChatState.t).

Section Runs.

Variable JSON_stringify : Js.value -> string.

Definition step (c : t) (op : Op) : t :=
  match op with
  | OnStreamEvent event now uuid => onStreamEvent JSON_stringify event now uuid c
  | OnError err now uuid => onError err now uuid c
  | OpSend text cid lid now1 now2 => (send text cid lid now1 now2 c).1
  | OpApproveToolCall i lvl => (approveToolCall i lvl c).1
  | OpApproveToolCallSettle i outcome => (approveToolCall_settle i outcome c).1
  | OpDenyToolCall i => (denyToolCall i c).1
  | OpDenyToolCallSettle i outcome => (denyToolCall_settle i outcome c).1
  | OpSubmitBatchApproval ds => (submitBatchApproval ds c).1
  | OpSubmitBatchApprovalSettle ds outcome =>
      (submitBatchApproval_settle ds outcome c).1
  | OpStop => (stop c).1
  | OpRegenerate i lid now => (regenerate i lid now c).1
  | OpRegenerateSettle outcome => (regenerate_settle outcome c).1
  | OpCancel => (cancel c).1
  | OnState f => on_state f c
  end.

Definition run (ops : list Op) (c : t) : t := foldl step c ops.

End Runs.

(** The instance number that the [tool_start] case computes in [c]. *)
Definition assigned_instance (toolName' : string) (c : t) : Member :=
  (assignToolInstance toolName' (toolInstanceCounts c)).2.

(** How many [tool_start] events for [toolName'] a run holds. *)
Definition is_tool_start_of (toolName' : string) (op : Op) : bool :=
  match op with
  | OnStreamEvent (tool_start _ n _) _ _ => String.eqb n toolName'
  | _ => false
  end.

Definition count_tool_starts (toolName' : string) (ops : list Op) : nat :=
  length (List.filter (is_tool_start_of toolName') ops).

(** The [assistant_token] events for message [m], each with the clock
    reading and the identifier at hand when it is handled. *)
Definition token_events (m : string) (deliveries : list (string * (Time * string)))
  : list Op :=
  map (fun d => OnStreamEvent (assistant_token m d.1) d.2.1 d.2.2) deliveries.

(** What the user does between the approval request and the start of the
    tool: nothing, or the optimistic part of an approval or of a denial. *)
Inductive UserDecision :=
| NoDecision
| Approve (approvalLevel' : option string)
| Deny.

Definition decide_between (i : string) (decision : UserDecision) (c : t) : t :=
  match decision with
  | NoDecision => c
  | Approve lvl => (approveToolCall i lvl c).1
  | Deny => (denyToolCall i c).1
  end.

Definition decided_status (decision : UserDecision) : option ApprovalStatus :=
  match decision with
  | NoDecision => None
  | Approve _ => Some Approved
  | Deny => Some Denied
  end.

End ChatController.

(** ** RestChatService.ts *)

(** Text is a string of code units below 256. *)

(** [s.slice(n)] *)
Fixpoint slice (n : nat) (s : string) : string :=
  match n, s with
  | 0, _ => s
  | S n', String _ r => slice n' r
  | S _, EmptyString => EmptyString
  end.

(** White space and line terminators, as [trim] takes them. *)
Definition is_white_space (c : ascii) : bool :=
  let n := nat_of_ascii c in
  Nat.eqb n 9 || Nat.eqb n 10 || Nat.eqb n 11 || Nat.eqb n 12 || Nat.eqb n 13
  || Nat.eqb n 32 || Nat.eqb n 160.

Fixpoint trimStart (s : string) : string :=
  match s with
  | String c r => if is_white_space c then trimStart r else s
  | EmptyString => EmptyString
  end.

Fixpoint trimEnd (s : string) : string :=
  match s with
  | String c r =>
      match trimEnd r with
      | EmptyString => if is_white_space c then EmptyString else String c EmptyString
      | r' => String c r'
      end
  | EmptyString => EmptyString
  end.

(** [s.trim()] *)
Definition trim (s : string) : string := trimEnd (trimStart s).

(** [s.split('\n')]: the pieces between line feeds; never empty. *)
Fixpoint split_lines (s : string) : list string :=
  match s with
  | EmptyString => [EmptyString]
  | String c r =>
      if Nat.eqb (nat_of_ascii c) 10 then EmptyString :: split_lines r
      else match split_lines r with
           | l :: ls => String c l :: ls
           | [] => [String c EmptyString]
           end
  end.

(** The line feed and the double quote. *)
Definition LF : string := String (ascii_of_nat 10) EmptyString.
Definition DQ : string := String (ascii_of_nat 34) EmptyString.

Fixpoint no_line_feed (s : string) : bool :=
  match s with
  | EmptyString => true
  | String c r => negb (Nat.eqb (nat_of_ascii c) 10) && no_line_feed r
  end.

Module RestChatService.

(** The event object that [handleStreamEvent] hands to the stream callback.
    The properties hold what the payload holds: nothing checks them against
    the declared [StreamEvent] type.  The [timestamp] of [assistant_start]
    is the value the [Date] is built from. *)
Record RawToolCall := {
  raw_toolCallId : Js.value;
  raw_toolName : Js.value;
  raw_toolInput : Js.value;
  raw_message : Js.value;
  raw_riskLevel : Js.value;
  raw_affectedResources : Js.value;
  raw_reversible : Js.value;
  raw_estimatedImpact : Js.value;
  raw_similarOperationsCount : Js.value;
  raw_availableApprovalLevels : Js.value;
  raw_defaultApprovalLevel : Js.value;
  raw_operation : Js.value;
  raw_endpoint : Js.value;
  raw_method : Js.value
}.

Inductive RawEvent :=
| raw_user_message_confirmed (messageId correlationId' content timestamp' : Js.value)
| raw_assistant_start (messageId timestamp' : Js.value)
| raw_assistant_token (messageId token : Js.value)
| raw_assistant_complete (messageId : Js.value)
| raw_tool_start (toolCallId' toolInput' toolName' : Js.value)
| raw_tool_token (toolCallId' token : Js.value)
| raw_tool_complete (toolCallId' toolName' toolOutput' status' : Js.value)
| raw_error (messageId error' : Js.value)
| raw_approval_request (toolCallId' toolName' toolInput' message' riskLevel'
    affectedResources' reversible' estimatedImpact' similarOperationsCount'
    availableApprovalLevels' defaultApprovalLevel' : Js.value)
| raw_batch_approval_request (toolCalls : list RawToolCall) (options : Js.value)
| raw_thread_sync (threadId' : string).

(** A call of one of the two registered callbacks. *)
Inductive Callback :=
| StreamEventCb (event : RawEvent)
| ErrorCb (err : Js.thrown).

Definition is_error_cb (cb : Callback) : bool :=
  match cb with
  | ErrorCb _ => true
  | StreamEventCb _ => false
  end.

(** The two callback fields: registered or not.  The callbacks return
    normally. *)
Record t := {
  errorCallback : bool;
  streamEventCallback : bool
}.

(** [this.streamEventCallback?.(event)] *)
Definition call_streamEvent (svc : t) (event : RawEvent) : list Callback :=
  if streamEventCallback svc then [StreamEventCb event] else [].

(** [this.errorCallback?.(err)] *)
Definition call_error (svc : t) (err : Js.thrown) : list Callback :=
  if errorCallback svc then [ErrorCb err] else [].

(** [new Error(message)] *)
Definition new_Error (message' : string) : Js.thrown :=
  Js.ThrownError {| Js.name := "Error"; Js.message := message' |}.

Fixpoint assoc (k : string) (fields : list (string * Js.value)) : Js.value :=
  match fields with
  | [] => Js.Undefined
  | (k', v) :: r => if String.eqb k' k then v else assoc k r
  end.

(** [v.k] for the property names of the protocol: [None] when the read
    throws ([v] is [null] or [undefined]). *)
Definition prop (k : string) (v : Js.value) : option Js.value :=
  match v with
  | Js.Undefined | Js.Null => None
  | Js.Obj fields => Some (assoc k fields)
  | _ => Some Js.Undefined
  end.

(** [v?.[0]] *)
Definition opt_index0 (v : Js.value) : Js.value :=
  match v with
  | Js.Arr (x :: _) => x
  | Js.Str (String c _) => Js.Str (String c EmptyString)
  | Js.Obj fields => assoc "0" fields
  | _ => Js.Undefined
  end.

(** [v !== undefined ? v : d] *)
Definition defined_or (v d : Js.value) : Js.value :=
  match v with Js.Undefined => d | _ => v end.

(** [`${e}`] for an error: [Error.prototype.toString]. *)
Definition Error_toString (e : Js.Error) : string :=
  if String.eqb (Js.name e) "" then Js.message e
  else if String.eqb (Js.message e) "" then Js.name e
  else Js.name e +:+ ": " +:+ Js.message e.

Section Engine.

(** Of the platform: [JSON.parse] (a [SyntaxError] on the left); the string
    conversion of an array or of an object, which throws (the error on the
    left) when the value cannot be converted to a primitive, as an object
    with a property [toString] of its own that is not a function; and the
    [TypeError] raised by a failed read of the named property. *)
Variable JSON_parse : string -> Js.Error + Js.value.
Variable ToString : Js.value -> Js.Error + string.
Variable TypeError_of : string -> Js.Error.

(** The string conversion of a value, as a template literal makes it: the
    text, or the error thrown.  A string is itself, the other primitives
    have the text of their literal (a number is an integer, in decimal). *)
Definition str (v : Js.value) : Js.Error + string :=
  match v with
  | Js.Str s => inr s
  | Js.Undefined => inr "undefined"
  | Js.Null => inr "null"
  | Js.Bool true => inr "true"
  | Js.Bool false => inr "false"
  | Js.Num n => inr (pretty n)
  | Js.Arr _ | Js.Obj _ => ToString v
  end.

(** [new Date(v)]: to convert an array or an object to a primitive it calls
    what the string conversion calls, and throws where that throws.  The
    value is kept as it came. *)
Definition new_Date (v : Js.value) : Js.Error + Js.value :=
  match v with
  | Js.Arr _ | Js.Obj _ =>
      match ToString v with
      | inl e => inl e
      | inr _ => inr v
      end
  | _ => inr v
  end.

(** Reads of an object that is known not to be [null] or [undefined]. *)
Definition get (k : string) (v : Js.value) : Js.value :=
  default Js.Undefined (prop k v).

(** The mapping function of [eventData.tool_calls.map]. *)
Definition raw_tool_call (tc : Js.value) : Js.Error + RawToolCall :=
  match prop "tool_call_id" tc with
  | None => inl (TypeError_of "tool_call_id")
  | Some _ =>
      inr {| raw_toolCallId := get "tool_call_id" tc;
             raw_toolName := get "tool_name" tc;
             raw_toolInput := get "tool_input" tc;
             raw_message := Js.or_else (get "message" tc) (Js.Str "Approval required");
             raw_riskLevel := Js.or_else (get "risk_level" tc) (Js.Str "moderate");
             raw_affectedResources :=
               Js.or_else (get "affected_resources" tc) (Js.Arr []);
             raw_reversible := defined_or (get "reversible" tc) (Js.Bool true);
             raw_estimatedImpact :=
               Js.or_else (get "estimated_impact" tc) (Js.Str "");
             raw_similarOperationsCount :=
               Js.or_else (get "similar_operations_count" tc) (Js.Num 0);
             raw_availableApprovalLevels :=
               Js.or_else (get "available_approval_levels" tc)
                 (Js.Arr [Js.Str "once"; Js.Str "session"]);
             raw_defaultApprovalLevel :=
               Js.or_else (get "default_approval_level" tc) (Js.Str "once");
             raw_operation := get "operation" tc;
             raw_endpoint := get "endpoint" tc;
             raw_method := get "method" tc |}
  end.

Fixpoint map_tool_calls (tcs : list Js.value) : Js.Error + list RawToolCall :=
  match tcs with
  | [] => inr []
  | tc :: r =>
      match raw_tool_call tc with
      | inl e => inl e
      | inr x =>
          match map_tool_calls r with
          | inl e => inl e
          | inr xs => inr (x :: xs)
          end
      end
  end.

(** [handleStreamEvent(eventData)]: the error it throws, or the calls of
    the stream callback it makes (none for an unknown type).  The arguments
    of a call are evaluated only when the callback is registered.  The
    [default] branch converts the type to a string for its warning. *)
Definition handleStreamEvent (svc : t) (eventData : Js.value)
  : Js.Error + list Callback :=
  match prop "type" eventData with
  | None => inl (TypeError_of "type")
  | Some (Js.Str type) =>
      let f k := get k eventData in
      if String.eqb type "user_message_confirmed" then
        inr (call_streamEvent svc
               (raw_user_message_confirmed (f "message_id") (f "correlation_id")
                  (f "content") (f "timestamp")))
      else if String.eqb type "assistant_start" then
        if streamEventCallback svc then
          match new_Date (f "timestamp") with
          | inl e => inl e
          | inr timestamp' =>
              inr (call_streamEvent svc
                     (raw_assistant_start (f "message_id") timestamp'))
          end
        else inr []
      else if String.eqb type "assistant_token" then
        inr (call_streamEvent svc
               (raw_assistant_token (f "message_id") (f "content")))
      else if String.eqb type "assistant_complete" then
        inr (call_streamEvent svc (raw_assistant_complete (f "message_id")))
      else if String.eqb type "tool_start" then
        inr (call_streamEvent svc
               (raw_tool_start (f "tool_call_id") (f "tool_input") (f "tool_name")))
      else if String.eqb type "tool_token" then
        inr (call_streamEvent svc
               (raw_tool_token (f "tool_call_id") (f "content")))
      else if String.eqb type "tool_complete" then
        inr (call_streamEvent svc
               (raw_tool_complete (f "tool_call_id") (f "tool_name")
                  (f "tool_output") (f "status")))
      else if String.eqb type "error" then
        inr (call_streamEvent svc
               (raw_error (f "for_message_id")
                  (Js.or_else (f "error_message") (f "error"))))
      else if String.eqb type "approval_request" then
        inr (call_streamEvent svc
               (raw_approval_request (f "tool_call_id") (f "tool_name")
                  (f "tool_input")
                  (Js.or_else (f "message") (Js.Str "Approval required"))
                  (Js.or_else (f "risk_level") (Js.Str "medium"))
                  (Js.or_else (f "affected_resources") (Js.Arr []))
                  (defined_or (f "reversible") (Js.Bool true))
                  (Js.or_else (f "estimated_impact") (Js.Str ""))
                  (Js.or_else (f "similar_operations_count") (Js.Num 0))
                  (Js.or_else (f "available_approval_levels")
                     (Js.Arr [Js.Str "user"]))
                  (Js.or_else (f "default_approval_level") (Js.Str "user"))))
      else if String.eqb type "batch_approval_request" then
        if streamEventCallback svc then
          match f "tool_calls" with
          | Js.Arr tcs =>
              match map_tool_calls tcs with
              | inl e => inl e
              | inr toolCalls =>
                  inr (call_streamEvent svc
                         (raw_batch_approval_request toolCalls
                            (Js.or_else (f "options") (Js.Arr []))))
              end
          | _ => inl (TypeError_of "map")
          end
        else inr []
      else inr []
  | Some type =>
      match str type with
      | inl e => inl e
      | inr _ => inr []
      end
  end.

(** One line of the [for] loop of [processStream], when it is neither
    skipped nor the end marker: the [try] block and its [catch]. *)
Definition process_payload (svc : t) (payload : string) : list Callback :=
  let failed (error' : Js.Error) :=
    call_error svc
      (new_Error ("Failed to parse event data: " +:+ Error_toString error')) in
  match JSON_parse payload with
  | inl error' => failed error'
  | inr eventData =>
      match handleStreamEvent svc eventData with
      | inl error' => failed error'
      | inr calls => calls
      end
  end.

(** The [for (const line of lines)] loop. *)
Fixpoint process_lines (svc : t) (lines : list string) : list Callback :=
  match lines with
  | [] => []
  | line :: rest =>
      if String.prefix "data: " line then
        if String.eqb (trim (slice 6 line)) "[DONE]" then []
        else process_payload svc (slice 6 line) ++ process_lines svc rest
      else process_lines svc rest
  end.

(** How the reads of the body end: the stream is done, or a read rejects. *)
Inductive ReadEnd :=
| ReadDone
| ReadRejects (reason : Js.thrown).

(** The [while (true)] loop of [processStream] from a given [buffer] on:
    [chunks] are the texts that [decoder.decode(value, { stream: true })]
    gives for the successive reads. *)
Fixpoint read_loop (svc : t) (buffer : string) (chunks : list string)
    (last_read : ReadEnd) : list Callback :=
  match chunks with
  | [] =>
      match last_read with
      | ReadDone => []
      | ReadRejects reason => call_error svc reason
      end
  | value :: rest =>
      let lines := split_lines (buffer +:+ value) in
      let buffer' := List.last lines "" in
      process_lines svc (removelast lines)
        ++ read_loop svc buffer' rest last_read
  end.

Definition processStream (svc : t) (chunks : list string) (last_read : ReadEnd)
  : list Callback :=
  read_loop svc "" chunks last_read.

(** What [fetch] gives: a rejection or a response.  [json] is how
    [res.json()] settles; [body] is [None] when [res.body] is [null], and
    otherwise the reads of its reader. *)
Record Response := {
  ok : bool;
  status : Z;
  statusText : string;
  header_X_Thread_ID : option string;
  json : Js.thrown + Js.value;
  body : option (list string * ReadEnd)
}.

Inductive FetchOutcome :=
| FetchRejects (reason : Js.thrown)
| FetchResolves (res : Response).

(** The [errorMessage] of the [!res.ok] branch when its inner [try] is
    left: the status line, or what the body gives.  What the inner [try]
    throws (a body that is not JSON, a read of a property of [null], a
    string conversion in the template of the validation message) leaves the
    status line. *)
Definition http_error_message (res : Response) : Js.value :=
  let fallback :=
    Js.Str ("HTTP " +:+ pretty (status res) +:+ ": " +:+ statusText res) in
  match json res with
  | inl _ => fallback
  | inr errorData =>
      let generic :=
        match prop "error" errorData with
        | None => fallback
        | Some error' =>
            Js.or_else (Js.or_else (Js.or_else error' (get "message" errorData))
                          errorData)
              fallback
        end in
      if (status res =? 422)%Z then
        match prop "detail" errorData with
        | None => fallback
        | Some detail =>
            let first := opt_index0 detail in
            if Js.truthy first then
              match str (get "msg" first), str (get "field" first) with
              | inr msg, inr field =>
                  Js.Str ("Validation error: " +:+ msg +:+ " (" +:+ field +:+ ")")
              | _, _ => fallback
              end
            else generic
        end
      else generic
  end.

(** [error.name === 'AbortError'] for what the [catch] receives; [None]
    when the read of [name] throws. *)
Definition is_AbortError (reason : Js.thrown) : option bool :=
  match reason with
  | Js.ThrownError e => Some (String.eqb (Js.name e) "AbortError")
  | Js.ThrownValue v =>
      match prop "name" v with
      | None => None
      | Some (Js.Str n) => Some (String.eqb n "AbortError")
      | Some _ => Some false
      end
  end.

(** [handleStreamingResponse(url, init, threadId)] for a given outcome of
    the [fetch]: the callbacks it calls, in order, and how its promise
    settles.  In the [!res.ok] branch the template literal of
    [console.error] converts [errorMessage] to a string; what that throws
    goes to the outer [catch]. *)
Definition handleStreamingResponse (svc : t) (threadId' : option string)
    (outcome : FetchOutcome) : list Callback * Settled :=
  match outcome with
  | FetchRejects reason =>
      match is_AbortError reason with
      | None => ([], Rejected (Js.ThrownError (TypeError_of "name")))
      | Some true => ([], Resolved)
      | Some false => (call_error svc reason, Resolved)
      end
  | FetchResolves res =>
      let sync :=
        match threadId', header_X_Thread_ID res with
        | Some threadId'', Some responseThreadId =>
            if negb (String.eqb threadId'' "")
               && negb (String.eqb responseThreadId "")
               && negb (String.eqb responseThreadId threadId'')
            then call_streamEvent svc (raw_thread_sync responseThreadId)
            else []
        | _, _ => []
        end in
      if negb (ok res) then
        match str (http_error_message res) with
        | inr text => (sync ++ call_error svc (new_Error text), Resolved)
        | inl e =>
            if String.eqb (Js.name e) "AbortError" then (sync, Resolved)
            else (sync ++ call_error svc (Js.ThrownError e), Resolved)
        end
      else
        match body res with
        | None => (sync ++ call_error svc (new_Error "No response body"), Resolved)
        | Some (chunks, last_read) =>
            (sync ++ processStream svc chunks last_read, Resolved)
        end
  end.

End Engine.

End RestChatService.

(** ** Scenarios

    Concrete states, events and engine behaviours for the examples. *)

Module Scenario.

Definition fresh_controller : ChatController.t :=
  ChatController.new (ChatState.new "thread-1" 0%Z).

Definition sample_user : BaseMessage :=
  ChatController.user_message "c-1" "Hello" 10%Z.

(** A transcript with the pending user message and one subscriber. *)
Definition sample_state : ChatState.t :=
  ChatState.subscribe 7
    (ChatState.addMessage sample_user (ChatState.new "thread-1" 0%Z)).

Definition sample_pending : ChatState.t :=
  ChatState.addMessage (ChatController.loading_message "l-1" 11%Z) sample_state.

(** The controller after [send("Hello")]. *)
Definition sample_controller : ChatController.t :=
  (ChatController.send "Hello" "c-1" "l-1" 10%Z 11%Z fresh_controller).1.

Definition no_stringify (v : Js.value) : string := "".

Definition sample_metadata : ApprovalMetadata :=
  {| approvalMessage := "Approval required"; riskLevel := "high";
     affectedResources := []; reversible := true; estimatedImpact := "";
     similarOperationsCount := 0; availableApprovalLevels := ["user"];
     defaultApprovalLevel := "user" |}.

(** The controller after [send("Hello")] and an approval request for the
    tool call [t1]. *)
Definition waiting_controller : ChatController.t :=
  ChatController.onStreamEvent no_stringify
    (approval_request "t1" "lookup" (Js.Obj []) sample_metadata) 30%Z "u-1"
    sample_controller.

Definition network_down : Js.thrown :=
  Js.ThrownError {| Js.name := "TypeError"; Js.message := "Failed to fetch" |}.

(** An engine that agrees with the platform on the payload and the values
    that the scenarios use. *)
Definition token_payload : string :=
  "{" +:+ DQ +:+ "type" +:+ DQ +:+ ":" +:+ DQ +:+ "assistant_token" +:+ DQ
  +:+ "," +:+ DQ +:+ "message_id" +:+ DQ +:+ ":" +:+ DQ +:+ "m1" +:+ DQ
  +:+ "," +:+ DQ +:+ "content" +:+ DQ +:+ ":" +:+ DQ +:+ "late" +:+ DQ +:+ "}".

Definition token_object : Js.value :=
  Js.Obj [("type", Js.Str "assistant_token"); ("message_id", Js.Str "m1");
          ("content", Js.Str "late")].

Definition sample_parse (s : string) : Js.Error + Js.value :=
  if String.eqb s token_payload then inr token_object
  else inl {| Js.name := "SyntaxError"; Js.message := "Unexpected token" |}.

Definition cannot_convert : Js.Error :=
  {| Js.name := "TypeError";
     Js.message := "Cannot convert object to primitive value" |}.

Fixpoint sample_ToString (v : Js.value) : Js.Error + string :=
  match v with
  | Js.Undefined => inr "undefined"
  | Js.Null => inr "null"
  | Js.Bool true => inr "true"
  | Js.Bool false => inr "false"
  | Js.Num n => inr (pretty n)
  | Js.Str s => inr s
  | Js.Arr items =>
      let join :=
        fix join (xs : list Js.value) : Js.Error + list string :=
          match xs with
          | [] => inr []
          | x :: r =>
              match match x with
                    | Js.Undefined | Js.Null => inr ""
                    | _ => sample_ToString x
                    end with
              | inl e => inl e
              | inr text =>
                  match join r with
                  | inl e => inl e
                  | inr texts => inr (text :: texts)
                  end
              end
          end in
      match join items with
      | inl e => inl e
      | inr texts => inr (String.concat "," texts)
      end
  | Js.Obj fields =>
      if existsb (fun kv => String.eqb kv.1 "toString") fields
      then inl cannot_convert
      else inr "[object Object]"
  end.

Definition sample_TypeError (k : string) : Js.Error :=
  {| Js.name := "TypeError";
     Js.message := "Cannot read properties of undefined (reading '" +:+ k +:+ "')" |}.

(** Both callbacks registered, as the controller does when it is built. *)
Definition registered : RestChatService.t :=
  {| RestChatService.errorCallback := true;
     RestChatService.streamEventCallback := true |}.

(** The rejection of a read of a body whose request was aborted. *)
Definition aborted_error : Js.Error :=
  {| Js.name := "AbortError"; Js.message := "BodyStreamBuffer was aborted" |}.

Definition aborted : Js.thrown := Js.ThrownError aborted_error.

Definition streaming_response (reads : list string * RestChatService.ReadEnd)
  : RestChatService.Response :=
  {| RestChatService.ok := true; RestChatService.status := 200;
     RestChatService.statusText := "OK";
     RestChatService.header_X_Thread_ID := None;
     RestChatService.json := inr Js.Null;
     RestChatService.body := Some reads |}.

End Scenario.

(** ** RestChatService.ts: the methods of the transport *)

Module RestChatServiceCalls.

(** The [payload] of [sendApproval], as it is given to [JSON.stringify]. *)
Definition sendApproval_payload (toolCallId' : string) (approved : bool)
    (threadId' : string) (approvalLevel' : option string) : Js.value :=
  Js.Obj
    [("message", Js.Str "");
     ("thread_id", Js.Str threadId');
     ("tool_call_approval",
      Js.Obj
        [("approval", Js.Str (if approved then "approve" else "deny"));
         ("level",
          Js.Str (default "once" (ChatController.str_or approvalLevel' (Some "once"))));
         ("tool_call_id", Js.Str toolCallId')])].

(** The [level] that a call of [sendApproval] puts on the wire: the
    property [tool_call_approval.level] of its payload. *)
Definition wire_level (call : ServiceCall) : option Js.value :=
  match call with
  | SendApproval toolCallId' approved threadId' approvalLevel' =>
      RestChatService.prop "level"
        (RestChatService.get "tool_call_approval"
           (sendApproval_payload toolCallId' approved threadId' approvalLevel'))
  | _ => None
  end.

(** The thread id that the method hands to [handleStreamingResponse]:
    [send] and [regenerate] pass theirs, the approvals pass none. *)
Definition response_thread (call : ServiceCall) : option string :=
  match call with
  | Send _ threadId' => Some threadId'
  | Regenerate _ threadId' => Some threadId'
  | SendApproval _ _ _ _ | SendBatchApproval _ _ | Cancel _ => None
  end.

Section Engine.

Variable JSON_parse : string -> Js.Error + Js.value.
Variable ToString : Js.value -> Js.Error + string.
Variable TypeError_of : string -> Js.Error.

(** A method of the service, from the call on: [headers] is how
    [auth.getHeaders()] settles in [buildInit], [outcome] what the [fetch]
    of the stream gives.  [cancel] catches what its request throws and
    calls nothing. *)
Definition perform (svc : RestChatService.t) (call : ServiceCall)
    (headers : Settled) (outcome : RestChatService.FetchOutcome)
  : list RestChatService.Callback * Settled :=
  match call with
  | Cancel _ => ([], Resolved)
  | _ =>
      match headers with
      | Rejected reason => ([], Rejected reason)
      | Resolved =>
          RestChatService.handleStreamingResponse JSON_parse ToString
            TypeError_of svc (response_thread call) outcome
      end
  end.

End Engine.

End RestChatServiceCalls.


(** ** How a transcript evolves *)

(** What [stopAllStreaming] does to a message. *)
Definition cancel_if_streaming (m : BaseMessage) : BaseMessage :=
  if Js.flag (isStreaming m)
  then set_cancelled (Some true) (set_isStreaming (Some false) m)
  else m.

(** A mutation of a message that keeps its id, its role, its tool call id
    and whether it is pending. *)
Definition quiet (f : BaseMessage -> BaseMessage) : Prop :=
  forall m, id_ (f m) = id_ m /\ role (f m) = role m
            /\ toolCallId (tool (f m)) = toolCallId (tool m)
            /\ isPending (f m) = isPending m.

(** A tool message has the id of its tool call and is not pending. *)
Definition well_made (m : BaseMessage) : Prop :=
  role m = RTool -> toolCallId (tool m) = Some (id_ m) /\ isPending m ≠ Some true.

(** The steps by which the controller changes the transcript: a quiet
    mutation of one message or of all, the removal of messages, a new
    message with a new id at the end, and the confirmation of a pending
    message under a new id. *)
Inductive evolves : list BaseMessage -> list BaseMessage -> Prop :=
| ev_same l : evolves l l
| ev_update p f l : quiet f -> evolves l (update_first p f l)
| ev_all f l : quiet f -> evolves l (map f l)
| ev_filter (P : BaseMessage -> Prop) `{forall x, Decision (P x)} l :
    evolves l (filter P l)
| ev_take n l : evolves l (take n l)
| ev_add x l : id_ x ∉ map id_ l -> well_made x -> evolves l (l ++ [x])
| ev_confirm i backendId m l :
    l !! i = Some m -> isPending m = Some true -> backendId ∉ map id_ l ->
    evolves l (alter (fun m => set_isPending (Some false) (set_id backendId m)) i l)
| ev_trans l1 l2 l3 : evolves l1 l2 -> evolves l2 l3 -> evolves l1 l3.

(** An operation of the controller itself, not a direct use of its
    state. *)
Definition controller_only (op : ChatController.Op) : bool :=
  match op with
  | ChatController.OnState _ => false
  | _ => true
  end.


(** ** What the instance counter holds

    The value that [assignToolInstance] returns for the [n]-th
    [tool_start] of a tool name, and the own property that the counts hold
    for the name after [n] of them, as the three kinds of names have
    them. *)
Definition nth_instance (toolName' : string) (n : nat) : Member :=
  if String.eqb toolName' "__proto__" then MPrototype
  else if bool_decide (toolName' ∈ ChatController.Object_prototype_functions) then
    match n with
    | 0 | 1 => MNaN
    | S (S k) => MNumber (S k)
    end
  else MNumber n.

Definition own_count (toolName' : string) (n : nat) : option Member :=
  if String.eqb toolName' "__proto__" then None
  else match n with
       | 0 => None
       | S _ => Some (nth_instance toolName' n)
       end.

(** ** What subscribers have seen *)

(** The snapshot of the last call of [fn] among [calls]. *)
Fixpoint latest (fn : Subscriber) (calls : list (Subscriber * ChatStateSnapshot))
  : option ChatStateSnapshot :=
  match calls with
  | [] => None
  | (g, snap) :: rest =>
      match latest fn rest with
      | Some later => Some later
      | None => if Nat.eqb g fn then Some snap else None
      end
  end.

(** Every subscriber has last been called with the state as it is. *)
Definition up_to_date (s : ChatState.t) : Prop :=
  forall fn, fn ∈ ChatState.subscribers s ->
             latest fn (ChatState.delivered s) = Some (ChatState.snapshot s).

(** The state is returned as it was, or ends with a notification. *)
Definition settled (s s' : ChatState.t) : Prop :=
  s' = s \/ exists x, s' = ChatState.emit x.

(** An operation of the controller or a subscription. *)
Definition controller_or_subscribe (op : ChatController.Op) : Prop :=
  controller_only op = true
  \/ exists fn, op = ChatController.OnState (ChatState.subscribe fn).

(** A [thread_sync] event. *)
Definition is_thread_sync_event (op : ChatController.Op) : bool :=
  match op with
  | ChatController.OnStreamEvent (thread_sync _) _ _ => true
  | _ => false
  end.


(** ** Further observations on the model *)

(** A line that [processStream] takes for the end marker. *)
Definition is_done_line (line : string) : bool :=
  String.prefix "data: " line && String.eqb (trim (slice 6 line)) "[DONE]".

(** The lines of a text that are closed by a line feed. *)
Definition complete_lines (text : string) : list string :=
  removelast (split_lines text).

(** The text of a whole stream, from the texts of its reads. *)
Definition whole_text (chunks : list string) : string :=
  foldr String.append "" chunks.

(** The [type] values that [handleStreamEvent] has a case for. *)
Definition known_event_types : list string :=
  ["user_message_confirmed"; "assistant_start"; "assistant_token";
   "assistant_complete"; "tool_start"; "tool_token"; "tool_complete"; "error";
   "approval_request"; "batch_approval_request"].

Definition is_thread_sync (cb : RestChatService.Callback) : bool :=
  match cb with
  | RestChatService.StreamEventCb (RestChatService.raw_thread_sync _) => true
  | _ => false
  end.


(** No line is an end marker. *)
Definition no_marker (lines : list string) : bool :=
  forallb (fun line => negb (is_done_line line)) lines.

(** What [processStream] does when the reads end. *)
Definition read_end_calls (svc : RestChatService.t)
    (last_read : RestChatService.ReadEnd) : list RestChatService.Callback :=
  match last_read with
  | RestChatService.ReadDone => []
  | RestChatService.ReadRejects reason => RestChatService.call_error svc reason
  end.

(** Every callback of a list is an error callback or a stream event that
    is not a [thread_sync]. *)
Definition no_thread_sync (calls : list RestChatService.Callback) : Prop :=
  Forall (fun cb => is_thread_sync cb = false) calls.

(** The [thread_sync] that the response header asks for. *)
Definition header_sync (threadId' : option string) (res : RestChatService.Response)
  : list RestChatService.Callback :=
  match threadId', RestChatService.header_X_Thread_ID res with
  | Some sent, Some received =>
      if negb (String.eqb sent "") && negb (String.eqb received "")
         && negb (String.eqb received sent)
      then [RestChatService.StreamEventCb (RestChatService.raw_thread_sync received)]
      else []
  | _, _ => []
  end.


(** ** Further scenarios *)

Module Samples.
Import Scenario.

(** The controller after [send("Hello")] and the start of the answer
    [m1]. *)
Definition streaming_controller : ChatController.t :=
  ChatController.onStreamEvent no_stringify (assistant_start "m1" 20%Z) 21%Z "u0"
    sample_controller.

Definition fetch_failed : Js.Error :=
  {| Js.name := "TypeError"; Js.message := "Failed to fetch" |}.

(** The rejection of a [fetch] whose request was aborted. *)
Definition fetch_aborted : Js.Error :=
  {| Js.name := "AbortError"; Js.message := "The user aborted a request." |}.

(** A response of a backend that has moved the conversation to the thread
    [thread-2]. *)
Definition moved_response : RestChatService.Response :=
  {| RestChatService.ok := true; RestChatService.status := 200;
     RestChatService.statusText := "OK";
     RestChatService.header_X_Thread_ID := Some "thread-2";
     RestChatService.json := inr Js.Null;
     RestChatService.body := Some ([], RestChatService.ReadDone) |}.

(** Responses with a status that is not a success: a validation failure
    with a structured body, a failure with an [error] text, and a failure
    whose body has a [toString] of its own and no [error] text. *)
Definition validation_response : RestChatService.Response :=
  {| RestChatService.ok := false; RestChatService.status := 422;
     RestChatService.statusText := "Unprocessable Entity";
     RestChatService.header_X_Thread_ID := None;
     RestChatService.json :=
       inr (Js.Obj [("detail",
              Js.Arr [Js.Obj [("msg", Js.Str "field required");
                              ("field", Js.Str "message")]])]);
     RestChatService.body := None |}.



(** A subscription, [send("Hello")] and the start of the answer. *)
Definition sample_run : list ChatController.Op :=
  [ChatController.OnState (ChatState.subscribe 7);
   ChatController.OpSend "Hello" "c-1" "l-1" 10%Z 11%Z;
   ChatController.OnStreamEvent (assistant_start "m1" 20%Z) 21%Z "u0"].

(** [send("Hello")], an approval request for the tool call [t1], its
    approval and start, the start of a second tool call, and the
    confirmation of the user message. *)
Definition tool_run : list ChatController.Op :=
  [ChatController.OpSend "Hello" "c-1" "l-1" 10%Z 11%Z;
   ChatController.OnStreamEvent
     (approval_request "t1" "lookup" (Js.Obj []) sample_metadata) 30%Z "u-1";
   ChatController.OpApproveToolCall "t1" None;
   ChatController.OnStreamEvent (tool_start "t1" "lookup" (Js.Obj [])) 31%Z "u-2";
   ChatController.OnStreamEvent (tool_start "t2" "lookup" (Js.Obj [])) 32%Z "u-3";
   ChatController.OnStreamEvent (assistant_start "m1" 33%Z) 34%Z "u-4";
   ChatController.OnStreamEvent
     (user_message_confirmed "m-9" "c-1" "Hello" 35%Z) 36%Z "u-5";
   ChatController.OpRegenerate "t2" "l-2" 37%Z;
   ChatController.OpRegenerateSettle (Rejected network_down)].

(** Two starts of a tool whose name is [constructor]. *)
Definition constructor_starts : list ChatController.Op :=
  [ChatController.OnStreamEvent (tool_start "t1" "constructor" (Js.Obj [])) 1%Z "u1";
   ChatController.OnStreamEvent (tool_start "t2" "constructor" (Js.Obj [])) 2%Z "u2"].

(** A payload whose [type] is an object with a [toString] of its own, and
    an engine that parses it. *)
Definition odd_type_payload : string :=
  "{" +:+ DQ +:+ "type" +:+ DQ +:+ ":{" +:+ DQ +:+ "toString" +:+ DQ +:+ ":1}}".

Definition odd_type_object : Js.value :=
  Js.Obj [("type", Js.Obj [("toString", Js.Num 1)])].

Definition odd_parse (s : string) : Js.Error + Js.value :=
  if String.eqb s odd_type_payload then inr odd_type_object else sample_parse s.


End Samples.


(** * Properties *)

(** ** Arrays *)

Lemma find_existsb {A} (p : A -> bool) (l : list A) :
  existsb p l = true <-> is_Some (find p l).
Proof.
  induction l as [|x l IH]; simpl.
  - split; [discriminate | intros [? ?]; discriminate].
  - destruct (p x); simpl; [split; eauto | exact IH].
Qed.

Lemma find_none_existsb {A} (p : A -> bool) (l : list A) :
  find p l = None <-> existsb p l = false.
Proof.
  induction l as [|x l IH]; simpl; [tauto|].
  destruct (p x); simpl; [split; discriminate | exact IH].
Qed.

Lemma find_none_forall {A} (p : A -> bool) (l : list A) :
  find p l = None <-> forall x, x ∈ l -> p x = false.
Proof.
  induction l as [|x l IH]; simpl.
  - split; [intros _ y Hy; inversion Hy | reflexivity].
  - destruct (p x) eqn:Hp.
    + split; [discriminate|]. intros H. rewrite (H x) in Hp; [discriminate|].
      apply elem_of_cons. by left.
    + rewrite IH. split.
      * intros H y Hy. apply elem_of_cons in Hy as [->|Hy]; auto.
      * intros H y Hy. apply H. apply elem_of_cons. by right.
Qed.

Lemma findIndex_lookup {A} (p : A -> bool) (l : list A) (i : nat) :
  findIndex p l = Some i -> exists x, l !! i = Some x /\ p x = true.
Proof.
  revert i. induction l as [|x l IH]; intros i; simpl; [discriminate|].
  destruct (p x) eqn:Hp.
  - intros [= <-]. eauto.
  - destruct (findIndex p l) as [j|]; simpl; [|discriminate].
    intros [= <-]. simpl. by apply IH.
Qed.

Lemma find_lookup_some {A} (p : A -> bool) (l : list A) (i : nat) (x : A) :
  l !! i = Some x -> p x = true -> is_Some (find p l).
Proof.
  intros Hl Hp. apply find_existsb, existsb_exists.
  exists x. split; [|done]. apply list_elem_of_In. by eapply list_elem_of_lookup_2.
Qed.

Lemma update_first_length {A} (p : A -> bool) (f : A -> A) (l : list A) :
  length (update_first p f l) = length l.
Proof.
  induction l as [|x l IH]; simpl; [done|]. destruct (p x); simpl; congruence.
Qed.

Lemma update_first_none {A} (p : A -> bool) (f : A -> A) (l : list A) :
  find p l = None -> update_first p f l = l.
Proof.
  induction l as [|x l IH]; simpl; [done|].
  destruct (p x); [discriminate|]. intros H. by rewrite IH.
Qed.

(** The object that [find] returns, once mutated, is found again when the
    mutation keeps the predicate. *)
Lemma find_update_first {A} (p : A -> bool) (f : A -> A) (l : list A) (x : A) :
  find p l = Some x -> p (f x) = true -> find p (update_first p f l) = Some (f x).
Proof.
  induction l as [|y l IH]; simpl; [discriminate|].
  destruct (p y) eqn:Hp.
  - intros [= ->] Hf. simpl. by rewrite Hf.
  - intros Hx Hf. simpl. rewrite Hp. by apply IH.
Qed.

Lemma find_app_none {A} (p : A -> bool) (l1 l2 : list A) :
  find p l1 = None -> find p (l1 ++ l2) = find p l2.
Proof.
  induction l1 as [|x l1 IH]; simpl; [done|].
  destruct (p x); [discriminate | exact IH].
Qed.

Lemma update_first_app_none {A} (p : A -> bool) (f : A -> A) (l1 l2 : list A) :
  find p l1 = None -> update_first p f (l1 ++ l2) = l1 ++ update_first p f l2.
Proof.
  induction l1 as [|x l1 IH]; simpl; [done|].
  destruct (p x); [discriminate|]. intros H. by rewrite IH.
Qed.

(** The object that [find] returns is mutated where it is. *)
Lemma update_first_split {A} (p : A -> bool) (f : A -> A) (l : list A) (x : A) :
  find p l = Some x ->
  exists l1 l2,
    l = l1 ++ x :: l2 /\ find p l1 = None
    /\ update_first p f l = l1 ++ f x :: l2.
Proof.
  induction l as [|y l IH]; [done|]. cbn [find update_first].
  destruct (p y) eqn:Hp.
  - intros [= ->]. by exists [], l.
  - intros Hx. destruct (IH Hx) as (l1 & l2 & -> & H1 & H2).
    exists (y :: l1), l2. cbn [find app]. rewrite Hp, H2. done.
Qed.

(** ** The conversation state *)

Module ChatStateFacts.
Import ChatState Scenario.

Lemma existsb_has_id (i : string) (l : list BaseMessage) :
  existsb (has_id i) l = true <-> i ∈ map id_ l.
Proof.
  rewrite existsb_exists, list_elem_of_fmap. unfold has_id. split.
  - intros (x & Hx & He). exists x. apply String.eqb_eq in He.
    split; [done | by apply list_elem_of_In].
  - intros (x & -> & Hx). exists x. split; [by apply list_elem_of_In|].
    apply String.eqb_refl.
Qed.

(** C7. Adding a message whose id already occurs in the transcript, with
    [addMessage] or with [addToolMessage], returns the state as it was: the
    transcript has the same length and the same messages, and no subscriber
    is called. *)
Theorem add_duplicate_id_noop (m : BaseMessage) (s : ChatState.t) :
  id_ m ∈ map id_ (messages s) ->
  addMessage m s = s /\ addToolMessage m s = s
  /\ length (messages (addMessage m s)) = length (messages s)
  /\ messages (addMessage m s) = messages s
  /\ messages (addToolMessage m s) = messages s
  /\ delivered (addMessage m s) = delivered s
  /\ delivered (addToolMessage m s) = delivered s.
Proof.
  intros Hin. apply existsb_has_id in Hin.
  unfold addMessage, addToolMessage. rewrite Hin. repeat split.
Qed.

Lemma add_duplicate_id_noop_witness :
  id_ sample_user ∈ map id_ (messages sample_state)
  /\ addMessage sample_user sample_state = sample_state.
Proof.
  assert (H : id_ sample_user ∈ map id_ (messages sample_state)).
  { apply existsb_has_id. reflexivity. }
  split; [exact H|]. exact (proj1 (add_duplicate_id_noop sample_user sample_state H)).
Defined.

Lemma syncUserMessage_resolved (backendId cid : string) (s : ChatState.t) (i : nat) :
  find (has_id backendId) (messages s) = None ->
  findIndex (is_pending_for cid) (messages s) = Some i ->
  is_Some (find (has_id backendId) (messages (syncUserMessage backendId cid s))).
Proof.
  intros Hnone Hidx. unfold syncUserMessage. rewrite Hnone, Hidx. simpl.
  destruct (findIndex_lookup _ _ _ Hidx) as (x & Hx & _).
  eapply (find_lookup_some _ _ i).
  - rewrite list_lookup_alter_eq, Hx. reflexivity.
  - unfold has_id. simpl. apply String.eqb_refl.
Qed.

(** C8. [syncUserMessage(backendId, correlationId)] is idempotent on every
    state: a second call with the same arguments returns the state that the
    first call left, unchanged, and no subscriber is called again.  This
    covers the call after a successful resolution, in which the pending
    message found by its correlation id gets the backend id and
    [isPending = false] where it is.  No call changes the number of
    messages, and a call that finds no pending message with that
    correlation id returns the state as it was. *)
Theorem syncUserMessage_idempotent (backendId cid : string) (s : ChatState.t) :
  let s1 := syncUserMessage backendId cid s in
  syncUserMessage backendId cid s1 = s1
  /\ length (messages s1) = length (messages s)
  /\ (findIndex (is_pending_for cid) (messages s) = None -> s1 = s)
  /\ (forall i m,
        find (has_id backendId) (messages s) = None ->
        findIndex (is_pending_for cid) (messages s) = Some i ->
        messages s !! i = Some m ->
        messages s1
        = <[i := set_isPending (Some false) (set_id backendId m)]> (messages s)
        /\ delivered s1
           = delivered s ++ map (fun fn => (fn, snapshot s1)) (subscribers s)).
Proof.
  intros s1. subst s1. split; [|split; [|split]].
  - destruct (find (has_id backendId) (messages s)) eqn:Hf.
    + unfold syncUserMessage at 2. rewrite Hf.
      unfold syncUserMessage. by rewrite Hf.
    + destruct (findIndex (is_pending_for cid) (messages s)) as [i|] eqn:Hi.
      * destruct (syncUserMessage_resolved backendId cid s i Hf Hi) as [x Hx].
        unfold syncUserMessage at 1. by rewrite Hx.
      * unfold syncUserMessage at 2. rewrite Hf, Hi.
        unfold syncUserMessage. by rewrite Hf, Hi.
  - unfold syncUserMessage.
    destruct (find _ _); [done|]. destruct (findIndex _ _); [|done].
    simpl. apply length_alter.
  - intros Hi. unfold syncUserMessage. rewrite Hi. by destruct (find _ _).
  - intros i m Hf Hi Hm. unfold syncUserMessage. rewrite Hf, Hi.
    split; [|reflexivity]. cbn [messages emit with_messages].
    clear Hf Hi. revert i Hm.
    induction (messages s) as [|y l IH]; intros [|i] Hl;
      simpl in *; try discriminate.
    + by inversion Hl.
    + f_equal. by apply IH.
Qed.

(** A successful synchronisation followed by its duplicate, on a
    transcript with a pending user message. *)
Example syncUserMessage_twice :
  let s1 := syncUserMessage "m1" "c-1" sample_pending in
  map id_ (messages sample_pending) = ["c-1"; "l-1"]
  /\ map id_ (messages s1) = ["m1"; "l-1"]
  /\ map isPending (messages s1) = [Some false; None]
  /\ syncUserMessage "m1" "c-1" s1 = s1.
Proof. repeat split. Qed.

(** C10. [subscribe(fn)] calls [fn] once, inside the call, with the
    snapshot of the state as it is then: the thread id and the messages of
    that state.  The call is the last one recorded when [subscribe]
    returns, [fn] is registered for what follows, and the state is
    otherwise untouched. *)
Theorem subscribe_delivers_current_snapshot (fn : Subscriber) (s : ChatState.t) :
  delivered (subscribe fn s)
  = delivered s
      ++ [(fn, {| snap_threadId := threadId s; snap_messages := messages s |})]
  /\ subscribers (subscribe fn s) = subscribers s ++ [fn]
  /\ messages (subscribe fn s) = messages s
  /\ threadId (subscribe fn s) = threadId s.
Proof. repeat split. Qed.

(** What follows a subscription reaches the subscriber after the snapshot
    of the subscription, and with its own snapshot. *)
Lemma subscribe_then_emit (fn : Subscriber) (s : ChatState.t) :
  exists calls,
    delivered (emit (subscribe fn s))
    = delivered s ++ [(fn, snapshot s)] ++ calls
    /\ (fn, snapshot s) ∈ calls.
Proof.
  exists (map (fun g => (g, snapshot s)) (subscribers s ++ [fn])). split.
  - simpl. by rewrite <- app_assoc.
  - rewrite map_app. apply elem_of_app. right. simpl. apply elem_of_cons. by left.
Qed.

End ChatStateFacts.

(** ** Strings *)

Lemma append_nil_r (s : string) : s +:+ "" = s.
Proof.
  induction s as [|a s IH]; [reflexivity|].
  change (String a (s +:+ "") = String a s). by rewrite IH.
Qed.

Lemma append_assoc (a b c : string) : (a +:+ b) +:+ c = a +:+ (b +:+ c).
Proof.
  induction a as [|x a IH]; [reflexivity|].
  change (String x ((a +:+ b) +:+ c) = String x (a +:+ (b +:+ c))). by rewrite IH.
Qed.

Lemma concat_cons (x : string) (xs : list string) :
  String.concat "" (x :: xs) = x +:+ String.concat "" xs.
Proof. destruct xs; [symmetry; apply append_nil_r | reflexivity]. Qed.

(** ** The controller *)

Module ChatControllerFacts.
Import ChatState ChatController Scenario.

Lemma messages_removeLoading (s : ChatState.t) :
  messages (removeLoadingMessages s) = filter not_loading (messages s).
Proof. reflexivity. Qed.

Lemma no_loading_after_removeLoading (s : ChatState.t) (x : BaseMessage) :
  x ∈ messages (removeLoadingMessages s) -> Js.flag (isLoading x) = false.
Proof.
  rewrite messages_removeLoading, list_elem_of_filter. unfold not_loading.
  intros [H _]. by destruct (Js.flag (isLoading x)).
Qed.

Lemma has_loading_removeLoading (s : ChatState.t) :
  has_loading (removeLoadingMessages s) = false.
Proof.
  unfold has_loading. apply not_true_is_false. intros H.
  apply existsb_exists in H as (x & Hx & Hl).
  apply list_elem_of_In, no_loading_after_removeLoading in Hx. congruence.
Qed.

Lemma has_loading_after_add_removeLoading (m : BaseMessage) (s : ChatState.t) :
  Js.flag (isLoading m) = false ->
  has_loading (addMessage m (removeLoadingMessages s)) = false.
Proof.
  intros Hm. pose proof (has_loading_removeLoading s) as H.
  unfold addMessage. destruct (existsb _ _); [done|].
  unfold has_loading in *. cbn [messages emit with_messages].
  rewrite existsb_app, H. simpl. by rewrite Hm.
Qed.

Lemma elem_of_update_first_other {A} (p : A -> bool) (f : A -> A)
    (l : list A) (x : A) :
  x ∈ l -> p x = false -> x ∈ update_first p f l.
Proof.
  intros Hx Hp. induction l as [|y l IH]; simpl; [done|].
  apply elem_of_cons in Hx as [->|Hx].
  - rewrite Hp. apply elem_of_cons. by left.
  - destruct (p y); apply elem_of_cons; right; [done | by apply IH].
Qed.

Lemma elem_of_addToolMessage (m x : BaseMessage) (s : ChatState.t) :
  x ∈ messages s -> x ∈ messages (addToolMessage m s).
Proof.
  intros Hx. unfold addToolMessage. destruct (existsb _ _); [done|].
  cbn [messages emit with_messages]. apply elem_of_app. by left.
Qed.

Section Reduction.

Variable JSON_stringify : Js.value -> string.

Lemma appendToMessage_last (m tok : string) (s : ChatState.t)
    (pre : list BaseMessage) (x : BaseMessage) :
  messages s = pre ++ [x] -> find (has_id m) pre = None -> id_ x = m ->
  messages (appendToMessage m tok s) = pre ++ [set_message (message x +:+ tok) x].
Proof.
  intros Hs Hpre Hx. unfold appendToMessage. rewrite Hs.
  assert (Hh : has_id m x = true) by (unfold has_id; rewrite Hx; apply String.eqb_refl).
  rewrite find_app_none by done. simpl. rewrite Hh. simpl.
  rewrite update_first_app_none by done. simpl. by rewrite Hh.
Qed.

Lemma run_tokens (m : string) (deliveries : list (string * (Time * string)))
    (c : ChatController.t) (pre : list BaseMessage) (x : BaseMessage) :
  messages (state c) = pre ++ [x] -> find (has_id m) pre = None -> id_ x = m ->
  messages (state (run JSON_stringify (token_events m deliveries) c))
  = pre ++ [set_message (message x +:+ String.concat "" (deliveries.*1)) x].
Proof.
  revert c x. induction deliveries as [|[tok env] ds IH]; intros c x Hs Hpre Hx.
  - simpl. rewrite append_nil_r, Hs. by destruct x.
  - change (run JSON_stringify (token_events m ((tok, env) :: ds)) c)
      with (run JSON_stringify (token_events m ds)
              (on_state (appendToMessage m tok) c)).
    rewrite (IH _ (set_message (message x +:+ tok) x)); [| |done|done].
    + rewrite fmap_cons, concat_cons. simpl. by rewrite append_assoc.
    + simpl. by apply appendToMessage_last.
Qed.

(** C1. An [assistant_start] event with id [m], reduced in a state whose
    messages that outlast it (those that are not loading placeholders) do
    not use [m], creates the assistant message as the last message, with
    an empty text and [isStreaming = true]; after the controller reduces
    any sequence of [assistant_token] events for [m], that message is the
    one found under [m], it is still the last one, and its text is the
    concatenation of the tokens in order. *)
Theorem assistant_tokens_concatenate (c : ChatController.t) (m : string)
    (ts now : Time) (uuid : string)
    (deliveries : list (string * (Time * string))) :
  (forall x, x ∈ messages (state c) -> not_loading x -> id_ x ≠ m) ->
  let c1 := onStreamEvent JSON_stringify (assistant_start m ts) now uuid c in
  let c2 := run JSON_stringify (token_events m deliveries) c1 in
  let text := String.concat "" (deliveries.*1) in
  messages (state c1)
  = filter not_loading (messages (state c)) ++ [assistant_message m ts]
  /\ messages (state c2)
     = filter not_loading (messages (state c))
         ++ [set_message text (assistant_message m ts)]
  /\ getMessage m (state c2) = Some (set_message text (assistant_message m ts))
  /\ message (set_message text (assistant_message m ts)) = text.
Proof.
  intros Hfresh c1 c2 text.
  assert (Hnone : find (has_id m) (filter not_loading (messages (state c))) = None).
  { apply find_none_forall. intros x Hx. apply list_elem_of_filter in Hx as [Hl Hx].
    unfold has_id. apply String.eqb_neq. by apply Hfresh. }
  assert (H1 : messages (state c1)
               = filter not_loading (messages (state c)) ++ [assistant_message m ts]).
  { subst c1. simpl. unfold addMessage.
    rewrite messages_removeLoading.
    apply find_none_existsb in Hnone. simpl id_. rewrite Hnone. reflexivity. }
  assert (H2 : messages (state c2)
               = filter not_loading (messages (state c))
                   ++ [set_message text (assistant_message m ts)]).
  { subst c2. rewrite (run_tokens m deliveries c1 _ _ H1 Hnone eq_refl).
    reflexivity. }
  repeat split; [exact H1 | exact H2 |].
  unfold getMessage. rewrite H2, find_app_none by done.
  simpl. unfold has_id. simpl. by rewrite String.eqb_refl.
Qed.

(** *** The tool instance counter *)

Lemma assignToolInstance_next (n : string) (k : nat) (counts : gmap string Member) :
  counts !! n = own_count n k ->
  (assignToolInstance n counts).2 = nth_instance n (S k)
  /\ (assignToolInstance n counts).1 !! n = own_count n (S k).
Proof.
  intros Hc. unfold assignToolInstance. cbn [fst snd].
  destruct (String.eqb n "__proto__") eqn:Hp.
  - unfold read_count, write_count, own_count, nth_instance in *.
    rewrite Hp in *. cbn [truthy_member negb]. by split.
  - assert (Hr : forall v cs, read_count n (write_count n v cs) = v).
    { intros v cs. unfold read_count, write_count.
      by rewrite Hp, lookup_insert_eq. }
    assert (Hl : forall v cs, write_count n v cs !! n = Some v).
    { intros v cs. unfold write_count. by rewrite Hp, lookup_insert_eq. }
    rewrite Hr, Hl.
    assert (Hown : own_count n (S k) = Some (nth_instance n (S k))).
    { unfold own_count. by rewrite Hp. }
    rewrite Hown.
    assert (Hnext : incremented
                      (read_count n
                         (if negb (truthy_member (read_count n counts))
                          then write_count n (MNumber 0) counts
                          else counts))
                    = nth_instance n (S k)); [|by rewrite Hnext].
    assert (Hread : read_count n counts
                    = match own_count n k with
                      | Some v => v
                      | None =>
                          if bool_decide (n ∈ Object_prototype_functions)
                          then MFunction else MUndefined
                      end).
    { unfold read_count. by rewrite Hp, Hc. }
    rewrite Hread. unfold own_count, nth_instance. rewrite Hp.
    destruct (bool_decide (n ∈ Object_prototype_functions)) eqn:Hf.
    + destruct k as [|[|k]]; cbn [truthy_member negb]; rewrite ?Hr, ?Hread;
        unfold own_count, nth_instance; rewrite ?Hp, ?Hf; done.
    + destruct k as [|k]; cbn [truthy_member negb]; rewrite ?Hr, ?Hread;
        unfold own_count, nth_instance; rewrite ?Hp, ?Hf; done.
Qed.

Lemma write_count_other (n n' : string) (v : Member) (counts : gmap string Member) :
  n ≠ n' -> write_count n v counts !! n' = counts !! n'.
Proof.
  intros Hne. unfold write_count. destruct (String.eqb n "__proto__"); [done|].
  by rewrite lookup_insert_ne.
Qed.

Lemma assignToolInstance_other (n n' : string) (counts : gmap string Member) :
  n ≠ n' -> (assignToolInstance n counts).1 !! n' = counts !! n'.
Proof.
  intros Hne. unfold assignToolInstance. cbn [fst].
  rewrite write_count_other by done.
  destruct (negb _); [by apply write_count_other | done].
Qed.

Lemma counts_batch_begin (ds : list (string * (bool * string))) (c : ChatController.t) :
  toolInstanceCounts (submitBatchApproval ds c).1 = toolInstanceCounts c.
Proof.
  unfold submitBatchApproval. simpl. revert c.
  induction ds as [|[i [a l]] ds IH]; intros c; simpl; [done|]. by rewrite IH.
Qed.

Lemma counts_batch_settle (ds : list (string * (bool * string))) (o : Settled)
    (c : ChatController.t) :
  toolInstanceCounts (submitBatchApproval_settle ds o c).1 = toolInstanceCounts c.
Proof.
  destruct o as [|r]; simpl; [done|]. revert c.
  induction ds as [|[i d] ds IH]; intros c; simpl; [done|]. by rewrite IH.
Qed.

(** Only the [tool_start] case writes the counts. *)
Lemma counts_step (c : ChatController.t) (op : Op) :
  toolInstanceCounts (step JSON_stringify c op)
  = match op with
    | OnStreamEvent (tool_start _ n _) _ _ =>
        (assignToolInstance n (toolInstanceCounts c)).1
    | _ => toolInstanceCounts c
    end.
Proof.
  destruct op as [e now uuid|err now uuid| | | i o | | i o | ds | ds o | | | o | | f];
    simpl; try done.
  - destruct e; simpl; try done; repeat case_match; done.
  - unfold onError. by destruct (_ && _).
  - by destruct o.
  - by destruct o.
  - apply counts_batch_begin.
  - apply counts_batch_settle.
  - by destruct o.
Qed.

Lemma count_tool_starts_cons (n : string) (op : Op) (ops : list Op) :
  count_tool_starts n (op :: ops)
  = (if is_tool_start_of n op then 1 else 0) + count_tool_starts n ops.
Proof. unfold count_tool_starts. simpl. by destruct (is_tool_start_of n op). Qed.

Lemma counts_run (ops : list Op) (c : ChatController.t) (n : string) (k : nat) :
  toolInstanceCounts c !! n = own_count n k ->
  toolInstanceCounts (run JSON_stringify ops c) !! n
  = own_count n (k + count_tool_starts n ops).
Proof.
  revert c k. induction ops as [|op ops IH]; intros c k Hc.
  - cbn [run foldl]. unfold count_tool_starts. cbn [List.filter length].
    by rewrite Nat.add_0_r.
  - change (run JSON_stringify (op :: ops) c)
      with (run JSON_stringify ops (step JSON_stringify c op)).
    rewrite count_tool_starts_cons.
    destruct (is_tool_start_of n op) eqn:Hop.
    + replace (k + (1 + count_tool_starts n ops))
        with (S k + count_tool_starts n ops) by lia.
      apply IH. rewrite counts_step.
      destruct op as [e ? ?| | | | | | | | | | | | |]; try done.
      destruct e; try done. cbn [is_tool_start_of] in Hop.
      apply String.eqb_eq in Hop as ->.
      by apply assignToolInstance_next.
    + cbn [Nat.add]. apply IH. rewrite counts_step.
      destruct op as [e ? ?| | | | | | | | | | | | |]; try done.
      destruct e; try done. cbn [is_tool_start_of] in Hop.
      apply String.eqb_neq in Hop. by rewrite assignToolInstance_other.
Qed.

Lemma existsb_has_id_started (i j : string) (l : list BaseMessage) :
  existsb (has_id j) (update_first (is_tool_call i) started l)
  = existsb (has_id j) l.
Proof.
  induction l as [|x l IH]; [done|]. cbn [update_first].
  destruct (is_tool_call i x); cbn [existsb].
  - f_equal. unfold has_id, started. cbn.
    by destruct (approvalStatus (tool x)) as [[|]|].
  - by rewrite IH.
Qed.

Lemma instanceNumber_started (i : string) (l : list BaseMessage) :
  map (fun m => instanceNumber (tool m)) (update_first (is_tool_call i) started l)
  = map (fun m => instanceNumber (tool m)) l.
Proof.
  induction l as [|x l IH]; [done|]. cbn [update_first].
  destruct (is_tool_call i x); cbn [map].
  - f_equal. unfold started. cbn. by destruct (approvalStatus (tool x)) as [[|]|].
  - by rewrite IH.
Qed.

(** C9, as the code has it.  In a controller that has gone through any
    run [pre] of callbacks and operations since its creation, the next
    [tool_start] for [toolName] is the n-th, n being one more than the
    number of [tool_start] events for [toolName] in [pre].  For a tool name
    that is not the name of a member of [Object.prototype] it is assigned n.
    For the name of a function member ([constructor], [toString], ...) the
    first is assigned [NaN] and the n-th, from the second on, n - 1.  For
    [__proto__] every one is assigned the object [Object.prototype].  When
    no message has the id of the call, the event appends one tool message,
    whose [instanceNumber] is the value assigned; when a message has it,
    as after an approval request, no message is added and none gets the
    value.  Anything else that happens, a new thread included, leaves the
    value that the next [tool_start] for [toolName] gets as it was. *)
Theorem tool_instance_counter_monotonic (s0 : ChatState.t) (pre : list Op)
    (toolName' : string) :
  let c := run JSON_stringify pre (ChatController.new s0) in
  let earlier := count_tool_starts toolName' pre in
  ((toolName' ∉ "__proto__" :: Object_prototype_functions) ->
   assigned_instance toolName' c = MNumber (S earlier))
  /\ (toolName' ∈ Object_prototype_functions ->
      assigned_instance toolName' c
      = match earlier with
        | 0 => MNaN
        | S k => MNumber (S k)
        end)
  /\ (toolName' = "__proto__" -> assigned_instance toolName' c = MPrototype)
  /\ (forall toolCallId' toolInput' now uuid,
        let c' :=
          step JSON_stringify c
            (OnStreamEvent (tool_start toolCallId' toolName' toolInput') now uuid) in
        let updated :=
          update_first (is_tool_call toolCallId') started (messages (state c)) in
        ((toolCallId' ∉ map id_ (messages (state c))) ->
         exists m,
           messages (state c') = updated ++ [m]
           /\ id_ m = toolCallId'
           /\ toolName (tool m) = Some toolName'
           /\ instanceNumber (tool m) = Some (assigned_instance toolName' c))
        /\ (toolCallId' ∈ map id_ (messages (state c)) ->
            messages (state c') = updated
            /\ map (fun m => instanceNumber (tool m)) (messages (state c'))
               = map (fun m => instanceNumber (tool m)) (messages (state c))))
  /\ (forall op, is_tool_start_of toolName' op = false ->
        assigned_instance toolName' (step JSON_stringify c op)
        = assigned_instance toolName' c)
  /\ (forall newId now,
        assigned_instance toolName'
          (step JSON_stringify c (OnState (setThreadId newId now)))
        = assigned_instance toolName' c).
Proof.
  intros c earlier.
  assert (Hown : toolInstanceCounts c !! toolName' = own_count toolName' earlier).
  { subst c earlier.
    rewrite (counts_run pre (ChatController.new s0) toolName' 0); [done|].
    cbn [ChatController.new toolInstanceCounts]. rewrite lookup_empty.
    unfold own_count. by destruct (String.eqb toolName' "__proto__"). }
  assert (Hc : assigned_instance toolName' c = nth_instance toolName' (S earlier)).
  { unfold assigned_instance. by apply assignToolInstance_next. }
  assert (Hkeep : forall op, is_tool_start_of toolName' op = false ->
            assigned_instance toolName' (step JSON_stringify c op)
            = assigned_instance toolName' c).
  { intros op Hop. rewrite Hc. unfold assigned_instance.
    apply assignToolInstance_next. rewrite counts_step.
    destruct op as [e ? ?| | | | | | | | | | | | |]; try done.
    destruct e; try done. cbn [is_tool_start_of] in Hop.
    apply String.eqb_neq in Hop. by rewrite assignToolInstance_other. }
  split; [|split; [|split; [|split; [|split; [exact Hkeep|]]]]].
  - intros Hn. rewrite Hc. unfold nth_instance.
    apply not_elem_of_cons in Hn as [Hp Hf].
    apply String.eqb_neq in Hp. rewrite Hp.
    by rewrite bool_decide_eq_false_2.
  - intros Hf. rewrite Hc. unfold nth_instance.
    assert (Hp : String.eqb toolName' "__proto__" = false).
    { apply String.eqb_neq. intros ->.
      assert (Hn : "__proto__" ∉ Object_prototype_functions); [|done].
      apply (bool_decide_unpack _). by vm_compute. }
    rewrite Hp, bool_decide_eq_true_2 by done. by destruct earlier.
  - intros ->. by rewrite Hc.
  - intros i inp now uuid c' updated. subst c'. cbn [step onStreamEvent].
    fold (assigned_instance toolName' c).
    unfold assigned_instance.
    destruct (assignToolInstance toolName' (toolInstanceCounts c)) as [counts v].
    cbn [state snd]. unfold addToolMessage.
    cbn [removeApprovalRequest messages emit with_messages id_ started_tool_message].
    rewrite existsb_has_id_started.
    destruct (existsb (has_id i) (messages (state c))) eqn:He.
    + apply ChatStateFacts.existsb_has_id in He. split; [done|]. intros _.
      cbn [messages emit with_messages]. split; [done|].
      apply instanceNumber_started.
    + split.
      * intros _. cbn [messages emit with_messages]. eexists.
        split; [reflexivity|]. by repeat split.
      * intros Hi. apply ChatStateFacts.existsb_has_id in Hi. congruence.
  - intros newId now. by apply Hkeep.
Qed.

(** *** Tool messages and approvals *)

Lemma Object_assign_keeps (updates : list Assignment) (m : BaseMessage) :
  id_ (Object_assign updates m) = id_ m
  /\ role (Object_assign updates m) = role m
  /\ toolCallId (tool (Object_assign updates m)) = toolCallId (tool m).
Proof.
  unfold Object_assign. revert m.
  induction updates as [|a us IH]; intros m; simpl; [done|].
  destruct (IH (assign1 m a)) as (-> & -> & ->). by destruct a.
Qed.

Lemma Object_assign_is_tool_call (i : string) (updates : list Assignment)
    (m : BaseMessage) :
  is_tool_call i (Object_assign updates m) = is_tool_call i m.
Proof.
  unfold is_tool_call.
  by destruct (Object_assign_keeps updates m) as (_ & -> & ->).
Qed.

Lemma started_keeps (i : string) (m : BaseMessage) :
  is_tool_call i (started m) = is_tool_call i m /\ id_ (started m) = id_ m.
Proof. unfold started. simpl. by destruct (approvalStatus (tool m)) as [[|]|]. Qed.

Lemma started_fields (m : BaseMessage) :
  waitingForApproval (tool (started m)) = Some false
  /\ approvalStatus (tool (started m)) = approvalStatus (tool m)
  /\ isStreaming (started m)
     = match approvalStatus (tool m) with
       | Some Approved => Some true
       | _ => isStreaming m
       end.
Proof.
  unfold started. simpl.
  destruct (approvalStatus (tool m)) as [[|]|] eqn:E; simpl; by rewrite ?E.
Qed.

Lemma found_after_update (i : string) (f : BaseMessage -> BaseMessage)
    (l : list BaseMessage) (tm : BaseMessage) :
  find (is_tool_call i) l = Some tm ->
  (forall m, is_tool_call i (f m) = is_tool_call i m) ->
  find (is_tool_call i) (update_first (is_tool_call i) f l) = Some (f tm).
Proof.
  intros Hf Hk. apply find_update_first; [done|].
  rewrite Hk. by destruct (find_some _ _ Hf).
Qed.

Lemma getTool_updateToolMessage (i : string) (updates : list Assignment)
    (s : ChatState.t) (tm : BaseMessage) :
  getToolMessageByCallId i s = Some tm ->
  getToolMessageByCallId i (updateToolMessage i updates s)
  = Some (Object_assign updates tm)
  /\ length (messages (updateToolMessage i updates s)) = length (messages s).
Proof.
  intros Hf. unfold updateToolMessage. rewrite Hf.
  unfold getToolMessageByCallId in *. simpl. split.
  - apply found_after_update; [done|].
    intros m. apply Object_assign_is_tool_call.
  - apply update_first_length.
Qed.

Lemma getTool_updateApprovalRequest (i : string) (approved : bool)
    (s : ChatState.t) (tm : BaseMessage) :
  getToolMessageByCallId i s = Some tm ->
  getToolMessageByCallId i (updateApprovalRequest i approved s)
  = Some (set_approvalStatus (Some (if approved then Approved else Denied)) tm)
  /\ length (messages (updateApprovalRequest i approved s)) = length (messages s).
Proof.
  intros Hf. unfold getToolMessageByCallId in *. simpl. split.
  - by apply found_after_update.
  - apply update_first_length.
Qed.

Lemma getTool_removeApprovalRequest (i : string) (s : ChatState.t)
    (tm : BaseMessage) :
  getToolMessageByCallId i s = Some tm ->
  getToolMessageByCallId i (removeApprovalRequest i s) = Some (started tm)
  /\ length (messages (removeApprovalRequest i s)) = length (messages s).
Proof.
  intros Hf. unfold getToolMessageByCallId in *. simpl. split.
  - apply (found_after_update i started); [done|].
    intros m. apply started_keeps.
  - apply update_first_length.
Qed.

Lemma found_has_id (i : string) (s : ChatState.t) (tm : BaseMessage) :
  getToolMessageByCallId i s = Some tm ->
  existsb (has_id (id_ tm)) (messages s) = true.
Proof.
  intros Hf. apply find_some in Hf as [Hin _].
  apply existsb_exists. exists tm. split; [done|].
  unfold has_id. apply String.eqb_refl.
Qed.

(** [tool_start] for a call whose tool message is in the transcript under
    the id of the call: the message is updated where it is and nothing is
    added. *)
Lemma tool_start_updates_existing (c : ChatController.t)
    (i n : string) (input : Js.value) (now : Time) (uuid : string)
    (tm : BaseMessage) :
  getToolMessageByCallId i (state c) = Some tm -> id_ tm = i ->
  let c' := onStreamEvent JSON_stringify (tool_start i n input) now uuid c in
  getToolMessageByCallId i (state c') = Some (started tm)
  /\ messages (state c')
     = update_first (is_tool_call i) started (messages (state c))
  /\ length (messages (state c')) = length (messages (state c)).
Proof.
  intros Hf Hid c'.
  destruct (getTool_removeApprovalRequest i (state c) tm Hf) as [Hg Hlen].
  assert (Hdup : existsb (has_id i) (messages (removeApprovalRequest i (state c))) = true).
  { pose proof (found_has_id _ _ _ Hg) as H.
    by rewrite (proj2 (started_keeps i tm)), Hid in H. }
  assert (Hs : state c' = removeApprovalRequest i (state c)).
  { subst c'. cbn [onStreamEvent].
    destruct (assignToolInstance n (toolInstanceCounts c)) as [counts k].
    cbn [state]. unfold addToolMessage. cbn [id_ started_tool_message].
    by rewrite Hdup. }
  rewrite Hs. repeat split; [exact Hg | exact Hlen].
Qed.

(** C4. For a tool call [i] whose id names, in the transcript, the tool
    message of that call and nothing else: the [approval_request] for [i]
    leaves a tool message for [i] with [waitingForApproval = true] and no
    approval status, created if there was none and updated otherwise; after
    the user approves, denies or does neither, [tool_start] for [i] updates
    that message where it is and adds none; the message then has
    [waitingForApproval = false], the approval status given in between,
    and [isStreaming = true] after an approval, while otherwise
    [isStreaming] is what it was (or [false], as the denial set it). *)
Theorem approval_then_tool_start (c : ChatController.t) (i n n' : string)
    (input input' : Js.value) (metadata : ApprovalMetadata)
    (now1 now2 : Time) (uuid1 uuid2 : string) (decision : UserDecision) :
  (forall x, x ∈ messages (state c) -> id_ x = i <-> is_tool_call i x = true) ->
  let c1 :=
    onStreamEvent JSON_stringify (approval_request i n input metadata) now1 uuid1 c in
  let c2 := decide_between i decision c1 in
  let c3 := onStreamEvent JSON_stringify (tool_start i n' input') now2 uuid2 c2 in
  exists tm1 tm3,
    getToolMessageByCallId i (state c1) = Some tm1
    /\ waitingForApproval (tool tm1) = Some true
    /\ approvalStatus (tool tm1) = None
    /\ getToolMessageByCallId i (state c3) = Some tm3
    /\ waitingForApproval (tool tm3) = Some false
    /\ approvalStatus (tool tm3) = decided_status decision
    /\ isStreaming tm3
       = match decision with
         | Approve _ => Some true
         | Deny => Some false
         | NoDecision => isStreaming tm1
         end
    /\ length (messages (state c3)) = length (messages (state c1))
    /\ messages (state c3)
       = update_first (is_tool_call i) started (messages (state c2)).
Proof.
  intros Hwf c1 c2 c3.
  assert (H1 : exists tm1,
             getToolMessageByCallId i (state c1) = Some tm1
             /\ waitingForApproval (tool tm1) = Some true
             /\ approvalStatus (tool tm1) = None /\ id_ tm1 = i).
  { subst c1. cbn [onStreamEvent on_state state]. unfold addApprovalRequest.
    destruct (getToolMessageByCallId i (state c)) as [tm|] eqn:Hf.
    - eexists. split; [|split; [|split]].
      + unfold getToolMessageByCallId in *. cbn [messages emit with_messages].
        by apply found_after_update.
      + reflexivity.
      + reflexivity.
      + simpl. apply find_some in Hf as [Hin Hp].
        apply (Hwf tm); [by apply list_elem_of_In | done].
    - assert (Hfresh : existsb (has_id i) (messages (state c)) = false).
      { apply find_none_existsb, find_none_forall. intros x Hx.
        unfold getToolMessageByCallId in Hf.
        pose proof (proj1 (find_none_forall _ _) Hf x Hx) as Hn.
        unfold has_id. apply String.eqb_neq. intros Hid.
        apply (Hwf x Hx) in Hid. congruence. }
      unfold addToolMessage. cbn [id_]. rewrite Hfresh.
      eexists. split; [|split; [|split]].
      + unfold getToolMessageByCallId in *. cbn [messages emit with_messages].
        rewrite find_app_none by done. simpl.
        unfold is_tool_call. simpl. by rewrite String.eqb_refl.
      + reflexivity.
      + reflexivity.
      + reflexivity. }
  destruct H1 as (tm1 & Hg1 & Hw1 & Ha1 & Hid1).
  assert (H2 : exists tm2,
             getToolMessageByCallId i (state c2) = Some tm2 /\ id_ tm2 = i
             /\ length (messages (state c2)) = length (messages (state c1))
             /\ approvalStatus (tool tm2) = decided_status decision
             /\ isStreaming tm2
                = match decision with
                  | Deny => Some false
                  | _ => isStreaming tm1
                  end).
  { subst c2. destruct decision as [|lvl|]; cbn [decide_between decided_status].
    - exists tm1. repeat split; done.
    - cbn [approveToolCall fst on_state state].
      destruct (getTool_updateApprovalRequest i true _ _ Hg1) as [Hg Hl].
      destruct (getTool_updateToolMessage i
                  [A_approvalStatus (Some Approved);
                   A_approvalLevel (Some (levelToUse i lvl c1));
                   A_waitingForApproval (Some false)] _ _ Hg) as [Hg' Hl'].
      eexists. split; [exact Hg'|]. repeat split; [done | congruence].
    - cbn [denyToolCall fst on_state state].
      destruct (getTool_updateApprovalRequest i false _ _ Hg1) as [Hg Hl].
      destruct (getTool_updateToolMessage i denied_updates _ _ Hg) as [Hg' Hl'].
      eexists. split; [exact Hg'|]. repeat split; [done | congruence]. }
  destruct H2 as (tm2 & Hg2 & Hid2 & Hl2 & Ha2 & Hs2).
  destruct (tool_start_updates_existing c2 i n' input' now2 uuid2 tm2 Hg2 Hid2)
    as (Hg3 & Hm3 & Hl3).
  destruct (started_fields tm2) as (Hw3 & Ha3 & Hs3).
  exists tm1, (started tm2).
  split; [exact Hg1|]. split; [exact Hw1|]. split; [exact Ha1|].
  split; [exact Hg3|]. split; [exact Hw3|].
  split; [by rewrite Ha3|]. split; [|split; [subst c3; congruence | exact Hm3]].
  rewrite Hs3, Ha2, Hs2. by destruct decision.
Qed.

(** *** Optimistic approval and its failure *)

(** What the two operations do around a rejected call of the transport.
    With the tool message of the call in the transcript,
    [approveToolCall] marks it approved and no longer waiting and then
    calls [sendApproval] with [approved = true]; when that call is
    rejected, the message is waiting again, without approval status or
    level, and carries the error string, and the rejection is passed on: a
    message that was in the waiting state is as it was, plus the error.
    [denyToolCall] marks it denied and no longer waiting and calls
    [sendApproval] with [approved = false]; when that call is rejected the
    message stays denied and not waiting, carries the error note, and the
    operation completes normally. *)
Theorem approval_failure_reverts (c : ChatController.t) (i : string)
    (lvl : option string) (tm : BaseMessage) (reason : Js.thrown) :
  getToolMessageByCallId i (state c) = Some tm ->
  let c1 := (approveToolCall i lvl c).1 in
  let c2 := approveToolCall_settle i (Rejected reason) c1 in
  let d1 := (denyToolCall i c).1 in
  let d2 := denyToolCall_settle i (Rejected reason) d1 in
  (approveToolCall i lvl c).2
  = SendApproval i true (getThreadId (state c1)) (Some (levelToUse i lvl c))
  /\ (denyToolCall i c).2 = SendApproval i false (getThreadId (state d1)) None
  /\ exists tm1 tm2 td1 td2,
       getToolMessageByCallId i (state c1) = Some tm1
       /\ approvalStatus (tool tm1) = Some Approved
       /\ waitingForApproval (tool tm1) = Some false
       /\ getToolMessageByCallId i (state c2.1) = Some tm2
       /\ waitingForApproval (tool tm2) = Some true
       /\ approvalStatus (tool tm2) = None
       /\ approvalLevel (tool tm2) = None
       /\ error tm2 = Some (approval_failed reason)
       /\ c2.2 = Rejected reason
       /\ (waitingForApproval (tool tm) = Some true ->
           approvalStatus (tool tm) = None -> approvalLevel (tool tm) = None ->
           tm2 = set_error (Some (approval_failed reason)) tm)
       /\ getToolMessageByCallId i (state d1) = Some td1
       /\ approvalStatus (tool td1) = Some Denied
       /\ waitingForApproval (tool td1) = Some false
       /\ getToolMessageByCallId i (state d2.1) = Some td2
       /\ approvalStatus (tool td2) = Some Denied
       /\ waitingForApproval (tool td2) = Some false
       /\ error td2 = Some (denial_failed reason)
       /\ d2.2 = Resolved.
Proof.
  intros Hf c1 c2 d1 d2. split; [reflexivity|]. split; [reflexivity|].
  destruct (getTool_updateApprovalRequest i true _ _ Hf) as [Ha _].
  destruct (getTool_updateToolMessage i
              [A_approvalStatus (Some Approved);
               A_approvalLevel (Some (levelToUse i lvl c));
               A_waitingForApproval (Some false)] _ _ Ha) as [Ha1 _].
  destruct (getTool_updateToolMessage i
              [A_approvalStatus None; A_approvalLevel None;
               A_waitingForApproval (Some true);
               A_error (Some (approval_failed reason))] _ _ Ha1) as [Ha2 _].
  destruct (getTool_updateApprovalRequest i false _ _ Hf) as [Hd _].
  destruct (getTool_updateToolMessage i denied_updates _ _ Hd) as [Hd1 _].
  destruct (getTool_updateToolMessage i
              [A_error (Some (denial_failed reason))] _ _ Hd1) as [Hd2 _].
  eexists _, _, _, _.
  split; [exact Ha1|]. split; [reflexivity|]. split; [reflexivity|].
  split; [exact Ha2|]. split; [reflexivity|]. split; [reflexivity|].
  split; [reflexivity|]. split; [reflexivity|]. split; [reflexivity|].
  split.
  { intros Hw Hs Hl. destruct tm as [? ? ? ? ? ? ? ? ? ? []]. simpl in *.
    by subst. }
  split; [exact Hd1|]. split; [reflexivity|]. split; [reflexivity|].
  split; [exact Hd2|]. repeat split.
Qed.

(** *** The loading placeholder *)

(** The placeholder and the events. When [send(text)] draws two identifiers that
    are new to the transcript, it appends the pending user message and the
    loading placeholder.  The [assistant_start] case and the error callback
    of the transport leave no loading message in the transcript; the
    [tool_start] case leaves the placeholder where it is. *)
Theorem loading_placeholder_removal (c : ChatController.t)
    (text cid lid : string) (now1 now2 : Time) :
  cid ∉ map id_ (messages (state c)) ->
  lid ∉ map id_ (messages (state c)) ->
  cid ≠ lid ->
  let c1 := (send text cid lid now1 now2 c).1 in
  messages (state c1)
  = messages (state c)
      ++ [user_message cid text now1; loading_message lid now2]
  /\ (send text cid lid now1 now2 c).2
     = Send (user_message cid text now1) (threadId (state c))
  /\ has_loading (state c1) = true
  /\ (forall m ts now uuid,
        has_loading
          (state (onStreamEvent JSON_stringify (assistant_start m ts) now uuid c1))
        = false)
  /\ (forall err now uuid, has_loading (state (onError err now uuid c1)) = false)
  /\ (forall i n input now uuid,
        loading_message lid now2
        ∈ messages
            (state (onStreamEvent JSON_stringify (tool_start i n input) now uuid c1))).
Proof.
  intros Hcid Hlid Hne c1.
  assert (Hm : messages (state c1)
               = messages (state c)
                   ++ [user_message cid text now1; loading_message lid now2]).
  { subst c1. cbn [send fst state]. unfold addMessage.
    cbn [id_ user_message loading_message].
    assert (H1 : existsb (has_id cid) (messages (state c)) = false).
    { apply not_true_is_false. by rewrite ChatStateFacts.existsb_has_id. }
    rewrite H1. cbn [messages emit with_messages].
    assert (H2 : existsb (has_id lid)
                   (messages (state c) ++ [user_message cid text now1]) = false).
    { apply not_true_is_false. rewrite ChatStateFacts.existsb_has_id.
      rewrite map_app, elem_of_app. simpl. intros [H|H]; [done|].
      apply list_elem_of_singleton in H. congruence. }
    rewrite H2. cbn [messages emit with_messages]. by rewrite <- app_assoc. }
  split; [exact Hm|]. split.
  { subst c1. cbn [send snd]. f_equal. unfold addMessage.
    by repeat case_match. }
  split.
  { unfold has_loading. rewrite Hm, existsb_app. simpl. apply orb_true_r. }
  split; [intros; apply has_loading_after_add_removeLoading; reflexivity|].
  split.
  { intros err now uuid. unfold onError.
    destruct (_ && _); cbn [on_state state].
    - apply has_loading_removeLoading.
    - apply has_loading_after_add_removeLoading. reflexivity. }
  intros i n input now uuid. cbn [onStreamEvent].
  destruct (assignToolInstance n (toolInstanceCounts c1)) as [counts k].
  cbn [state]. apply elem_of_addToolMessage.
  cbn [removeApprovalRequest messages emit with_messages].
  apply elem_of_update_first_other; [|reflexivity].
  rewrite Hm. apply elem_of_app. right.
  apply elem_of_cons. right. apply elem_of_cons. by left.
Qed.

End Reduction.

Lemma assistant_tokens_concatenate_witness :
  let c2 :=
    run (fun _ => "")
      (token_events "m1" [("Hel", (1%Z, "u1")); ("lo", (2%Z, "u2"))])
      (onStreamEvent (fun _ => "") (assistant_start "m1" 20%Z) 21%Z "u0"
         sample_controller) in
  (forall x, x ∈ messages (state sample_controller) -> not_loading x -> id_ x ≠ "m1")
  /\ getMessage "m1" (state c2)
     = Some (set_message "Hello" (assistant_message "m1" 20%Z)).
Proof.
  assert (H : forall x, x ∈ messages (state sample_controller) ->
                        not_loading x -> id_ x ≠ "m1").
  { intros x Hx _. vm_compute in Hx.
    apply elem_of_cons in Hx as [->|Hx]; [discriminate|].
    apply elem_of_cons in Hx as [->|Hx]; [discriminate|].
    by apply elem_of_nil in Hx. }
  split; [exact H|].
  exact (proj1 (proj2 (proj2
    (assistant_tokens_concatenate (fun _ => "") sample_controller "m1"
       20%Z 21%Z "u0" [("Hel", (1%Z, "u1")); ("lo", (2%Z, "u2"))] H)))).
Defined.

(** *** Scenarios *)

(** After [send("Hello")], a [tool_start] event arrives before any
    [assistant_start]: the loading placeholder is still in the
    transcript. *)
(** A tool named [constructor]: the first start is assigned [NaN], the
    second 1. *)
Lemma tool_instance_counter_monotonic_witness :
  let c0 := ChatController.new (ChatState.new "thread-1" 0%Z) in
  let c2 := run no_stringify Samples.constructor_starts c0 in
  "constructor" ∈ Object_prototype_functions
  /\ assigned_instance "constructor" c0 = MNaN
  /\ assigned_instance "constructor"
       (run no_stringify (take 1 Samples.constructor_starts) c0)
     = MNumber 1
  /\ map (fun m => (id_ m, instanceNumber (tool m))) (messages (state c2))
     = [("t1", Some MNaN); ("t2", Some (MNumber 1))].
Proof.
  intros c0 c2.
  assert (H : "constructor" ∈ Object_prototype_functions).
  { apply (bool_decide_unpack _). by vm_compute. }
  split; [exact H|]. split; [|split; [|reflexivity]].
  - exact (proj1 (proj2
      (tool_instance_counter_monotonic no_stringify (ChatState.new "thread-1" 0%Z)
         [] "constructor")) H).
  - exact (proj1 (proj2
      (tool_instance_counter_monotonic no_stringify (ChatState.new "thread-1" 0%Z)
         (take 1 Samples.constructor_starts) "constructor")) H).
Defined.

(** The scenario of two [tool_start] events for the same tool name, with a
    new thread in between, and a third for a call whose tool message an
    approval request has made. *)
Example tool_start_twice :
  let c :=
    run no_stringify
      [OnStreamEvent (tool_start "t1" "lookup" (Js.Obj [])) 1%Z "u1";
       OnState (setThreadId "thread-2" 2%Z);
       OnStreamEvent (tool_start "t2" "lookup" (Js.Obj [])) 3%Z "u2";
       OnStreamEvent (approval_request "t3" "lookup" (Js.Obj []) sample_metadata)
         4%Z "u3";
       OnStreamEvent (tool_start "t3" "lookup" (Js.Obj [])) 5%Z "u4"]
      (ChatController.new (ChatState.new "thread-1" 0%Z)) in
  map (fun m => (id_ m, instanceNumber (tool m))) (messages (state c))
  = [("t2", Some (MNumber 2)); ("t3", None)]
  /\ assigned_instance "lookup" c = MNumber 4.
Proof. split; reflexivity. Qed.

(** A tool named [__proto__] is assigned the prototype object, each time. *)
Example tool_start_proto :
  let c :=
    run no_stringify
      [OnStreamEvent (tool_start "t1" "__proto__" (Js.Obj [])) 1%Z "u1";
       OnStreamEvent (tool_start "t2" "__proto__" (Js.Obj [])) 3%Z "u2"]
      (ChatController.new (ChatState.new "thread-1" 0%Z)) in
  map (fun m => (id_ m, instanceNumber (tool m))) (messages (state c))
  = [("t1", Some MPrototype); ("t2", Some MPrototype)]
  /\ toolInstanceCounts c = ∅.
Proof. split; reflexivity. Qed.

Lemma tool_start_keeps_loading_placeholder :
  let c1 := (send "Hello" "c-1" "l-1" 10%Z 11%Z fresh_controller).1 in
  let c2 :=
    onStreamEvent no_stringify (tool_start "t1" "lookup" (Js.Obj [])) 12%Z "u-1" c1 in
  map id_ (messages (state c1)) = ["c-1"; "l-1"]
  /\ map id_ (messages (state c2)) = ["c-1"; "l-1"; "t1"]
  /\ map isLoading (messages (state c2)) = [None; Some true; None]
  /\ has_loading (state c2) = true.
Proof. repeat split. Qed.

Lemma loading_placeholder_removal_witness :
  ("c-1" ∉ map id_ (messages (state fresh_controller)))
  /\ ("l-1" ∉ map id_ (messages (state fresh_controller)))
  /\ ("c-1" ≠ "l-1")
  /\ has_loading
       (state (onStreamEvent no_stringify (assistant_start "m1" 20%Z) 21%Z "u-1"
                 (send "Hello" "c-1" "l-1" 10%Z 11%Z fresh_controller).1))
     = false.
Proof.
  assert (H1 : "c-1" ∉ map id_ (messages (state fresh_controller)))
    by apply not_elem_of_nil.
  assert (H2 : "l-1" ∉ map id_ (messages (state fresh_controller)))
    by apply not_elem_of_nil.
  assert (H3 : "c-1" ≠ "l-1") by discriminate.
  split; [exact H1|]. split; [exact H2|]. split; [exact H3|].
  exact (proj1 (proj2 (proj2 (proj2
    (loading_placeholder_removal no_stringify fresh_controller "Hello" "c-1" "l-1"
       10%Z 11%Z H1 H2 H3)))) "m1" 20%Z 21%Z "u-1").
Defined.

Lemma approval_then_tool_start_witness :
  (forall x, x ∈ messages (state sample_controller) ->
             id_ x = "t1" <-> is_tool_call "t1" x = true)
  /\ exists tm3,
       getToolMessageByCallId "t1"
         (state
            (onStreamEvent no_stringify (tool_start "t1" "lookup" (Js.Obj [])) 32%Z "u-2"
               (decide_between "t1" (Approve None)
                  (onStreamEvent no_stringify
                     (approval_request "t1" "lookup" (Js.Obj []) sample_metadata)
                     30%Z "u-1" sample_controller))))
       = Some tm3
       /\ waitingForApproval (tool tm3) = Some false
       /\ approvalStatus (tool tm3) = Some Approved
       /\ isStreaming tm3 = Some true.
Proof.
  assert (H : forall x, x ∈ messages (state sample_controller) ->
                        id_ x = "t1" <-> is_tool_call "t1" x = true).
  { intros x Hx. vm_compute in Hx.
    apply elem_of_cons in Hx as [->|Hx]; [split; discriminate|].
    apply elem_of_cons in Hx as [->|Hx]; [split; discriminate|].
    by apply elem_of_nil in Hx. }
  split; [exact H|].
  destruct (approval_then_tool_start no_stringify sample_controller "t1" "lookup"
              "lookup" (Js.Obj []) (Js.Obj []) sample_metadata 30%Z 32%Z "u-1" "u-2"
              (Approve None) H)
    as (tm1 & tm3 & _ & _ & _ & Hg & Hw & Ha & Hs & _).
  exists tm3. repeat split; assumption.
Defined.

(** The same with the tool message already in the transcript when the
    approval request arrives: the request updates it, and so does the
    start of the tool. *)
Example approval_request_updates_started_tool :
  let c0 :=
    onStreamEvent no_stringify (tool_start "t1" "lookup" (Js.Obj [])) 25%Z "u-0"
      sample_controller in
  let c1 :=
    onStreamEvent no_stringify
      (approval_request "t1" "lookup" (Js.Obj []) sample_metadata) 30%Z "u-1" c0 in
  let c3 :=
    onStreamEvent no_stringify (tool_start "t1" "lookup" (Js.Obj [])) 32%Z "u-2"
      (decide_between "t1" (Approve (Some "session")) c1) in
  map id_ (messages (state c0)) = ["c-1"; "l-1"; "t1"]
  /\ map id_ (messages (state c3)) = ["c-1"; "l-1"; "t1"]
  /\ ((fun m => (waitingForApproval (tool m), approvalStatus (tool m)))
        <$> getToolMessageByCallId "t1" (state c1)) = Some (Some true, None)
  /\ ((fun m => (waitingForApproval (tool m), approvalStatus (tool m),
                 approvalLevel (tool m), isStreaming m))
        <$> getToolMessageByCallId "t1" (state c3))
     = Some (Some false, Some Approved, Some "session", Some true).
Proof. repeat split. Qed.

Lemma approval_failure_reverts_witness :
  exists tm tm2,
    getToolMessageByCallId "t1" (state waiting_controller) = Some tm
    /\ getToolMessageByCallId "t1"
         (state (approveToolCall_settle "t1" (Rejected network_down)
                   (approveToolCall "t1" None waiting_controller).1).1)
       = Some tm2
    /\ waitingForApproval (tool tm2) = Some true
    /\ approvalStatus (tool tm2) = None
    /\ error tm2 = Some "Failed to send approval: Failed to fetch".
Proof.
  eexists.
  destruct (approval_failure_reverts waiting_controller "t1" None _ network_down
              eq_refl)
    as (_ & _ & tm1 & tm2 & td1 & td2 & _ & _ & _ & Hg & Hw & Ha & _ & He & _).
  exists tm2. split; [reflexivity|]. repeat split; assumption.
Defined.

(** The scenario of the network error on [approveToolCall], computed:
    the message is the waiting message again, plus the error. *)
Example approve_then_network_error :
  let c1 := (approveToolCall "t1" None waiting_controller).1 in
  let c2 := (approveToolCall_settle "t1" (Rejected network_down) c1).1 in
  ((fun m => (waitingForApproval (tool m), approvalStatus (tool m)))
     <$> getToolMessageByCallId "t1" (state c1))
  = Some (Some false, Some Approved)
  /\ getToolMessageByCallId "t1" (state c2)
     = (set_error (Some "Failed to send approval: Failed to fetch")
          <$> getToolMessageByCallId "t1" (state waiting_controller)).
Proof. split; reflexivity. Qed.

End ChatControllerFacts.

(** ** The transport *)

Module RestChatServiceFacts.
Import RestChatService Scenario.

Lemma split_lines_one_line (s : string) :
  no_line_feed s = true -> split_lines (s +:+ LF) = [s; ""].
Proof.
  induction s as [|c s IH]; [reflexivity|].
  change (String c s +:+ LF) with (String c (s +:+ LF)).
  cbn [no_line_feed split_lines]. intros H.
  apply andb_true_iff in H as [Hc Hs].
  apply negb_true_iff in Hc. rewrite Hc, (IH Hs). reflexivity.
Qed.

Section Engine.

Variable JSON_parse : string -> Js.Error + Js.value.
Variable ToString : Js.value -> Js.Error + string.
Variable TypeError_of : string -> Js.Error.

Abbreviation processStream := (processStream JSON_parse ToString TypeError_of).
Abbreviation process_lines := (process_lines JSON_parse ToString TypeError_of).
Abbreviation process_payload := (process_payload JSON_parse ToString TypeError_of).
Abbreviation read_loop := (read_loop JSON_parse ToString TypeError_of).
Abbreviation handleStreamEvent := (handleStreamEvent ToString TypeError_of).
Abbreviation handleStreamingResponse :=
  (handleStreamingResponse JSON_parse ToString TypeError_of).

Lemma prefix_data (payload : string) :
  String.prefix "data: " ("data: " +:+ payload) = true.
Proof. cbn. by destruct payload. Qed.

Lemma process_lines_data (svc : RestChatService.t) (payload : string)
    (rest : list string) :
  process_lines svc (("data: " +:+ payload) :: rest)
  = if String.eqb (trim payload) "[DONE]" then []
    else process_payload svc payload ++ process_lines svc rest.
Proof. cbn [RestChatService.process_lines]. by rewrite prefix_data. Qed.

Lemma process_lines_done (svc : RestChatService.t) (rest : list string) :
  process_lines svc ("data: [DONE]" :: rest) = [].
Proof. reflexivity. Qed.

(** Within the lines of one read, nothing after an end marker is handled,
    and the marker itself calls nothing. *)
Lemma process_lines_stop_at_done (svc : RestChatService.t)
    (before after : list string) (marker : string) :
  String.prefix "data: " marker = true ->
  trim (slice 6 marker) = "[DONE]" ->
  process_lines svc (before ++ marker :: after) = process_lines svc before.
Proof.
  intros Hp Ht. induction before as [|line before IH].
  - cbn [app RestChatService.process_lines]. by rewrite Hp, Ht.
  - cbn [app RestChatService.process_lines]. rewrite IH. reflexivity.
Qed.

(** The reads after the one that held the end marker are handled as if
    there had been no marker. *)
Lemma read_loop_goes_on (svc : RestChatService.t) (buffer value : string)
    (rest : list string) (last_read : ReadEnd) :
  read_loop svc buffer (value :: rest) last_read
  = process_lines svc (removelast (split_lines (buffer +:+ value)))
      ++ read_loop svc (List.last (split_lines (buffer +:+ value)) "") rest
           last_read.
Proof. reflexivity. Qed.

(** C2, on the code. An end marker stops the lines of the chunk it is read
    in, without an error: a payload that follows it in the same chunk
    reaches no callback.  The reads go on, and the same payload in the
    chunk after the marker is parsed and handled like any other. *)
Theorem done_marker_ends_chunk_only (svc : RestChatService.t)
    (payload : string) (eventData : Js.value) (calls : list Callback) :
  no_line_feed payload = true ->
  trim payload ≠ "[DONE]" ->
  JSON_parse payload = inr eventData ->
  handleStreamEvent svc eventData = inr calls ->
  processStream svc
    [("data: [DONE]" +:+ LF) +:+ (("data: " +:+ payload) +:+ LF)] ReadDone
  = []
  /\ processStream svc
       ["data: [DONE]" +:+ LF; ("data: " +:+ payload) +:+ LF] ReadDone
     = calls.
Proof.
  intros Hlf Htrim Hparse Hhandle. split.
  - unfold RestChatService.processStream. cbn [RestChatService.read_loop].
    assert (Hs : split_lines
                   ("" +:+ ("data: [DONE]" +:+ LF) +:+ (("data: " +:+ payload) +:+ LF))
                 = "data: [DONE]" :: split_lines (("data: " +:+ payload) +:+ LF))
      by reflexivity.
    rewrite Hs, split_lines_one_line by exact Hlf.
    cbn [removelast]. by rewrite process_lines_done.
  - unfold RestChatService.processStream. cbn [RestChatService.read_loop].
    change (split_lines ("" +:+ "data: [DONE]" +:+ LF)) with ["data: [DONE]"; ""].
    cbn [removelast List.last]. rewrite process_lines_done.
    change ("" +:+ ("data: " +:+ payload) +:+ LF) with (("data: " +:+ payload) +:+ LF).
    rewrite split_lines_one_line by exact Hlf.
    cbn [removelast List.last app]. rewrite process_lines_data.
    apply String.eqb_neq in Htrim. rewrite Htrim.
    unfold RestChatService.process_payload. rewrite Hparse, Hhandle.
    by rewrite !app_nil_r.
Qed.

(** *** The error callback *)




End Engine.

(** *** Scenarios *)

Lemma done_marker_ends_chunk_only_witness :
  no_line_feed token_payload = true
  /\ trim token_payload ≠ "[DONE]"
  /\ sample_parse token_payload = inr token_object
  /\ RestChatService.handleStreamEvent sample_ToString sample_TypeError registered
       token_object
     = inr [StreamEventCb (raw_assistant_token (Js.Str "m1") (Js.Str "late"))]
  /\ processStream sample_parse sample_ToString sample_TypeError registered
       [("data: [DONE]" +:+ LF) +:+ (("data: " +:+ token_payload) +:+ LF)] ReadDone
     = []
  /\ processStream sample_parse sample_ToString sample_TypeError registered
       ["data: [DONE]" +:+ LF; ("data: " +:+ token_payload) +:+ LF] ReadDone
     = [StreamEventCb (raw_assistant_token (Js.Str "m1") (Js.Str "late"))].
Proof.
  assert (H1 : no_line_feed token_payload = true) by reflexivity.
  assert (H2 : trim token_payload ≠ "[DONE]") by (vm_compute; discriminate).
  assert (H3 : sample_parse token_payload = inr token_object) by reflexivity.
  assert (H4 : RestChatService.handleStreamEvent sample_ToString sample_TypeError
                 registered token_object
               = inr [StreamEventCb (raw_assistant_token (Js.Str "m1") (Js.Str "late"))])
    by reflexivity.
  split; [exact H1|]. split; [exact H2|]. split; [exact H3|]. split; [exact H4|].
  exact (done_marker_ends_chunk_only sample_parse sample_ToString sample_TypeError
           registered token_payload token_object _ H1 H2 H3 H4).
Defined.



(** A cancellation while the response is read, after [send("Hello")]:
    [stop()] leaves the placeholder, the transport reports the abort to
    the error callback, and the callback of the controller removes the
    placeholder and adds no error message. *)
Example abort_during_read_clears_placeholder :
  let c1 := (ChatController.stop sample_controller).1 in
  let c2 := ChatController.onError aborted_error 40%Z "e-1" c1 in
  map id_ (ChatState.messages (ChatController.state c1)) = ["c-1"; "l-1"]
  /\ handleStreamingResponse sample_parse sample_ToString sample_TypeError
       registered (Some "thread-1")
       (FetchResolves (streaming_response ([], ReadRejects aborted)))
     = ([ErrorCb (Js.ThrownError aborted_error)], Resolved)
  /\ map id_ (ChatState.messages (ChatController.state c2)) = ["c-1"].
Proof. repeat split. Qed.

(** A validation failure: status 422 with a structured body. *)
Example validation_message :
  http_error_message sample_ToString Samples.validation_response
  = Js.Str "Validation error: field required (message)".
Proof. reflexivity. Qed.

(** A validation failure whose [msg] cannot be converted: the message stays
    the status line. *)
Example validation_message_unconvertible :
  http_error_message sample_ToString
    {| ok := false; status := 422; statusText := "Unprocessable Entity";
       header_X_Thread_ID := None;
       json := inr (Js.Obj [("detail",
                 Js.Arr [Js.Obj [("msg", Js.Obj [("toString", Js.Num 1)]);
                                 ("field", Js.Str "message")]])]);
       body := None |}
  = Js.Str "HTTP 422: Unprocessable Entity".
Proof. reflexivity. Qed.

End RestChatServiceFacts.

(** ** The line decoder, further *)

Module DecoderFacts.
Import RestChatService Scenario.

Lemma split_lines_nonempty (s : string) : split_lines s ≠ [].
Proof.
  induction s as [|c s IH]; cbn [split_lines]; [done|].
  destruct (Nat.eqb _ _); [done|]. by destruct (split_lines s).
Qed.

Lemma split_lines_no_line_feed (s : string) :
  no_line_feed s = true -> split_lines s = [s].
Proof.
  induction s as [|c s IH]; [done|]. cbn [no_line_feed split_lines].
  intros H. apply andb_true_iff in H as [Hc Hs]. apply negb_true_iff in Hc.
  by rewrite Hc, (IH Hs).
Qed.

Lemma last_split_lines_no_line_feed (s : string) :
  no_line_feed (List.last (split_lines s) "") = true.
Proof.
  induction s as [|c s IH]; [done|]. cbn [split_lines].
  destruct (Nat.eqb (nat_of_ascii c) 10) eqn:Hc.
  - pose proof (split_lines_nonempty s). by destruct (split_lines s).
  - destruct (split_lines s) as [|l [|l' ls]];
      [cbn [List.last no_line_feed]; by rewrite Hc | | exact IH].
    cbn [List.last no_line_feed] in *. by rewrite Hc, IH.
Qed.

(** The lines of a text that continues: the closed lines of the first
    part, then the lines of its open end followed by the rest. *)
Lemma split_lines_app (a b : string) :
  split_lines (a +:+ b)
  = removelast (split_lines a) ++ split_lines (List.last (split_lines a) "" +:+ b).
Proof.
  induction a as [|c a IH]; [done|].
  change (String c a +:+ b) with (String c (a +:+ b)). cbn [split_lines].
  pose proof (split_lines_nonempty a) as Hne.
  destruct (Nat.eqb (nat_of_ascii c) 10) eqn:Hc.
  - rewrite IH. destruct (split_lines a) as [|l ls]; [done|]. reflexivity.
  - rewrite IH. destruct (split_lines a) as [|l [|l' ls]]; [done| |].
    + cbn [removelast List.last app].
      change (String c l +:+ b) with (String c (l +:+ b)).
      cbn [split_lines]. by rewrite Hc.
    + reflexivity.
Qed.

Lemma complete_lines_app (a b : string) :
  complete_lines (a +:+ b)
  = complete_lines a ++ complete_lines (List.last (split_lines a) "" +:+ b).
Proof.
  unfold complete_lines. rewrite split_lines_app.
  apply removelast_app, split_lines_nonempty.
Qed.

Section Engine.

Variable JSON_parse : string -> Js.Error + Js.value.
Variable ToString : Js.value -> Js.Error + string.
Variable TypeError_of : string -> Js.Error.

Abbreviation lines_calls := (RestChatService.process_lines JSON_parse ToString TypeError_of).
Abbreviation payload_calls :=
  (RestChatService.process_payload JSON_parse ToString TypeError_of).
Abbreviation reads_calls := (RestChatService.read_loop JSON_parse ToString TypeError_of).
Abbreviation stream_calls :=
  (RestChatService.processStream JSON_parse ToString TypeError_of).
Abbreviation event_calls := (RestChatService.handleStreamEvent ToString TypeError_of).
Abbreviation response_calls :=
  (RestChatService.handleStreamingResponse JSON_parse ToString TypeError_of).

Lemma lines_calls_app (svc : RestChatService.t) (l1 l2 : list string) :
  no_marker l1 = true ->
  lines_calls svc (l1 ++ l2) = lines_calls svc l1 ++ lines_calls svc l2.
Proof.
  induction l1 as [|line l1 IH]; [done|].
  cbn [no_marker forallb app RestChatService.process_lines]. intros H.
  apply andb_true_iff in H as [Hl H1]. apply negb_true_iff in Hl.
  unfold is_done_line in Hl. rewrite (IH H1).
  destruct (String.prefix "data: " line); [|done].
  cbn [andb] in Hl. rewrite Hl. by rewrite app_assoc.
Qed.

Lemma reads_calls_whole (svc : RestChatService.t) (chunks : list string)
    (last_read : ReadEnd) (buffer : string) :
  no_line_feed buffer = true ->
  no_marker (complete_lines (buffer +:+ whole_text chunks)) = true ->
  reads_calls svc buffer chunks last_read
  = lines_calls svc (complete_lines (buffer +:+ whole_text chunks))
      ++ read_end_calls svc last_read.
Proof.
  revert buffer. induction chunks as [|value chunks IH]; intros buffer Hb Hm.
  - cbn [whole_text foldr RestChatService.read_loop]. rewrite append_nil_r.
    unfold complete_lines. by rewrite (split_lines_no_line_feed _ Hb).
  - cbn [RestChatService.read_loop].
    change (whole_text (value :: chunks)) with (value +:+ whole_text chunks) in *.
    rewrite <- append_assoc, complete_lines_app in Hm |- *.
    unfold no_marker in Hm. rewrite forallb_app in Hm.
    apply andb_true_iff in Hm as [Hm1 Hm2].
    rewrite lines_calls_app by exact Hm1.
    rewrite (IH _ (last_split_lines_no_line_feed _) Hm2).
    by rewrite app_assoc.
Qed.

(** X1. How the stream is cut into reads does not matter, as long as no
    closed line of it is an end marker: the callbacks are those of the
    whole text read at once. *)
Theorem chunking_is_transparent (svc : RestChatService.t) (chunks : list string)
    (last_read : ReadEnd) :
  no_marker (complete_lines (whole_text chunks)) = true ->
  stream_calls svc chunks last_read
  = stream_calls svc [whole_text chunks] last_read.
Proof.
  intros Hm. unfold RestChatService.processStream.
  rewrite (reads_calls_whole svc chunks last_read "" eq_refl Hm).
  rewrite (reads_calls_whole svc [whole_text chunks] last_read "" eq_refl).
  - cbn [whole_text foldr]. by rewrite append_nil_r.
  - cbn [whole_text foldr]. by rewrite append_nil_r.
Qed.

(** X2. What the stream holds after its last line feed is never handled:
    a last read without a line feed adds no callback, whatever was read
    before it. *)
Theorem open_last_line_is_dropped (svc : RestChatService.t) (chunks : list string)
    (tail : string) (last_read : ReadEnd) :
  no_line_feed tail = true ->
  stream_calls svc (chunks ++ [tail]) last_read = stream_calls svc chunks last_read.
Proof.
  intros Ht. unfold RestChatService.processStream.
  assert (H : forall buffer, no_line_feed buffer = true ->
            reads_calls svc buffer (chunks ++ [tail]) last_read
            = reads_calls svc buffer chunks last_read); [|by apply H].
  induction chunks as [|value chunks IH]; intros buffer Hb.
  - cbn [app RestChatService.read_loop].
    assert (Hbt : no_line_feed (buffer +:+ tail) = true).
    { clear -Hb Ht. induction buffer as [|c b IHb]; [exact Ht|].
      change (String c b +:+ tail) with (String c (b +:+ tail)).
      cbn [no_line_feed] in *. apply andb_true_iff in Hb as [Hc Hb'].
      by rewrite Hc, (IHb Hb'). }
    by rewrite (split_lines_no_line_feed _ Hbt).
  - cbn [app RestChatService.read_loop].
    by rewrite (IH _ (last_split_lines_no_line_feed _)).
Qed.

(** X3. A [data: ] line whose payload [JSON.parse] rejects is reported to
    the error callback, once, with the parse failure in the message, and
    the lines after it are handled as usual. *)
Theorem malformed_line_is_reported_and_skipped (svc : RestChatService.t)
    (payload : string) (error' : Js.Error) (rest : list string) :
  errorCallback svc = true ->
  trim payload ≠ "[DONE]" ->
  JSON_parse payload = inl error' ->
  lines_calls svc (("data: " +:+ payload) :: rest)
  = ErrorCb (new_Error ("Failed to parse event data: " +:+ Error_toString error'))
      :: lines_calls svc rest.
Proof.
  intros Hreg Htrim Hparse.
  rewrite RestChatServiceFacts.process_lines_data.
  apply String.eqb_neq in Htrim. rewrite Htrim.
  unfold RestChatService.process_payload, call_error. by rewrite Hparse, Hreg.
Qed.

(** X4. Lines that do not start with [data: ] (blank lines, comments, other
    fields of an event stream) have no effect: the callbacks are those of
    the [data: ] lines alone. *)
Theorem other_lines_are_ignored (svc : RestChatService.t) (lines : list string) :
  lines_calls svc lines
  = lines_calls svc (List.filter (String.prefix "data: ") lines).
Proof.
  induction lines as [|line lines IH]; [done|].
  cbn [List.filter RestChatService.process_lines].
  destruct (String.prefix "data: " line) eqn:Hp; [|exact IH].
  cbn [RestChatService.process_lines]. by rewrite Hp, IH.
Qed.

Lemma not_known_type (type : string) :
  type ∉ known_event_types ->
  Forall (fun k => String.eqb type k = false) known_event_types.
Proof.
  intros Hn. apply Forall_forall. intros k Hk. apply String.eqb_neq.
  intros ->. by apply Hn.
Qed.

(** X5. A payload that is not an event the decoder knows.  An object
    whose [type] is a string that is not a known type calls nothing and
    throws nothing.  For an object whose [type] is not a string the warning
    of the [default] branch converts the type to a string: when that
    succeeds (as for a missing type, [null], a number or a boolean) nothing
    is called, and when it throws, the error goes to the error callback as
    a failure to parse the line.  A number, a boolean, a string or an array
    as payload calls nothing.  On [null], as on [undefined], the read of
    [type] throws. *)
Theorem unknown_payloads_are_ignored (svc : RestChatService.t) :
  (forall fields type,
     assoc "type" fields = Js.Str type -> type ∉ known_event_types ->
     event_calls svc (Js.Obj fields) = inr [])
  /\ (forall fields text,
        (forall type, assoc "type" fields ≠ Js.Str type) ->
        str ToString (assoc "type" fields) = inr text ->
        event_calls svc (Js.Obj fields) = inr [])
  /\ (forall fields,
        match assoc "type" fields with
        | Js.Undefined | Js.Null | Js.Bool _ | Js.Num _ => True
        | Js.Str _ | Js.Arr _ | Js.Obj _ => False
        end ->
        event_calls svc (Js.Obj fields) = inr [])
  /\ (forall payload fields e,
        JSON_parse payload = inr (Js.Obj fields) ->
        (forall type, assoc "type" fields ≠ Js.Str type) ->
        str ToString (assoc "type" fields) = inl e ->
        event_calls svc (Js.Obj fields) = inl e
        /\ payload_calls svc payload
           = call_error svc
               (new_Error ("Failed to parse event data: " +:+ Error_toString e)))
  /\ (forall n, event_calls svc (Js.Num n) = inr [])
  /\ (forall b, event_calls svc (Js.Bool b) = inr [])
  /\ (forall t, event_calls svc (Js.Str t) = inr [])
  /\ (forall items, event_calls svc (Js.Arr items) = inr [])
  /\ event_calls svc Js.Null = inl (TypeError_of "type")
  /\ event_calls svc Js.Undefined = inl (TypeError_of "type").
Proof.
  assert (Hother : forall fields,
            (forall type, assoc "type" fields ≠ Js.Str type) ->
            event_calls svc (Js.Obj fields)
            = match str ToString (assoc "type" fields) with
              | inl e => inl e
              | inr _ => inr []
              end).
  { intros fields Hn. unfold RestChatService.handleStreamEvent. cbn [prop].
    destruct (assoc "type" fields) eqn:E; try reflexivity. by destruct (Hn s). }
  split; [|split; [|split; [|split; [|repeat split]]]].
  - intros fields type Ht Hn. unfold RestChatService.handleStreamEvent.
    cbn [prop]. rewrite Ht.
    pose proof (not_known_type type Hn) as H. unfold known_event_types in H.
    repeat (apply Forall_cons in H as [-> H]). reflexivity.
  - intros fields text Hn Ht. by rewrite Hother, Ht.
  - intros fields Hp. rewrite Hother.
    + by destruct (assoc "type" fields) as [| |[|]| | | |].
    + intros type Ht. by rewrite Ht in Hp.
  - intros payload fields e Hparse Hn He.
    assert (Hev : event_calls svc (Js.Obj fields) = inl e) by (by rewrite Hother, He).
    split; [exact Hev|].
    unfold RestChatService.process_payload. by rewrite Hparse, Hev.
Qed.

Lemma event_calls_shape (svc : RestChatService.t) (eventData : Js.value)
    (calls : list Callback) :
  event_calls svc eventData = inr calls ->
  length calls <= 1 /\ no_thread_sync calls
  /\ Forall (fun cb => is_error_cb cb = false) calls.
Proof.
  unfold RestChatService.handleStreamEvent, call_streamEvent, no_thread_sync.
  intros H.
  repeat (case_match; simplify_eq; try done);
    (split; [simpl; lia | split; repeat constructor]).
Qed.

Lemma payload_calls_shape (svc : RestChatService.t) (payload : string) :
  length (payload_calls svc payload) <= 1
  /\ no_thread_sync (payload_calls svc payload).
Proof.
  unfold RestChatService.process_payload, call_error, no_thread_sync.
  destruct (JSON_parse payload) as [e|eventData].
  - destruct (errorCallback svc); split; simpl; try lia; repeat constructor.
  - destruct (event_calls svc eventData) as [e|calls] eqn:E.
    + destruct (errorCallback svc); split; simpl; try lia; repeat constructor.
    + by destruct (event_calls_shape _ _ _ E) as (? & ? & _).
Qed.

Lemma lines_calls_shape (svc : RestChatService.t) (lines : list string) :
  length (lines_calls svc lines) <= length lines
  /\ no_thread_sync (lines_calls svc lines).
Proof.
  induction lines as [|line lines [IHl IHs]]; [split; [done | constructor]|].
  cbn [RestChatService.process_lines length].
  destruct (String.prefix "data: " line); [|split; [lia | done]].
  destruct (String.eqb _ _); [split; [simpl; lia | constructor]|].
  destruct (payload_calls_shape svc (slice 6 line)) as [Hl Hs].
  split; [rewrite length_app; lia | by apply Forall_app].
Qed.

Lemma stream_calls_no_thread_sync (svc : RestChatService.t)
    (chunks : list string) (last_read : ReadEnd) :
  no_thread_sync (stream_calls svc chunks last_read).
Proof.
  unfold RestChatService.processStream. generalize "" as buffer.
  induction chunks as [|value chunks IH]; intros buffer;
    cbn [RestChatService.read_loop].
  - unfold call_error. destruct last_read; [constructor|].
    destruct (errorCallback svc); repeat constructor.
  - apply Forall_app. split; [apply lines_calls_shape | apply IH].
Qed.

(** X6. The decoder makes at most one callback for each line it handles,
    and none of them is a [thread_sync] event: no payload can change the
    thread of the conversation. *)
Theorem stream_never_syncs_thread (svc : RestChatService.t)
    (chunks : list string) (last_read : ReadEnd) :
  no_thread_sync (stream_calls svc chunks last_read)
  /\ (forall lines, length (lines_calls svc lines) <= length lines).
Proof.
  split; [apply stream_calls_no_thread_sync|].
  intros lines. apply lines_calls_shape.
Qed.

(** X7. With a stream callback registered, a response brings a
    [thread_sync] event exactly when the request named a thread, the
    response has a non-empty [X-Thread-ID] header and the two differ; the
    event carries the header, comes before every other callback of the
    response, and there is no other [thread_sync]. *)
Theorem thread_sync_from_header (svc : RestChatService.t)
    (threadId' : option string) (res : Response) :
  streamEventCallback svc = true ->
  exists rest,
    (response_calls svc threadId' (FetchResolves res)).1
    = header_sync threadId' res ++ rest
    /\ no_thread_sync rest.
Proof.
  intros Hreg. unfold RestChatService.handleStreamingResponse, header_sync.
  unfold call_streamEvent. rewrite Hreg.
  set (sync := match threadId' with Some _ => _ | None => _ end).
  destruct (negb (ok res)); cbn [fst].
  - destruct (str ToString (http_error_message ToString res)) as [e|text];
      [destruct (String.eqb (Js.name e) "AbortError")|]; cbn [fst].
    + exists []. split; [by rewrite app_nil_r | constructor].
    + eexists. split; [reflexivity|]. unfold call_error, no_thread_sync.
      destruct (errorCallback svc); repeat constructor.
    + eexists. split; [reflexivity|]. unfold call_error, no_thread_sync.
      destruct (errorCallback svc); repeat constructor.
  - destruct (body res) as [[chunks last_read]|]; cbn [fst].
    + eexists. split; [reflexivity|]. apply stream_calls_no_thread_sync.
    + eexists. split; [reflexivity|]. unfold call_error, no_thread_sync.
      destruct (errorCallback svc); repeat constructor.
Qed.



End Engine.

(** A line whose payload has an object with its own [toString] for
    [type]: the warning for the unknown type throws, and the line is
    reported as one that failed to parse.  A number for [type] is
    ignored. *)
Example odd_type_is_reported :
  process_lines Samples.odd_parse sample_ToString sample_TypeError registered
    ["data: " +:+ Samples.odd_type_payload]
  = [ErrorCb
       (new_Error
          "Failed to parse event data: TypeError: Cannot convert object to primitive value")]
  /\ handleStreamEvent sample_ToString sample_TypeError registered
       (Js.Obj [("type", Js.Num 5)])
     = inr [].
Proof. split; reflexivity. Qed.

(** An [assistant_start] whose [timestamp] cannot be converted to a
    primitive: [new Date] throws and the event reaches no callback. *)
Example odd_timestamp_is_reported :
  handleStreamEvent sample_ToString sample_TypeError registered
    (Js.Obj [("type", Js.Str "assistant_start"); ("message_id", Js.Str "m1");
             ("timestamp", Js.Obj [("toString", Js.Num 1)])])
  = inl cannot_convert.
Proof. reflexivity. Qed.

Lemma chunking_is_transparent_witness :
  no_marker (complete_lines (whole_text ["data: " +:+ token_payload; LF])) = true
  /\ processStream sample_parse sample_ToString sample_TypeError registered
       ["data: " +:+ token_payload; LF] ReadDone
     = processStream sample_parse sample_ToString sample_TypeError registered
         [whole_text ["data: " +:+ token_payload; LF]] ReadDone.
Proof.
  assert (H : no_marker
                (complete_lines (whole_text ["data: " +:+ token_payload; LF]))
              = true) by (vm_compute; reflexivity).
  split; [exact H|].
  exact (chunking_is_transparent sample_parse sample_ToString sample_TypeError
           registered ["data: " +:+ token_payload; LF] ReadDone H).
Defined.

Lemma open_last_line_is_dropped_witness :
  no_line_feed "data: [DO" = true
  /\ processStream sample_parse sample_ToString sample_TypeError registered
       ([("data: " +:+ token_payload) +:+ LF] ++ ["data: [DO"]) ReadDone
     = processStream sample_parse sample_ToString sample_TypeError registered
         [("data: " +:+ token_payload) +:+ LF] ReadDone.
Proof.
  assert (H : no_line_feed "data: [DO" = true) by reflexivity.
  split; [exact H|].
  exact (open_last_line_is_dropped sample_parse sample_ToString sample_TypeError
           registered [("data: " +:+ token_payload) +:+ LF] "data: [DO" ReadDone H).
Defined.

Lemma malformed_line_is_reported_and_skipped_witness :
  errorCallback registered = true
  /\ trim "oops" ≠ "[DONE]"
  /\ sample_parse "oops"
     = inl {| Js.name := "SyntaxError"; Js.message := "Unexpected token" |}
  /\ process_lines sample_parse sample_ToString sample_TypeError registered
       [("data: " +:+ "oops")]
     = [ErrorCb
          (new_Error
             ("Failed to parse event data: "
              +:+ Error_toString
                    {| Js.name := "SyntaxError";
                       Js.message := "Unexpected token" |}))].
Proof.
  assert (H1 : errorCallback registered = true) by reflexivity.
  assert (H2 : trim "oops" ≠ "[DONE]") by (vm_compute; discriminate).
  assert (H3 : sample_parse "oops"
               = inl {| Js.name := "SyntaxError"; Js.message := "Unexpected token" |})
    by reflexivity.
  split; [exact H1|]. split; [exact H2|]. split; [exact H3|].
  exact (malformed_line_is_reported_and_skipped sample_parse sample_ToString
           sample_TypeError registered "oops" _ [] H1 H2 H3).
Defined.

Lemma thread_sync_from_header_witness :
  streamEventCallback registered = true
  /\ exists rest,
       (handleStreamingResponse sample_parse sample_ToString sample_TypeError
          registered (Some "thread-1") (FetchResolves Samples.moved_response)).1
       = [StreamEventCb (raw_thread_sync "thread-2")] ++ rest
       /\ no_thread_sync rest.
Proof.
  assert (H : streamEventCallback registered = true) by reflexivity.
  split; [exact H|].
  exact (thread_sync_from_header sample_parse sample_ToString sample_TypeError
           registered (Some "thread-1") Samples.moved_response H).
Defined.

End DecoderFacts.

(** ** The controller on the transport *)

Module SystemFacts.
Import ChatState ChatController Scenario.

Lemma find_filter_some {A} (p : A -> bool) (q : A -> Prop)
    `{forall x, Decision (q x)} (l : list A) (x : A) :
  find p l = Some x -> q x -> find p (filter q l) = Some x.
Proof.
  induction l as [|y l IH]; [done|]. cbn [find].
  destruct (p y) eqn:Hp.
  - intros [= ->] Hq. rewrite filter_cons_True by done. cbn [find]. by rewrite Hp.
  - intros Hx Hq. destruct (decide (q y)).
    + rewrite filter_cons_True by done. cbn [find]. rewrite Hp. by apply IH.
    + rewrite filter_cons_False by done. by apply IH.
Qed.

Lemma find_app_some {A} (p : A -> bool) (l1 l2 : list A) (x : A) :
  find p l1 = Some x -> find p (l1 ++ l2) = Some x.
Proof.
  induction l1 as [|y l1 IH]; [done|]. cbn [find app].
  destruct (p y); [done | exact IH].
Qed.

Lemma Object_assign_isLoading (updates : list Assignment) (m : BaseMessage) :
  isLoading (Object_assign updates m) = isLoading m.
Proof.
  unfold Object_assign. revert m.
  induction updates as [|a us IH]; intros m; simpl; [done|].
  rewrite IH. by destruct a.
Qed.

(** The error callback of the controller leaves a tool message that is not
    a loading placeholder where and as it is. *)
Lemma getTool_onError (i : string) (err : Js.Error) (now : Time) (uuid : string)
    (c : ChatController.t) (tm : BaseMessage) :
  getToolMessageByCallId i (state c) = Some tm -> Js.flag (isLoading tm) = false ->
  getToolMessageByCallId i (state (onError err now uuid c)) = Some tm.
Proof.
  intros Hf Hl. unfold getToolMessageByCallId in *.
  assert (H1 : find (is_tool_call i) (messages (removeLoadingMessages (state c)))
               = Some tm).
  { cbn [removeLoadingMessages messages emit with_messages].
    apply find_filter_some; [done|]. unfold not_loading. by rewrite Hl. }
  unfold onError. destruct (_ && _); cbn [on_state state]; [exact H1|].
  unfold addMessage. destruct (existsb _ _); [exact H1|].
  cbn [messages emit with_messages]. by apply find_app_some.
Qed.

Section Engine.

Variable JSON_parse : string -> Js.Error + Js.value.
Variable ToString : Js.value -> Js.Error + string.
Variable TypeError_of : string -> Js.Error.

Abbreviation perform := (RestChatServiceCalls.perform JSON_parse ToString TypeError_of).

(** X9. On this transport a failed [fetch] does not undo an approval.
    When the [fetch] of [sendApproval] is rejected with an error that is
    not an abort, the transport calls the error callback and its promise
    resolves; so [approveToolCall] does not reach its [catch]: after the
    error callback of the controller and the rest of [approveToolCall], the
    tool message is still approved and not waiting, and has the error it
    had. *)
Theorem failed_fetch_keeps_approval (svc : RestChatService.t)
    (c : ChatController.t) (i : string) (lvl : option string) (tm : BaseMessage)
    (e : Js.Error) (now : Time) (uuid : string) :
  RestChatService.errorCallback svc = true ->
  Js.name e ≠ "AbortError" ->
  getToolMessageByCallId i (state c) = Some tm ->
  Js.flag (isLoading tm) = false ->
  let c1 := (approveToolCall i lvl c).1 in
  let done :=
    perform svc (approveToolCall i lvl c).2 Resolved
      (RestChatService.FetchRejects (Js.ThrownError e)) in
  let c2 := (approveToolCall_settle i done.2 (onError e now uuid c1)).1 in
  done = ([RestChatService.ErrorCb (Js.ThrownError e)], Resolved)
  /\ exists tm2,
       getToolMessageByCallId i (state c2) = Some tm2
       /\ approvalStatus (tool tm2) = Some Approved
       /\ waitingForApproval (tool tm2) = Some false
       /\ error tm2 = error tm.
Proof.
  intros Hreg Hname Hf Hl c1 done c2.
  assert (Hdone : done = ([RestChatService.ErrorCb (Js.ThrownError e)], Resolved)).
  { subst done. cbn [approveToolCall snd RestChatServiceCalls.perform
                       RestChatService.handleStreamingResponse
                       RestChatService.is_AbortError].
    apply String.eqb_neq in Hname. rewrite Hname.
    unfold RestChatService.call_error. by rewrite Hreg. }
  split; [exact Hdone|].
  subst c2. rewrite Hdone. cbn [snd approveToolCall_settle fst].
  destruct (ChatControllerFacts.getTool_updateApprovalRequest i true _ _ Hf)
    as [Ha _].
  destruct (ChatControllerFacts.getTool_updateToolMessage i
              [A_approvalStatus (Some Approved);
               A_approvalLevel (Some (levelToUse i lvl c));
               A_waitingForApproval (Some false)] _ _ Ha) as [Ha1 _].
  eexists. split.
  - apply getTool_onError; [exact Ha1|].
    by rewrite Object_assign_isLoading.
  - repeat split.
Qed.

(** X24. A method of the transport rejects only before a response is
    there.  When its promise is rejected no callback has been called, and
    the rejection is that of the request headers, or the [fetch] was
    rejected with a value whose [name] cannot be read ([null] or
    [undefined]).  An HTTP error status, a response without a body and a
    failed read never reject: they go to the error callback. *)
Theorem rejection_means_nothing_delivered (svc : RestChatService.t)
    (call : ServiceCall) (headers : Settled)
    (outcome : RestChatService.FetchOutcome) (reason : Js.thrown) :
  (perform svc call headers outcome).2 = Rejected reason ->
  (perform svc call headers outcome).1 = []
  /\ (headers = Rejected reason
      \/ exists thrown,
           outcome = RestChatService.FetchRejects thrown
           /\ RestChatService.is_AbortError thrown = None).
Proof.
  assert (Hres : forall threadId',
            (RestChatService.handleStreamingResponse JSON_parse ToString
               TypeError_of svc threadId' outcome).2 = Rejected reason ->
            (RestChatService.handleStreamingResponse JSON_parse ToString
               TypeError_of svc threadId' outcome).1 = []
            /\ exists thrown,
                 outcome = RestChatService.FetchRejects thrown
                 /\ RestChatService.is_AbortError thrown = None).
  { intros threadId'. unfold RestChatService.handleStreamingResponse.
    destruct outcome as [thrown|res].
    - destruct (RestChatService.is_AbortError thrown) as [[|]|] eqn:E;
        cbn [fst snd]; try done. intros _. split; [done|]. by exists thrown.
    - destruct (negb (RestChatService.ok res)).
      + destruct (RestChatService.str _ _) as [e|text]; [|done].
        by destruct (String.eqb (Js.name e) "AbortError").
      + by destruct (RestChatService.body res) as [[chunks last_read]|]. }
  unfold RestChatServiceCalls.perform.
  destruct call; try done;
    (destruct headers as [|r];
     [intros H; destruct (Hres _ H) as [H1 H2]; split; [exact H1 | by right]
     |cbn [fst snd]; intros [= ->]; split; [done | by left]]).
Qed.

End Engine.

(** X10. The level that goes on the wire with a decision.  An approval
    carries the level asked for, when there is one, else the default level
    of the tool message, when it has one, else [user]: never the default
    [once] of the transport by omission, and never an empty level.  A
    denial always carries [once]. *)
Theorem decision_wire_level (c : ChatController.t) (i : string)
    (lvl : option string) :
  RestChatServiceCalls.wire_level (approveToolCall i lvl c).2
  = Some (Js.Str (levelToUse i lvl c))
  /\ levelToUse i lvl c ≠ ""
  /\ (forall l, lvl = Some l -> l ≠ "" -> levelToUse i lvl c = l)
  /\ (forall tm meta,
        str_or lvl None = None ->
        getToolMessageByCallId i (state c) = Some tm ->
        approval (tool tm) = Some meta -> defaultApprovalLevel meta ≠ "" ->
        levelToUse i lvl c = defaultApprovalLevel meta)
  /\ (str_or lvl None = None -> getToolMessageByCallId i (state c) = None ->
      levelToUse i lvl c = "user")
  /\ (forall tm,
        str_or lvl None = None ->
        getToolMessageByCallId i (state c) = Some tm ->
        (approval (tool tm) = None
         \/ exists meta, approval (tool tm) = Some meta
                         /\ defaultApprovalLevel meta = "") ->
        levelToUse i lvl c = "user")
  /\ RestChatServiceCalls.wire_level (denyToolCall i c).2 = Some (Js.Str "once").
Proof.
  assert (Hne : levelToUse i lvl c ≠ "").
  { unfold levelToUse, str_or.
    repeat (case_match; simplify_eq; cbn [default]; try done);
      by apply String.eqb_neq. }
  split; [|split; [exact Hne|split; [|split; [|split; [|split]]]]].
  - cbn [RestChatServiceCalls.wire_level approveToolCall snd
           RestChatServiceCalls.sendApproval_payload
           RestChatService.get RestChatService.prop RestChatService.assoc default].
    cbn. unfold str_or. apply String.eqb_neq in Hne. by rewrite Hne.
  - intros l -> Hl. apply String.eqb_neq in Hl.
    unfold levelToUse, str_or. rewrite Hl. cbn. by rewrite Hl.
  - intros tm meta Hlvl Hf Ha Hd. apply String.eqb_neq in Hd.
    assert (Hskip : forall other, str_or lvl other = other).
    { intros other. unfold str_or in *.
      destruct lvl as [l|]; [|done]. by destruct (String.eqb l ""). }
    unfold levelToUse. rewrite Hf. cbn. rewrite Ha. cbn. rewrite Hskip.
    unfold str_or. by rewrite Hd.
  - intros Hlvl Hf.
    assert (Hskip : forall other, str_or lvl other = other).
    { intros other. unfold str_or in *.
      destruct lvl as [l|]; [|done]. by destruct (String.eqb l ""). }
    unfold levelToUse. rewrite Hf. cbn. by rewrite Hskip.
  - intros tm Hlvl Hf Hcase.
    assert (Hskip : forall other, str_or lvl other = other).
    { intros other. unfold str_or in *.
      destruct lvl as [l|]; [|done]. by destruct (String.eqb l ""). }
    unfold levelToUse. rewrite Hf. cbn.
    destruct Hcase as [Ha|(meta & Ha & Hd)]; rewrite Ha; cbn; rewrite Hskip;
      [done|]. unfold str_or. by rewrite Hd.
  - reflexivity.
Qed.

Lemma failed_fetch_keeps_approval_witness :
  RestChatService.errorCallback registered = true
  /\ Js.name Samples.fetch_failed ≠ "AbortError"
  /\ exists tm tm2,
       getToolMessageByCallId "t1" (state waiting_controller) = Some tm
       /\ Js.flag (isLoading tm) = false
       /\ getToolMessageByCallId "t1"
            (state (approveToolCall_settle "t1" Resolved
                      (onError Samples.fetch_failed 40%Z "u-2"
                         (approveToolCall "t1" None waiting_controller).1)).1)
          = Some tm2
       /\ approvalStatus (tool tm2) = Some Approved
       /\ waitingForApproval (tool tm2) = Some false.
Proof.
  assert (H1 : RestChatService.errorCallback registered = true) by reflexivity.
  assert (H2 : Js.name Samples.fetch_failed ≠ "AbortError") by discriminate.
  split; [exact H1|]. split; [exact H2|]. eexists.
  destruct (failed_fetch_keeps_approval sample_parse sample_ToString
              sample_TypeError registered waiting_controller "t1" None _
              Samples.fetch_failed 40%Z "u-2" H1 H2 eq_refl eq_refl)
    as (_ & tm2 & Hg & Ha & Hw & _).
  exists tm2. split; [reflexivity|]. split; [reflexivity|].
  split; [exact Hg|]. split; assumption.
Defined.

Lemma rejection_means_nothing_delivered_witness :
  (RestChatServiceCalls.perform sample_parse sample_ToString sample_TypeError
     registered (SendApproval "t1" true "thread-1" None) (Rejected network_down)
     (RestChatService.FetchRejects network_down)).2
  = Rejected network_down
  /\ (RestChatServiceCalls.perform sample_parse sample_ToString sample_TypeError
        registered (SendApproval "t1" true "thread-1" None)
        (Rejected network_down) (RestChatService.FetchRejects network_down)).1
     = [].
Proof.
  assert (H : (RestChatServiceCalls.perform sample_parse sample_ToString
                 sample_TypeError registered
                 (SendApproval "t1" true "thread-1" None) (Rejected network_down)
                 (RestChatService.FetchRejects network_down)).2
              = Rejected network_down) by reflexivity.
  split; [exact H|].
  exact (proj1 (rejection_means_nothing_delivered sample_parse sample_ToString
                  sample_TypeError registered _ _ _ _ H)).
Defined.

End SystemFacts.

(** ** The conversation state, further *)

Module ChatStateMore.
Import ChatState Scenario.

Lemma findIndex_none {A} (p : A -> bool) (l : list A) :
  findIndex p l = None <-> find p l = None.
Proof.
  induction l as [|x l IH]; [done|]. cbn [findIndex find].
  destruct (p x); [done|]. rewrite <- IH. by destruct (findIndex p l).
Qed.

Lemma findIndex_split {A} (p : A -> bool) (l : list A) (i : nat) :
  findIndex p l = Some i ->
  exists kept x removed,
    l = kept ++ x :: removed /\ p x = true /\ find p kept = None
    /\ take (i + 1) l = kept ++ [x].
Proof.
  revert i. induction l as [|y l IH]; intros i; [done|]. cbn [findIndex].
  destruct (p y) eqn:Hp.
  - intros [= <-]. exists [], y, l.
    split; [done|]. split; [done|]. split; [done|]. cbn. by rewrite take_0.
  - destruct (findIndex p l) as [j|]; [|done]. intros [= <-].
    destruct (IH j eq_refl) as (kept & x & removed & -> & Hx & Hk & Ht).
    exists (y :: kept), x, removed.
    split; [done|]. split; [done|]. split.
    + cbn. by rewrite Hp.
    + cbn [Nat.add take app] in *. by rewrite Ht.
Qed.

Lemma find_has_id_none (i : string) (l : list BaseMessage) :
  find (has_id i) l = None <-> i ∉ map id_ l.
Proof.
  rewrite find_none_existsb. rewrite <- ChatStateFacts.existsb_has_id.
  by destruct (existsb (has_id i) l).
Qed.

(** X11. [removeMessagesAfter(id)] with an id that the transcript does not
    have returns the state as it was, without a notification.  Otherwise
    it cuts the transcript after the first message with that id, which
    becomes the last one, keeps what comes before as it is, and notifies
    each subscriber once with the cut transcript. *)
Theorem removeMessagesAfter_truncates (messageId : string) (s : ChatState.t) :
  (messageId ∉ map id_ (messages s) -> removeMessagesAfter messageId s = s)
  /\ (messageId ∈ map id_ (messages s) ->
      exists kept last removed,
        messages s = kept ++ last :: removed
        /\ id_ last = messageId /\ (messageId ∉ map id_ kept)
        /\ messages (removeMessagesAfter messageId s) = kept ++ [last]
        /\ delivered (removeMessagesAfter messageId s)
           = delivered s
               ++ map (fun fn => (fn, {| snap_threadId := threadId s;
                                         snap_messages := kept ++ [last] |}))
                    (subscribers s)).
Proof.
  split.
  - intros Hn. apply find_has_id_none, findIndex_none in Hn.
    unfold removeMessagesAfter. by rewrite Hn.
  - intros Hin. unfold removeMessagesAfter.
    destruct (findIndex (has_id messageId) (messages s)) as [i|] eqn:Hi.
    + destruct (findIndex_split _ _ _ Hi) as (kept & x & removed & Hl & Hx & Hk & Ht).
      exists kept, x, removed. split; [exact Hl|]. split.
      { unfold has_id in Hx. by apply String.eqb_eq in Hx. }
      split; [by apply find_has_id_none|].
      cbn [messages delivered emit with_messages snapshot threadId subscribers].
      by rewrite Ht.
    + apply findIndex_none, find_has_id_none in Hi. done.
Qed.

Lemma no_streaming_existsb (l : list BaseMessage) :
  Forall (fun m => Js.flag (isStreaming m) = false) l ->
  existsb (fun m => Js.flag (isStreaming m)) l = false
  /\ map cancel_if_streaming l = l.
Proof.
  induction 1 as [|m l Hm _ [IH1 IH2]]; [done|]. cbn [existsb map].
  unfold cancel_if_streaming at 1. by rewrite Hm, IH1, IH2.
Qed.

Lemma stopped_not_streaming (l : list BaseMessage) :
  Forall (fun m => Js.flag (isStreaming m) = false) (map cancel_if_streaming l).
Proof.
  apply Forall_forall. intros m Hm.
  apply list_elem_of_fmap in Hm as (x & -> & _). unfold cancel_if_streaming.
  by destruct (Js.flag (isStreaming x)) eqn:E.
Qed.

Lemma messages_stopAllStreaming (s : ChatState.t) :
  messages (stopAllStreaming s) = map cancel_if_streaming (messages s).
Proof. unfold stopAllStreaming. by destruct (existsb _ _). Qed.

(** X12. After [stopAllStreaming()] no message is streaming; a message that
    was streaming has [isStreaming = false] and [cancelled = true], every
    other message is as it was, and no message is added or removed.  When
    nothing was streaming the state is unchanged and nobody is notified,
    so a second call does nothing. *)
Theorem stopAllStreaming_stops_all (s : ChatState.t) :
  let s' := stopAllStreaming s in
  Forall (fun m => Js.flag (isStreaming m) = false) (messages s')
  /\ length (messages s') = length (messages s)
  /\ (forall i m, messages s !! i = Some m ->
        messages s' !! i
        = Some (if Js.flag (isStreaming m)
                then set_cancelled (Some true) (set_isStreaming (Some false) m)
                else m))
  /\ (Forall (fun m => Js.flag (isStreaming m) = false) (messages s) -> s' = s)
  /\ stopAllStreaming s' = s'.
Proof.
  intros s'. subst s'.
  assert (Hquiet : forall t, Forall (fun m => Js.flag (isStreaming m) = false)
                               (messages t) -> stopAllStreaming t = t).
  { intros t Ht. destruct (no_streaming_existsb _ Ht) as [He Hm].
    unfold stopAllStreaming. fold cancel_if_streaming. rewrite He.
    change (fun m => if Js.flag (isStreaming m)
                     then set_cancelled (Some true) (set_isStreaming (Some false) m)
                     else m) with cancel_if_streaming.
    rewrite Hm. by destruct t. }
  assert (Hs : Forall (fun m => Js.flag (isStreaming m) = false)
                 (messages (stopAllStreaming s))).
  { rewrite messages_stopAllStreaming. apply stopped_not_streaming. }
  split; [exact Hs|]. split; [|split; [|split; [apply Hquiet | by apply Hquiet]]].
  - rewrite messages_stopAllStreaming. apply length_map.
  - intros i m Hm. rewrite messages_stopAllStreaming, list_lookup_fmap, Hm.
    reflexivity.
Qed.

(** X13. [markMessageComplete(id)] is idempotent and changes nothing but
    the [isStreaming] of the first message with that id.  When that message
    is streaming it becomes not streaming where it is, the messages before
    and after it, the thread id and the subscribers are as they were, and
    each subscriber is notified once with the new transcript.  When it is
    not streaming, or there is none, the state is returned as it was. *)
Theorem markMessageComplete_once (messageId : string) (s : ChatState.t) :
  let s' := markMessageComplete messageId s in
  markMessageComplete messageId s' = s'
  /\ map id_ (messages s') = map id_ (messages s)
  /\ (forall m, getMessage messageId s = Some m -> Js.flag (isStreaming m) = true ->
        getMessage messageId s' = Some (set_isStreaming (Some false) m)
        /\ exists before after,
             messages s = before ++ m :: after
             /\ (messageId ∉ map id_ before)
             /\ messages s' = before ++ set_isStreaming (Some false) m :: after
             /\ threadId s' = threadId s
             /\ subscribers s' = subscribers s
             /\ sessionStartTime s' = sessionStartTime s
             /\ delivered s'
                = delivered s
                    ++ map (fun fn =>
                              (fn, {| snap_threadId := threadId s;
                                      snap_messages :=
                                        before
                                          ++ set_isStreaming (Some false) m :: after |}))
                         (subscribers s))
  /\ (forall m, getMessage messageId s = Some m -> Js.flag (isStreaming m) = false ->
        s' = s)
  /\ (getMessage messageId s = None -> s' = s).
Proof.
  intros s'. subst s'. unfold getMessage.
  assert (Hdone : forall m, find (has_id messageId) (messages s) = Some m ->
            Js.flag (isStreaming m) = true ->
            find (has_id messageId) (messages (markMessageComplete messageId s))
            = Some (set_isStreaming (Some false) m)).
  { intros m Hf Hm. unfold markMessageComplete. rewrite Hf, Hm.
    cbn [negb messages emit with_messages].
    apply find_update_first; [done|]. by destruct (find_some _ _ Hf). }
  split; [|split; [|split; [|split]]].
  - destruct (find (has_id messageId) (messages s)) as [m|] eqn:Hf.
    + destruct (Js.flag (isStreaming m)) eqn:Hm.
      * unfold markMessageComplete at 1. by rewrite (Hdone m eq_refl Hm).
      * unfold markMessageComplete at 2. rewrite Hf, Hm. cbn [negb].
        unfold markMessageComplete. by rewrite Hf, Hm.
    + unfold markMessageComplete at 2. rewrite Hf.
      unfold markMessageComplete. by rewrite Hf.
  - unfold markMessageComplete.
    destruct (find _ _); [|done]. destruct (negb _); [done|].
    cbn [messages emit with_messages]. clear.
    induction (messages s) as [|x l IH]; [done|]. cbn [update_first].
    destruct (has_id messageId x); cbn [map]; [done | by rewrite IH].
  - intros m Hf Hm. split; [by apply Hdone|].
    destruct (update_first_split _ (set_isStreaming (Some false)) _ _ Hf)
      as (before & after & Hms & Hb & Hu).
    exists before, after. split; [exact Hms|].
    split; [by apply find_has_id_none|].
    unfold markMessageComplete. rewrite Hf, Hm.
    cbn [negb messages emit with_messages threadId subscribers sessionStartTime
           delivered snapshot].
    rewrite Hu. by repeat split.
  - intros m Hf Hm. unfold markMessageComplete. by rewrite Hf, Hm.
  - intros Hf. unfold markMessageComplete. by rewrite Hf.
Qed.

(** X14. An id that the transcript does not have changes nothing:
    [appendToMessage], [markMessageComplete] and [updateMessage] for an
    unknown message id, and [updateToolMessage] for a tool call without a
    tool message, return the state as it was and notify nobody.
    [updateApprovalRequest] and [removeApprovalRequest] for such a tool call
    leave the transcript as it was too, but notify every subscriber. *)
Theorem unknown_ids_change_nothing (s : ChatState.t) :
  (forall messageId text updates,
     messageId ∉ map id_ (messages s) ->
     appendToMessage messageId text s = s
     /\ markMessageComplete messageId s = s
     /\ updateMessage messageId updates s = s)
  /\ (forall toolCallId' updates approved,
        getToolMessageByCallId toolCallId' s = None ->
        updateToolMessage toolCallId' updates s = s
        /\ updateApprovalRequest toolCallId' approved s = emit s
        /\ removeApprovalRequest toolCallId' s = emit s
        /\ messages (emit s) = messages s
        /\ length (delivered (emit s))
           = length (delivered s) + length (subscribers s)).
Proof.
  split.
  - intros i text updates Hn. apply find_has_id_none in Hn.
    unfold appendToMessage, markMessageComplete, updateMessage. by rewrite Hn.
  - intros i updates approved Hn. unfold updateToolMessage. rewrite Hn.
    unfold getToolMessageByCallId in Hn.
    unfold updateApprovalRequest, removeApprovalRequest.
    rewrite !update_first_none by done.
    assert (Hs : with_messages (messages s) s = s) by by destruct s.
    rewrite Hs. repeat split.
    cbn [delivered emit]. by rewrite length_app, length_map.
Qed.

End ChatStateMore.

(** ** Invariants of the transcript *)

Module TranscriptFacts.
Import ChatState ChatController Scenario.

Lemma quiet_Object_assign (updates : list Assignment) : quiet (Object_assign updates).
Proof.
  intros m. unfold Object_assign. revert m.
  induction updates as [|a us IH]; intros m; simpl; [done|].
  destruct (IH (assign1 m a)) as (-> & -> & -> & ->). by destruct a.
Qed.

Lemma quiet_started : quiet started.
Proof.
  intros m. unfold started. simpl. by destruct (approvalStatus (tool m)) as [[|]|].
Qed.

Lemma quiet_cancel_if_streaming : quiet cancel_if_streaming.
Proof. intros m. unfold cancel_if_streaming. by destruct (Js.flag _). Qed.

Create HintDb transcript.
#[local] Hint Resolve quiet_Object_assign quiet_started quiet_cancel_if_streaming
  : transcript.
#[local] Hint Resolve ev_same : transcript.

Lemma evolves_addMessage (m : BaseMessage) (s : ChatState.t) :
  well_made m -> evolves (messages s) (messages (addMessage m s)).
Proof.
  intros Hm. unfold addMessage.
  destruct (existsb (has_id (id_ m)) (messages s)) eqn:He; [apply ev_same|].
  cbn [messages emit with_messages]. apply ev_add; [|done].
  rewrite <- ChatStateFacts.existsb_has_id. by rewrite He.
Qed.

Lemma evolves_addToolMessage (m : BaseMessage) (s : ChatState.t) :
  well_made m -> evolves (messages s) (messages (addToolMessage m s)).
Proof. apply evolves_addMessage. Qed.

Lemma evolves_syncUserMessage (backendId cid : string) (s : ChatState.t) :
  evolves (messages s) (messages (syncUserMessage backendId cid s)).
Proof.
  unfold syncUserMessage.
  destruct (find (has_id backendId) (messages s)) eqn:Hf; [apply ev_same|].
  destruct (findIndex (is_pending_for cid) (messages s)) as [i|] eqn:Hi;
    [|apply ev_same].
  destruct (findIndex_lookup _ _ _ Hi) as (x & Hx & Hp).
  cbn [messages emit with_messages]. apply (ev_confirm i backendId x); [done| |].
  - unfold is_pending_for in Hp. apply andb_true_iff in Hp as [_ Hp].
    by destruct (isPending x) as [[|]|].
  - by apply ChatStateMore.find_has_id_none.
Qed.

Lemma evolves_addApprovalRequest (i n : string) (input : Js.value)
    (metadata : ApprovalMetadata) (now : Time) (s : ChatState.t) :
  evolves (messages s) (messages (addApprovalRequest i n input metadata now s)).
Proof.
  unfold addApprovalRequest. cbn [messages emit].
  destruct (getToolMessageByCallId i s).
  - cbn [messages with_messages]. by apply ev_update.
  - apply evolves_addToolMessage. intros _. split; [reflexivity | discriminate].
Qed.

Lemma evolves_addBatchApprovalRequest (toolCalls : list BatchToolCall)
    (s : ChatState.t) :
  evolves (messages s) (messages (addBatchApprovalRequest toolCalls s)).
Proof.
  unfold addBatchApprovalRequest. revert s.
  induction toolCalls as [|tc tcs IH]; intros s; [apply ev_same|].
  cbn [foldl]. eapply ev_trans; [apply evolves_addApprovalRequest | apply IH].
Qed.

Lemma evolves_updateToolMessage (i : string) (updates : list Assignment)
    (s : ChatState.t) :
  evolves (messages s) (messages (updateToolMessage i updates s)).
Proof.
  unfold updateToolMessage. destruct (getToolMessageByCallId i s); [|apply ev_same].
  apply ev_update, quiet_Object_assign.
Qed.

Lemma evolves_updateMessage (i : string) (updates : list Assignment)
    (s : ChatState.t) :
  evolves (messages s) (messages (updateMessage i updates s)).
Proof.
  unfold updateMessage. destruct (find _ _); [|apply ev_same].
  apply ev_update, quiet_Object_assign.
Qed.

Lemma evolves_updateApprovalRequest (i : string) (approved : bool)
    (s : ChatState.t) :
  evolves (messages s) (messages (updateApprovalRequest i approved s)).
Proof. by apply ev_update. Qed.

Lemma evolves_removeApprovalRequest (i : string) (s : ChatState.t) :
  evolves (messages s) (messages (removeApprovalRequest i s)).
Proof. apply ev_update, quiet_started. Qed.

Lemma evolves_removeLoadingMessages (s : ChatState.t) :
  evolves (messages s) (messages (removeLoadingMessages s)).
Proof. apply ev_filter. Qed.

Lemma evolves_appendToMessage (i text : string) (s : ChatState.t) :
  evolves (messages s) (messages (appendToMessage i text s)).
Proof.
  unfold appendToMessage. destruct (find _ _); [|apply ev_same]. by apply ev_update.
Qed.

Lemma evolves_markMessageComplete (i : string) (s : ChatState.t) :
  evolves (messages s) (messages (markMessageComplete i s)).
Proof.
  unfold markMessageComplete. destruct (find _ _); [|apply ev_same].
  destruct (negb _); [apply ev_same|]. by apply ev_update.
Qed.

Lemma evolves_stopAllStreaming (s : ChatState.t) :
  evolves (messages s) (messages (stopAllStreaming s)).
Proof.
  rewrite ChatStateMore.messages_stopAllStreaming.
  apply ev_all, quiet_cancel_if_streaming.
Qed.

Lemma evolves_removeMessagesAfter (i : string) (s : ChatState.t) :
  evolves (messages s) (messages (removeMessagesAfter i s)).
Proof.
  unfold removeMessagesAfter. destruct (findIndex _ _); [|apply ev_same].
  apply ev_take.
Qed.

Lemma evolves_syncThreadId (i : string) (s : ChatState.t) :
  evolves (messages s) (messages (syncThreadId i s)).
Proof. unfold syncThreadId. destruct (negb _); apply ev_same. Qed.

#[local] Hint Resolve evolves_addMessage evolves_addToolMessage
  evolves_syncUserMessage evolves_addApprovalRequest
  evolves_addBatchApprovalRequest evolves_updateToolMessage
  evolves_updateMessage evolves_updateApprovalRequest
  evolves_removeApprovalRequest evolves_removeLoadingMessages
  evolves_appendToMessage evolves_markMessageComplete evolves_stopAllStreaming
  evolves_removeMessagesAfter evolves_syncThreadId : transcript.

Lemma well_made_not_tool (m : BaseMessage) : role m ≠ RTool -> well_made m.
Proof. intros Hr Ht. done. Qed.

Lemma evolves_batch_begin (ds : list (string * (bool * string)))
    (c : ChatController.t) :
  evolves (messages (state c)) (messages (state (submitBatchApproval ds c).1)).
Proof.
  unfold submitBatchApproval. cbn [fst]. revert c.
  induction ds as [|[i [a l]] ds IH]; intros c; [apply ev_same|].
  cbn [foldl]. eapply ev_trans; [|apply IH]. cbn [on_state state].
  destruct a; (eapply ev_trans; [apply evolves_updateApprovalRequest|]);
    apply evolves_updateToolMessage.
Qed.

Lemma evolves_batch_settle (ds : list (string * (bool * string))) (o : Settled)
    (c : ChatController.t) :
  evolves (messages (state c)) (messages (state (submitBatchApproval_settle ds o c).1)).
Proof.
  destruct o as [|r]; cbn [submitBatchApproval_settle fst]; [apply ev_same|].
  revert c. induction ds as [|[i d] ds IH]; intros c; [apply ev_same|].
  cbn [foldl]. eapply ev_trans; [|apply IH]. apply evolves_updateToolMessage.
Qed.

Section Runs.

Variable JSON_stringify : Js.value -> string.

(** Every operation of the controller changes the transcript by steps of
    [evolves]. *)
Lemma evolves_step (c : ChatController.t) (op : Op) :
  controller_only op = true ->
  evolves (messages (state c)) (messages (state (step JSON_stringify c op))).
Proof.
  destruct op as [e now uuid|err now uuid|text cid lid now1 now2|i lvl|i o|i
                 |i o|ds|ds o| |i lid now|o| |f]; intros Hop; try done;
    cbn [step].
  - destruct e; cbn [onStreamEvent on_state state]; auto with transcript.
    + eapply ev_trans; [apply evolves_removeLoadingMessages|].
      apply evolves_addMessage, well_made_not_tool. done.
    + destruct (assignToolInstance _ _) as [counts k]. cbn [state].
      eapply ev_trans; [apply evolves_removeApprovalRequest|].
      apply evolves_addToolMessage. intros _. split; [reflexivity | discriminate].
    + eapply ev_trans; [apply evolves_updateToolMessage|].
      apply evolves_markMessageComplete.
    + repeat case_match; cbn [on_state state]; auto with transcript;
        apply evolves_addMessage, well_made_not_tool; done.
  - unfold onError. destruct (_ && _); cbn [on_state state];
      [apply evolves_removeLoadingMessages|].
    eapply ev_trans; [apply evolves_removeLoadingMessages|].
    apply evolves_addMessage, well_made_not_tool. done.
  - cbn [send fst state].
    eapply ev_trans; apply evolves_addMessage, well_made_not_tool; done.
  - cbn [approveToolCall fst on_state state].
    eapply ev_trans; [apply evolves_updateApprovalRequest|].
    apply evolves_updateToolMessage.
  - destruct o; cbn [approveToolCall_settle fst on_state state];
      auto with transcript.
  - cbn [denyToolCall fst on_state state].
    eapply ev_trans; [apply evolves_updateApprovalRequest|].
    apply evolves_updateToolMessage.
  - destruct o; cbn [denyToolCall_settle fst on_state state];
      auto with transcript.
  - apply evolves_batch_begin.
  - apply evolves_batch_settle.
  - cbn [stop fst on_state state]. apply evolves_stopAllStreaming.
  - cbn [regenerate fst on_state state].
    eapply ev_trans; [apply evolves_removeMessagesAfter|].
    apply evolves_addMessage, well_made_not_tool. done.
  - destruct o; cbn [regenerate_settle fst on_state state];
      auto with transcript.
  - cbn [cancel fst]. apply ev_same.
Qed.

Lemma evolves_run (ops : list Op) (c : ChatController.t) :
  forallb controller_only ops = true ->
  evolves (messages (state c)) (messages (state (run JSON_stringify ops c))).
Proof.
  revert c. induction ops as [|op ops IH]; intros c; [intros _; apply ev_same|].
  cbn [forallb]. intros H. apply andb_true_iff in H as [Hop Hops].
  change (run JSON_stringify (op :: ops) c)
    with (run JSON_stringify ops (step JSON_stringify c op)).
  eapply ev_trans; [by apply evolves_step | by apply IH].
Qed.

End Runs.

Lemma ids_update_first (p : BaseMessage -> bool) (f : BaseMessage -> BaseMessage)
    (l : list BaseMessage) :
  quiet f -> map id_ (update_first p f l) = map id_ l.
Proof.
  intros Hf. induction l as [|x l IH]; [done|]. cbn [update_first].
  destruct (p x); cbn [map]; [by rewrite (proj1 (Hf x)) | by rewrite IH].
Qed.

Lemma sublist_map {A B} (f : A -> B) (l1 l2 : list A) :
  sublist l1 l2 -> sublist (map f l1) (map f l2).
Proof. induction 1; cbn [map]; by constructor. Qed.

Lemma NoDup_ids_confirm (i : nat) (backendId : string) (l : list BaseMessage) :
  backendId ∉ map id_ l -> NoDup (map id_ l) ->
  NoDup (map id_ (alter (fun m => set_isPending (Some false) (set_id backendId m)) i l)).
Proof.
  revert i. induction l as [|x l IH]; intros i Hn Hd; [done|].
  cbn [map] in *. apply NoDup_cons in Hd as [Hx Hd].
  apply not_elem_of_cons in Hn as [Hb Hn].
  destruct i as [|i]; cbn [alter list_alter map].
  - apply NoDup_cons. split; [exact Hn | exact Hd].
  - apply NoDup_cons. split; [|by apply IH].
    intros Hin. apply list_elem_of_fmap in Hin as (y & Hy & Hin).
    apply list_elem_of_lookup in Hin as (j & Hj).
    rewrite list_lookup_alter in Hj.
    destruct (decide (i = j)) as [->|Hne].
    + destruct (l !! j) as [z|] eqn:Hz; [|done]. cbn in Hj.
      injection Hj as <-. cbn in Hy. by subst.
    + apply Hx. rewrite Hy. apply list_elem_of_fmap. exists y. split; [done|].
      by eapply list_elem_of_lookup_2.
Qed.

Lemma evolves_NoDup (l l' : list BaseMessage) :
  evolves l l' -> NoDup (map id_ l) -> NoDup (map id_ l').
Proof.
  induction 1 as [l|p f l Hf|f l Hf|P HP l|n l|x l Hx _|i b m l Hm _ Hb
                 |l1 l2 l3 _ IH1 _ IH2]; intros Hd; auto.
  - by rewrite ids_update_first.
  - rewrite map_map. erewrite map_ext; [exact Hd|]. intros m. apply Hf.
  - eapply sublist_NoDup; [exact Hd|]. apply sublist_map, sublist_filter.
  - eapply sublist_NoDup; [exact Hd|]. apply sublist_map, sublist_take.
  - rewrite map_app. apply NoDup_app. split; [done|]. split; [|apply NoDup_singleton].
    intros y Hy Hin. apply list_elem_of_singleton in Hin. by subst.
  - by apply NoDup_ids_confirm.
Qed.

Lemma evolves_well_made (l l' : list BaseMessage) :
  evolves l l' -> Forall well_made l -> Forall well_made l'.
Proof.
  assert (Hq : forall f m, quiet f -> well_made m -> well_made (f m)).
  { intros f m Hf Hm. destruct (Hf m) as (Hi & Hr & Ht & Hp).
    unfold well_made. rewrite Hi, Hr, Ht, Hp. exact Hm. }
  induction 1 as [l|p f l Hf|f l Hf|P HP l|n l|x l _ Hx|i b m l Hm Hp _
                 |l1 l2 l3 _ IH1 _ IH2]; intros Hw; auto.
  - induction Hw as [|y l Hy Hw IH]; [constructor|]. cbn [update_first].
    destruct (p y); constructor; auto.
  - apply Forall_fmap. eapply Forall_impl; [exact Hw|]. intros y. by apply Hq.
  - apply Forall_forall. intros y Hy. apply list_elem_of_filter in Hy as [_ Hy].
    by apply (proj1 (Forall_forall _ _) Hw).
  - by apply Forall_take.
  - apply Forall_app. split; [done | by constructor].
  - apply Forall_alter; [done|]. intros y Hy Hwy. rewrite Hm in Hy.
    injection Hy as <-. intros Hr. cbn in Hr. destruct (Hwy Hr) as [_ Hnp]. done.
Qed.

Section Invariants.

Variable JSON_stringify : Js.value -> string.

(** X15. The ids of the transcript stay pairwise distinct through every
    run of callbacks and operations of the controller: no event, and no
    identifier drawn twice, makes two messages share an id. *)
Theorem ids_stay_distinct (ops : list Op) (c : ChatController.t) :
  forallb controller_only ops = true ->
  NoDup (map id_ (messages (state c))) ->
  NoDup (map id_ (messages (state (run JSON_stringify ops c)))).
Proof. intros Hops. apply evolves_NoDup. by apply evolves_run. Qed.

(** X16. Through every run of callbacks and operations of the controller,
    a tool message has the id of its tool call and is never pending: the
    controller makes tool messages that way and no confirmation of a user
    message can rename one. *)
Theorem tool_messages_keep_call_id (ops : list Op) (c : ChatController.t) :
  forallb controller_only ops = true ->
  Forall well_made (messages (state c)) ->
  Forall well_made (messages (state (run JSON_stringify ops c))).
Proof. intros Hops. apply evolves_well_made. by apply evolves_run. Qed.

End Invariants.

Lemma ids_stay_distinct_witness :
  forallb controller_only (tail Samples.sample_run) = true
  /\ NoDup (map id_ (messages (state fresh_controller)))
  /\ NoDup (map id_
              (messages
                 (state (run no_stringify (tail Samples.sample_run)
                           fresh_controller)))).
Proof.
  assert (H1 : forallb controller_only (tail Samples.sample_run) = true)
    by reflexivity.
  assert (H2 : NoDup (map id_ (messages (state fresh_controller))))
    by apply NoDup_nil_2.
  split; [exact H1|]. split; [exact H2|].
  exact (ids_stay_distinct no_stringify (tail Samples.sample_run)
           fresh_controller H1 H2).
Defined.

Lemma tool_messages_keep_call_id_witness :
  forallb controller_only Samples.tool_run = true
  /\ Forall well_made (messages (state fresh_controller))
  /\ map (fun m => (id_ m, role m))
       (messages (state (run no_stringify Samples.tool_run fresh_controller)))
     = [("m-9", RUser); ("t1", RTool); ("t2", RTool)]
  /\ Forall well_made
       (messages (state (run no_stringify Samples.tool_run fresh_controller))).
Proof.
  assert (H1 : forallb controller_only Samples.tool_run = true) by reflexivity.
  assert (H2 : Forall well_made (messages (state fresh_controller)))
    by apply Forall_nil_2.
  split; [exact H1|]. split; [exact H2|]. split; [reflexivity|].
  exact (tool_messages_keep_call_id no_stringify Samples.tool_run
           fresh_controller H1 H2).
Defined.

End TranscriptFacts.

(** ** Notifications and the thread id *)

Module NotificationFacts.
Import ChatState ChatController Scenario.

Lemma latest_app (fn : Subscriber) (a b : list (Subscriber * ChatStateSnapshot)) :
  latest fn (a ++ b)
  = match latest fn b with
    | Some later => Some later
    | None => latest fn a
    end.
Proof.
  induction a as [|[g snap] a IH]; cbn [app latest]; [by destruct (latest fn b)|].
  rewrite IH. by destruct (latest fn b).
Qed.

Lemma latest_emitted_cases (fn : Subscriber) (snap : ChatStateSnapshot)
    (subs : list Subscriber) :
  latest fn (map (fun g => (g, snap)) subs)
  = if decide (fn ∈ subs) then Some snap else None.
Proof.
  induction subs as [|g subs IH]; [done|].
  cbn [map latest]. rewrite IH.
  destruct (decide (fn ∈ subs)) as [Hin|Hn].
  - rewrite decide_True; [done | by apply elem_of_cons; right].
  - destruct (Nat.eqb_spec g fn) as [->|Hne].
    + rewrite decide_True; [done | by apply elem_of_cons; left].
    + rewrite decide_False; [done|]. intros [->|H]%elem_of_cons; done.
Qed.

Lemma latest_emitted (fn : Subscriber) (snap : ChatStateSnapshot)
    (subs : list Subscriber) :
  fn ∈ subs -> latest fn (map (fun g => (g, snap)) subs) = Some snap.
Proof. intros H. by rewrite latest_emitted_cases, decide_True. Qed.

Lemma up_to_date_emit (s : ChatState.t) : up_to_date (emit s).
Proof.
  intros fn Hfn. cbn [delivered emit subscribers] in *.
  rewrite latest_app, latest_emitted by done. reflexivity.
Qed.

Lemma settled_refl (s : ChatState.t) : settled s s.
Proof. by left. Qed.

Lemma settled_emit (s x : ChatState.t) : settled s (emit x).
Proof. right. by exists x. Qed.

Lemma settled_trans (s1 s2 s3 : ChatState.t) :
  settled s1 s2 -> settled s2 s3 -> settled s1 s3.
Proof. intros H1 [->|H2]; [exact H1 | by right]. Qed.

Lemma settled_up_to_date (s s' : ChatState.t) :
  settled s s' -> up_to_date s -> up_to_date s'.
Proof. intros [->|[x ->]] H; [exact H | apply up_to_date_emit]. Qed.

Create HintDb settle.
#[local] Hint Resolve settled_refl settled_emit : settle.

Ltac settle_op := intros; repeat case_match; auto with settle.

Lemma settled_addMessage m s : settled s (addMessage m s).
Proof. unfold addMessage. settle_op. Qed.
Lemma settled_addToolMessage m s : settled s (addToolMessage m s).
Proof. unfold addToolMessage. settle_op. Qed.
Lemma settled_syncUserMessage b cid s : settled s (syncUserMessage b cid s).
Proof. unfold syncUserMessage. settle_op. Qed.
Lemma settled_syncThreadId i s : settled s (syncThreadId i s).
Proof. unfold syncThreadId. settle_op. Qed.
Lemma settled_addApprovalRequest i n input meta now s :
  settled s (addApprovalRequest i n input meta now s).
Proof. unfold addApprovalRequest. apply settled_emit. Qed.
Lemma settled_updateApprovalRequest i a s : settled s (updateApprovalRequest i a s).
Proof. apply settled_emit. Qed.
Lemma settled_removeApprovalRequest i s : settled s (removeApprovalRequest i s).
Proof. apply settled_emit. Qed.
Lemma settled_removeLoadingMessages s : settled s (removeLoadingMessages s).
Proof. apply settled_emit. Qed.
Lemma settled_appendToMessage i text s : settled s (appendToMessage i text s).
Proof. unfold appendToMessage. settle_op. Qed.
Lemma settled_markMessageComplete i s : settled s (markMessageComplete i s).
Proof. unfold markMessageComplete. settle_op. Qed.
Lemma settled_updateMessage i us s : settled s (updateMessage i us s).
Proof. unfold updateMessage. settle_op. Qed.
Lemma settled_updateToolMessage i us s : settled s (updateToolMessage i us s).
Proof. unfold updateToolMessage. settle_op. Qed.
Lemma settled_removeMessagesAfter i s : settled s (removeMessagesAfter i s).
Proof. unfold removeMessagesAfter. settle_op. Qed.

Lemma stopAllStreaming_cases (s : ChatState.t) :
  stopAllStreaming s = s
  \/ stopAllStreaming s
     = emit (with_messages (map cancel_if_streaming (messages s)) s).
Proof.
  destruct (existsb (fun m => Js.flag (isStreaming m)) (messages s)) eqn:He.
  - right. unfold stopAllStreaming. by rewrite He.
  - left. unfold stopAllStreaming. rewrite He.
    assert (Hm : map (fun m => if Js.flag (isStreaming m)
                               then set_cancelled (Some true)
                                      (set_isStreaming (Some false) m)
                               else m) (messages s) = messages s).
    { clear -He. induction (messages s) as [|x l IH]; [done|].
      cbn [existsb map] in *. apply orb_false_iff in He as [Hx Hl].
      by rewrite Hx, (IH Hl). }
    rewrite Hm. by destruct s.
Qed.

Lemma settled_stopAllStreaming s : settled s (stopAllStreaming s).
Proof.
  destruct (stopAllStreaming_cases s) as [->| ->]; auto with settle.
Qed.

Lemma settled_addBatchApprovalRequest tcs s :
  settled s (addBatchApprovalRequest tcs s).
Proof.
  unfold addBatchApprovalRequest. revert s.
  induction tcs as [|tc tcs IH]; intros s; [apply settled_refl|].
  cbn [foldl]. eapply settled_trans; [apply settled_addApprovalRequest | apply IH].
Qed.

Ltac settle_last :=
  first [ apply settled_addMessage | apply settled_addToolMessage
        | apply settled_syncUserMessage | apply settled_syncThreadId
        | apply settled_addApprovalRequest | apply settled_updateApprovalRequest
        | apply settled_removeApprovalRequest | apply settled_removeLoadingMessages
        | apply settled_appendToMessage | apply settled_markMessageComplete
        | apply settled_updateMessage | apply settled_updateToolMessage
        | apply settled_removeMessagesAfter | apply settled_stopAllStreaming
        | apply settled_addBatchApprovalRequest ].

Ltac settle_chain :=
  repeat first [ apply settled_refl | apply settled_emit
               | eapply settled_trans; [|settle_last] ].

Lemma settled_batch_begin ds c : settled (state c) (state (submitBatchApproval ds c).1).
Proof.
  unfold submitBatchApproval. cbn [fst]. revert c.
  induction ds as [|[i [a l]] ds IH]; intros c; [apply settled_refl|].
  cbn [foldl]. eapply settled_trans; [|apply IH]. cbn [on_state state].
  destruct a; settle_chain.
Qed.

Lemma settled_batch_settle ds o c :
  settled (state c) (state (submitBatchApproval_settle ds o c).1).
Proof.
  destruct o as [|r]; cbn [submitBatchApproval_settle fst]; [apply settled_refl|].
  revert c. induction ds as [|[i d] ds IH]; intros c; [apply settled_refl|].
  cbn [foldl]. eapply settled_trans; [|apply IH]. cbn [on_state state].
  settle_chain.
Qed.

Section Runs.

Variable JSON_stringify : Js.value -> string.

Lemma settled_step (c : ChatController.t) (op : Op) :
  controller_only op = true ->
  settled (state c) (state (step JSON_stringify c op)).
Proof.
  destruct op as [e now uuid|err now uuid|text cid lid now1 now2|i lvl|i o|i
                 |i o|ds|ds o| |i lid now|o| |f]; intros Hop; try done;
    cbn [step].
  - destruct e; cbn [onStreamEvent on_state state]; try solve [settle_chain];
      repeat case_match; cbn [on_state state]; settle_chain.
  - unfold onError. destruct (_ && _); cbn [on_state state]; settle_chain.
  - cbn [send fst on_state state]. settle_chain.
  - cbn [approveToolCall fst on_state state]. settle_chain.
  - destruct o; cbn [approveToolCall_settle fst on_state state]; settle_chain.
  - cbn [denyToolCall fst on_state state]. settle_chain.
  - destruct o; cbn [denyToolCall_settle fst on_state state]; settle_chain.
  - apply settled_batch_begin.
  - apply settled_batch_settle.
  - cbn [stop fst on_state state]. settle_chain.
  - cbn [regenerate fst on_state state]. settle_chain.
  - destruct o; cbn [regenerate_settle fst on_state state]; settle_chain.
  - cbn [cancel fst]. settle_chain.
Qed.

Lemma up_to_date_subscribe (fn : Subscriber) (s : ChatState.t) :
  up_to_date s -> up_to_date (subscribe fn s).
Proof.
  intros Hs g Hg. cbn [subscribe subscribers delivered] in *.
  rewrite latest_app. cbn [latest].
  destruct (Nat.eqb_spec fn g) as [->|Hne]; [reflexivity|].
  apply elem_of_app in Hg as [Hg|Hg].
  - by rewrite (Hs g Hg).
  - apply list_elem_of_singleton in Hg. by subst.
Qed.

(** X17. Subscribers are never left behind: when every subscriber has last
    been called with the current state, the same holds after any run of
    callbacks and operations of the controller and of new subscriptions.
    An operation that changes the state ends with a notification of all
    subscribers, and one that does not notify has changed nothing. *)
Theorem subscribers_stay_up_to_date (ops : list Op) (c : ChatController.t) :
  Forall controller_or_subscribe ops ->
  up_to_date (state c) ->
  up_to_date (state (run JSON_stringify ops c)).
Proof.
  intros Hops. revert c. induction Hops as [|op ops Hop _ IH]; intros c Hc;
    [exact Hc|].
  change (run JSON_stringify (op :: ops) c)
    with (run JSON_stringify ops (step JSON_stringify c op)).
  apply IH. destruct Hop as [Hop|[fn ->]].
  - eapply settled_up_to_date; [by apply settled_step | exact Hc].
  - cbn [step on_state state]. by apply up_to_date_subscribe.
Qed.

End Runs.

(** *** The thread id *)

Ltac same_thread := intros; repeat case_match; reflexivity.

Lemma threadId_addMessage m s : threadId (addMessage m s) = threadId s.
Proof. unfold addMessage. same_thread. Qed.
Lemma threadId_addToolMessage m s : threadId (addToolMessage m s) = threadId s.
Proof. unfold addToolMessage. same_thread. Qed.
Lemma threadId_syncUserMessage b cid s :
  threadId (syncUserMessage b cid s) = threadId s.
Proof. unfold syncUserMessage. same_thread. Qed.
Lemma threadId_addApprovalRequest i n input meta now s :
  threadId (addApprovalRequest i n input meta now s) = threadId s.
Proof.
  unfold addApprovalRequest. cbn [emit threadId].
  case_match; [reflexivity | apply threadId_addToolMessage].
Qed.
Lemma threadId_appendToMessage i text s :
  threadId (appendToMessage i text s) = threadId s.
Proof. unfold appendToMessage. same_thread. Qed.
Lemma threadId_markMessageComplete i s :
  threadId (markMessageComplete i s) = threadId s.
Proof. unfold markMessageComplete. same_thread. Qed.
Lemma threadId_updateMessage i us s : threadId (updateMessage i us s) = threadId s.
Proof. unfold updateMessage. same_thread. Qed.
Lemma threadId_updateToolMessage i us s :
  threadId (updateToolMessage i us s) = threadId s.
Proof. unfold updateToolMessage. same_thread. Qed.
Lemma threadId_removeMessagesAfter i s :
  threadId (removeMessagesAfter i s) = threadId s.
Proof. unfold removeMessagesAfter. same_thread. Qed.
Lemma threadId_stopAllStreaming s : threadId (stopAllStreaming s) = threadId s.
Proof. unfold stopAllStreaming. same_thread. Qed.
Lemma threadId_addBatchApprovalRequest tcs s :
  threadId (addBatchApprovalRequest tcs s) = threadId s.
Proof.
  unfold addBatchApprovalRequest. revert s.
  induction tcs as [|tc tcs IH]; intros s; [done|].
  cbn [foldl]. by rewrite IH, threadId_addApprovalRequest.
Qed.

Ltac thread_chain :=
  cbn [on_state state fst];
  rewrite ?threadId_addMessage, ?threadId_addToolMessage,
    ?threadId_syncUserMessage, ?threadId_addApprovalRequest,
    ?threadId_appendToMessage, ?threadId_markMessageComplete,
    ?threadId_updateMessage, ?threadId_updateToolMessage,
    ?threadId_removeMessagesAfter, ?threadId_stopAllStreaming,
    ?threadId_addBatchApprovalRequest;
  try reflexivity.

Lemma threadId_batch_begin ds c :
  threadId (state (submitBatchApproval ds c).1) = threadId (state c).
Proof.
  unfold submitBatchApproval. cbn [fst]. revert c.
  induction ds as [|[i [a l]] ds IH]; intros c; [done|].
  cbn [foldl]. rewrite IH. destruct a; thread_chain.
Qed.

Lemma threadId_batch_settle ds o c :
  threadId (state (submitBatchApproval_settle ds o c).1) = threadId (state c).
Proof.
  destruct o as [|r]; cbn [submitBatchApproval_settle fst]; [done|].
  revert c. induction ds as [|[i d] ds IH]; intros c; [done|].
  cbn [foldl]. rewrite IH. thread_chain.
Qed.

Section Thread.

Variable JSON_stringify : Js.value -> string.

Lemma threadId_step (c : ChatController.t) (op : Op) :
  controller_only op = true ->
  is_thread_sync_event op = false ->
  threadId (state (step JSON_stringify c op)) = threadId (state c).
Proof.
  destruct op as [e now uuid|err now uuid|text cid lid now1 now2|i lvl|i o|i
                 |i o|ds|ds o| |i lid now|o| |f]; intros Hop Hsync; try done;
    cbn [step].
  - destruct e; try done; cbn [onStreamEvent]; try solve [thread_chain];
      repeat case_match; thread_chain.
  - unfold onError. destruct (_ && _); thread_chain.
  - unfold send. thread_chain.
  - unfold approveToolCall. thread_chain.
  - destruct o; cbn [approveToolCall_settle]; thread_chain.
  - unfold denyToolCall. thread_chain.
  - destruct o; cbn [denyToolCall_settle]; thread_chain.
  - apply threadId_batch_begin.
  - apply threadId_batch_settle.
  - unfold stop. thread_chain.
  - unfold regenerate. thread_chain.
  - destruct o; cbn [regenerate_settle]; thread_chain.
Qed.

(** X18. The thread id is the backend's: a [thread_sync] event sets it to
    the id it carries and leaves the transcript alone, and no other
    callback or operation of the controller changes it, so every call of the
    transport made after a run without such an event names the thread the
    controller started with. *)
Theorem thread_id_changes_only_on_thread_sync :
  (forall (c : ChatController.t) (backendThreadId : string) (now : Time)
          (uuid : string),
     let c' := step JSON_stringify c (OnStreamEvent (thread_sync backendThreadId) now uuid) in
     getThreadId (state c') = backendThreadId
     /\ messages (state c') = messages (state c))
  /\ (forall (ops : list Op) (c : ChatController.t),
        forallb (fun op => controller_only op && negb (is_thread_sync_event op)) ops
        = true ->
        getThreadId (state (run JSON_stringify ops c)) = getThreadId (state c)).
Proof.
  split.
  - intros c b now uuid. cbn [step onStreamEvent on_state state].
    unfold syncThreadId, getThreadId.
    destruct (String.eqb_spec (threadId (state c)) b) as [He|Hne];
      cbn [negb threadId messages emit]; done.
  - intros ops. induction ops as [|op ops IH]; intros c Hops; [done|].
    cbn [forallb] in Hops. apply andb_prop in Hops as [Hop Hops].
    apply andb_prop in Hop as [Hc Hs]. apply negb_true_iff in Hs.
    change (run JSON_stringify (op :: ops) c)
      with (run JSON_stringify ops (step JSON_stringify c op)).
    rewrite (IH _ Hops). unfold getThreadId. by apply threadId_step.
Qed.

End Thread.

Lemma subscribers_stay_up_to_date_witness :
  Forall controller_or_subscribe Samples.sample_run
  /\ up_to_date (state fresh_controller)
  /\ up_to_date (state (run no_stringify Samples.sample_run fresh_controller)).
Proof.
  assert (H1 : Forall controller_or_subscribe Samples.sample_run).
  { unfold Samples.sample_run.
    apply Forall_cons; split; [right; by exists 7|].
    apply Forall_cons; split; [by left|].
    apply Forall_cons; split; [by left | apply Forall_nil_2]. }
  assert (H2 : up_to_date (state fresh_controller)).
  { intros fn Hfn. by apply elem_of_nil in Hfn. }
  split; [exact H1|]. split; [exact H2|].
  exact (subscribers_stay_up_to_date no_stringify Samples.sample_run
           fresh_controller H1 H2).
Defined.

End NotificationFacts.

(** ** The controller, further *)

Module ControllerMore.
Import ChatState ChatController Scenario.

Lemma update_first_twice {A} (p : A -> bool) (f g : A -> A) (l : list A) :
  (forall x, p (f x) = p x) ->
  update_first p g (update_first p f l) = update_first p (fun x => g (f x)) l.
Proof.
  intros Hp. induction l as [|y l IH]; [done|]. cbn [update_first].
  destruct (p y) eqn:Hy; cbn [update_first].
  - by rewrite Hp, Hy.
  - by rewrite Hy, IH.
Qed.

(** Two searches that return the same object: a mutation of the object
    that the first finds is seen by the second. *)
Lemma find_update_first_both {A} (p q : A -> bool) (f : A -> A) (l : list A)
    (x : A) :
  find p l = Some x -> find q l = Some x -> (forall y, q (f y) = q y) ->
  find q (update_first p f l) = Some (f x).
Proof.
  intros Hp Hq Hf. induction l as [|y l IH]; [done|].
  cbn [find update_first] in *.
  destruct (p y) eqn:Hpy, (q y) eqn:Hqy; cbn [find].
  - injection Hp as ->. by rewrite Hf, Hqy.
  - injection Hp as ->. apply find_some in Hq as [_ Hq]. congruence.
  - injection Hq as ->. apply find_some in Hp as [_ Hp]. congruence.
  - rewrite Hqy. by apply IH.
Qed.

Lemma filter_all {A} (P : A -> Prop) `{forall x, Decision (P x)} (l : list A) :
  Forall P l -> filter P l = l.
Proof.
  induction 1 as [|x l Hx _ IH]; [done|].
  by rewrite filter_cons_True, IH.
Qed.

Lemma find_map_has_id (i : string) (f : BaseMessage -> BaseMessage)
    (l : list BaseMessage) :
  (forall m, id_ (f m) = id_ m) ->
  find (has_id i) (map f l) = f <$> find (has_id i) l.
Proof.
  intros Hf. induction l as [|y l IH]; [done|]. cbn [map find].
  unfold has_id at 1 3. rewrite Hf. by destruct (String.eqb (id_ y) i).
Qed.

(** In a transcript of well made messages a tool message answers to the
    call whose id is its own. *)
Lemma well_made_tool_call (i : string) (m : BaseMessage) :
  well_made m -> is_tool_call i m = true -> id_ m = i.
Proof.
  intros Hw Hc. unfold is_tool_call in Hc. apply andb_prop in Hc as [Hr Hc].
  assert (Hrole : role m = RTool) by (by destruct (role m)).
  destruct (Hw Hrole) as [Hid _]. rewrite Hid in Hc.
  by apply String.eqb_eq in Hc.
Qed.

Lemma pending_is_tool_call (m : BaseMessage) :
  well_made m ->
  Role_eqb (role m) RTool && Js.flag (waitingForApproval (tool m)) = true ->
  is_tool_call (id_ m) m = true.
Proof.
  intros Hw Hp. apply andb_prop in Hp as [Hr _]. unfold is_tool_call.
  rewrite Hr. assert (Hrole : role m = RTool) by (by destruct (role m)).
  destruct (Hw Hrole) as [-> _]. apply String.eqb_refl.
Qed.

(** What a decision does to the transcript. *)
Lemma messages_decide_between (i : string) (d : UserDecision)
    (c : ChatController.t) :
  d <> NoDecision ->
  exists f,
    (forall m, waitingForApproval (tool (f m)) = Some false)
    /\ messages (state (decide_between i d c))
       = update_first (is_tool_call i) f (messages (state c)).
Proof.
  intros Hd.
  assert (Hgen : forall approved ups,
            (forall m, waitingForApproval (tool (Object_assign ups m)) = Some false) ->
            exists f,
              (forall m, waitingForApproval (tool (f m)) = Some false)
              /\ messages (updateToolMessage i ups
                             (updateApprovalRequest i approved (state c)))
                 = update_first (is_tool_call i) f (messages (state c))).
  { intros approved ups Hups.
    exists (fun m => Object_assign ups
                       (set_approvalStatus
                          (Some (if approved then Approved else Denied)) m)).
    split; [intros m; apply Hups|].
    unfold updateToolMessage, getToolMessageByCallId.
    cbn [updateApprovalRequest messages emit with_messages].
    destruct (find (is_tool_call i)
                (update_first (is_tool_call i) _ (messages (state c)))) eqn:Hf.
    - cbn [messages emit with_messages]. by apply update_first_twice.
    - assert (Hn : find (is_tool_call i) (messages (state c)) = None).
      { destruct (find (is_tool_call i) (messages (state c))) as [tm|] eqn:E;
          [|done].
        rewrite (ChatControllerFacts.found_after_update i _ _ tm E) in Hf; [done|done]. }
      unfold updateApprovalRequest. cbn [messages emit with_messages].
      by rewrite !update_first_none. }
  destruct d as [|lvl|]; [done| |].
  - cbn [decide_between approveToolCall fst on_state state]. apply Hgen.
    intros m. reflexivity.
  - cbn [decide_between denyToolCall fst on_state state]. apply Hgen.
    intros m. reflexivity.
Qed.











Section Reduction.

Variable JSON_stringify : Js.value -> string.

(** X19. A decision takes the tool call out of the pending approvals and
    leaves the others.  In a transcript whose ids are distinct and whose
    tool messages carry the id of their call, after the optimistic part of
    [approveToolCall(id)] or of [denyToolCall(id)] the pending approvals are
    those of before without the message [id], in the same order; this holds
    too when no tool message answers to [id]. *)
Theorem decision_clears_pending (c : ChatController.t) (i : string)
    (d : UserDecision) :
  d <> NoDecision ->
  NoDup (map id_ (messages (state c))) ->
  Forall well_made (messages (state c)) ->
  ChatController.getPendingApprovals (decide_between i d c)
  = filter (fun m => id_ m <> i) (ChatController.getPendingApprovals c).
Proof.
  intros Hd Hnd Hw.
  destruct (messages_decide_between i d c Hd) as (f & Hf & Hm).
  unfold ChatController.getPendingApprovals, ChatState.getPendingApprovals.
  rewrite Hm. set (ms := messages (state c)) in *.
  set (P := fun m : BaseMessage =>
              Role_eqb (role m) RTool && Js.flag (waitingForApproval (tool m))
              = true).
  assert (Hother : forall l : list BaseMessage,
            Forall (fun m => id_ m <> i) l ->
            filter (fun m => id_ m <> i) (filter P l) = filter P l).
  { intros l Hl. apply filter_all. apply Forall_forall. intros y Hy.
    apply list_elem_of_filter in Hy as [_ Hy].
    by apply (proj1 (Forall_forall _ _) Hl). }
  destruct (find (is_tool_call i) ms) as [tm|] eqn:Hfind.
  - destruct (update_first_split _ f _ _ Hfind) as (l1 & l2 & Hms & Hl1 & ->).
    assert (Htm : id_ tm = i).
    { apply find_some in Hfind as [Hin Hc].
      apply well_made_tool_call; [|done].
      apply (proj1 (Forall_forall _ _) Hw). by apply list_elem_of_In. }
    rewrite Hms in Hnd. rewrite map_app in Hnd. cbn [map] in Hnd.
    apply NoDup_app in Hnd as (_ & H1 & H2).
    apply NoDup_cons in H2 as [H2 _].
    assert (F1 : Forall (fun m => id_ m <> i) l1).
    { apply Forall_forall. intros y Hy Heq. apply (H1 (id_ y)).
      - apply list_elem_of_fmap. by exists y.
      - rewrite Heq, <- Htm. apply elem_of_cons. by left. }
    assert (F2 : Forall (fun m => id_ m <> i) l2).
    { apply Forall_forall. intros y Hy Heq. apply H2. rewrite Htm, <- Heq.
      apply list_elem_of_fmap. by exists y. }
    rewrite Hms, !filter_app, !filter_cons.
    rewrite (Hother l1 F1).
    assert (Hnot : ~ P (f tm)).
    { unfold P. rewrite Hf. cbn. by rewrite andb_false_r. }
    destruct (decide (P (f tm))) as [Hyes|_]; [done|].
    f_equal. destruct (decide (P tm)); [|by rewrite (Hother l2 F2)].
    rewrite filter_cons. destruct (decide (id_ tm <> i)); [done|].
    by rewrite (Hother l2 F2).
  - rewrite update_first_none by done. symmetry. apply filter_all.
    apply Forall_forall. intros y Hy. apply list_elem_of_filter in Hy as [Hp Hy].
    intros Heq. apply find_none_forall with (x := y) in Hfind; [|done].
    rewrite <- Heq in Hfind.
    rewrite pending_is_tool_call in Hfind; [done| |exact Hp].
    by apply (proj1 (Forall_forall _ _) Hw).
Qed.

(** X20. [stop()] does not close a message to the stream.  It marks a
    streaming message as cancelled and no longer streaming and asks the
    transport to cancel on the current thread; an [assistant_token] that
    still arrives for the message is appended to its text as before, and an
    [assistant_complete] for it changes nothing and notifies nobody, so the
    message stays cancelled. *)
Theorem stopped_message_still_takes_tokens (c : ChatController.t)
    (i token : string) (m : BaseMessage) (now : Time) (uuid : string) :
  getMessage i (state c) = Some m ->
  Js.flag (isStreaming m) = true ->
  let c1 := (stop c).1 in
  let stopped := set_cancelled (Some true) (set_isStreaming (Some false) m) in
  (stop c).2 = Cancel (threadId (state c))
  /\ getMessage i (state c1) = Some stopped
  /\ getMessage i
       (state (onStreamEvent JSON_stringify (assistant_token i token) now uuid c1))
     = Some (set_message (message m +:+ token) stopped)
  /\ onStreamEvent JSON_stringify (assistant_complete i) now uuid c1 = c1.
Proof.
  intros Hm Hs c1 stopped.
  assert (H1 : getMessage i (state c1) = Some stopped).
  { subst c1. cbn [stop fst on_state state]. unfold getMessage in *.
    rewrite ChatStateMore.messages_stopAllStreaming.
    rewrite find_map_has_id, Hm.
    - cbn. unfold cancel_if_streaming. by rewrite Hs.
    - intros x. unfold cancel_if_streaming. by destruct (Js.flag (isStreaming x)). }
  split; [|split; [exact H1|split]].
  - cbn [stop snd on_state state]. unfold getThreadId.
    by rewrite NotificationFacts.threadId_stopAllStreaming.
  - cbn [onStreamEvent on_state state]. unfold getMessage in *.
    unfold appendToMessage. rewrite H1. cbn [messages emit with_messages].
    rewrite (find_update_first _ _ _ _ H1); [done|].
    cbn. by destruct (find_some _ _ H1).
  - cbn [onStreamEvent]. unfold on_state, markMessageComplete.
    unfold getMessage in H1. rewrite H1. reflexivity.
Qed.

(** X21. [tool_complete] closes the tool message.  When the tool message of
    the call is the message that has the id of the call, the event leaves it
    with the status and the output it carries and not streaming; the error
    of the message becomes [Tool execution failed: ] followed by the output
    when the status is [error] and the output is truthy (the output itself
    when it is a string, its JSON text otherwise), and stays as it was in
    every other case.  No message is added or removed and the instance
    counters are untouched. *)
Theorem tool_complete_closes_tool_message (c : ChatController.t)
    (i toolName' : string) (output : Js.value) (status' : ToolStatus)
    (tm : BaseMessage) (now : Time) (uuid : string) :
  getToolMessageByCallId i (state c) = Some tm ->
  getMessage i (state c) = Some tm ->
  let c' :=
    onStreamEvent JSON_stringify (tool_complete i toolName' output status')
      now uuid c in
  exists tm',
    getToolMessageByCallId i (state c') = Some tm'
    /\ status (tool tm') = Some status'
    /\ toolOutput (tool tm') = Some output
    /\ Js.flag (isStreaming tm') = false
    /\ error tm'
       = match status' with
         | StatusError =>
             if Js.truthy output then
               Some ("Tool execution failed: "
                     +:+ match output with
                         | Js.Str text => text
                         | v => JSON_stringify v
                         end)
             else error tm
         | StatusSuccess => error tm
         end
    /\ length (messages (state c')) = length (messages (state c))
    /\ toolInstanceCounts c' = toolInstanceCounts c.
Proof.
  intros Ht Hm c'.
  set (ups := tool_complete_updates JSON_stringify output status').
  set (s1 := updateToolMessage i ups (state c)).
  assert (Hfields : status (tool (Object_assign ups tm)) = Some status'
            /\ toolOutput (tool (Object_assign ups tm)) = Some output
            /\ isStreaming (Object_assign ups tm) = isStreaming tm
            /\ error (Object_assign ups tm)
               = match status' with
                 | StatusError =>
                     if Js.truthy output then
                       Some ("Tool execution failed: "
                             +:+ match output with
                                 | Js.Str text => text
                                 | v => JSON_stringify v
                                 end)
                     else error tm
                 | StatusSuccess => error tm
                 end).
  { subst ups. unfold tool_complete_updates.
    destruct status'; [|destruct (Js.truthy output)]; by repeat split. }
  destruct Hfields as (Hst & Hout & Hstr & Herr).
  destruct (ChatControllerFacts.getTool_updateToolMessage i ups _ _ Ht)
    as [Ht1 Hlen1]. fold s1 in Ht1, Hlen1.
  assert (Hm1 : find (has_id i) (messages s1) = Some (Object_assign ups tm)).
  { subst s1. unfold updateToolMessage. rewrite Ht.
    cbn [messages emit with_messages].
    apply find_update_first_both; [exact Ht | exact Hm |].
    intros y. unfold has_id. by destruct (ChatControllerFacts.Object_assign_keeps ups y) as [-> _]. }
  subst c'. cbn [onStreamEvent on_state state toolInstanceCounts].
  fold ups. fold s1. unfold markMessageComplete. rewrite Hm1.
  destruct (Js.flag (isStreaming (Object_assign ups tm))) eqn:Hflag;
    cbn [negb].
  - exists (set_isStreaming (Some false) (Object_assign ups tm)).
    cbn [messages emit with_messages].
    split; [|split; [exact Hst|split; [exact Hout|split; [done|split;
      [exact Herr|split; [|done]]]]]].
    + unfold getToolMessageByCallId. cbn [messages emit with_messages].
      by apply find_update_first_both.
    + by rewrite update_first_length.
  - exists (Object_assign ups tm).
    split; [exact Ht1|]. split; [exact Hst|]. split; [exact Hout|].
    split; [exact Hflag|]. split; [exact Herr|]. split; [exact Hlen1|done].
Qed.

(** X22. A failed [regenerate] does not bring back what it removed.  For a
    message that the transcript has, [regenerate(id)] cuts the transcript
    after it, appends a loading placeholder and asks the transport to
    regenerate from [id] on the current thread.  When the transport rejects,
    the placeholder is removed and the rejection is passed on: the messages
    that came after [id] stay removed. *)
Theorem failed_regenerate_keeps_cut (c : ChatController.t) (i lid : string)
    (now : Time) (k : nat) (reason : Js.thrown) :
  findIndex (has_id i) (messages (state c)) = Some k ->
  has_loading (state c) = false ->
  lid ∉ map id_ (messages (state c)) ->
  let c1 := (regenerate i lid now c).1 in
  (regenerate i lid now c).2 = Regenerate i (threadId (state c))
  /\ messages (state c1)
     = take (k + 1) (messages (state c)) ++ [loading_message lid now]
  /\ messages (state (regenerate_settle (Rejected reason) c1).1)
     = take (k + 1) (messages (state c))
  /\ (regenerate_settle (Rejected reason) c1).2 = Rejected reason.
Proof.
  intros Hk Hl Hlid c1.
  assert (Hcut : messages (removeMessagesAfter i (state c))
                 = take (k + 1) (messages (state c))).
  { unfold removeMessagesAfter. by rewrite Hk. }
  assert (Hfresh : existsb (has_id lid) (take (k + 1) (messages (state c)))
                   = false).
  { apply not_true_is_false. rewrite ChatStateFacts.existsb_has_id.
    intros Hin. apply Hlid.
    apply list_elem_of_fmap in Hin as (y & -> & Hy).
    apply list_elem_of_fmap. exists y. split; [done|].
    by apply (subseteq_take (k + 1) (messages (state c))). }
  assert (Hm : messages (state c1)
               = take (k + 1) (messages (state c)) ++ [loading_message lid now]).
  { subst c1. cbn [regenerate fst on_state state]. unfold addMessage.
    rewrite Hcut. cbn [id_ loading_message]. rewrite Hfresh.
    cbn [messages emit with_messages]. reflexivity. }
  split; [|split; [exact Hm|split; [|done]]].
  - cbn [regenerate snd on_state state]. unfold getThreadId.
    by rewrite NotificationFacts.threadId_addMessage,
      NotificationFacts.threadId_removeMessagesAfter.
  - cbn [regenerate_settle fst on_state state].
    rewrite ChatControllerFacts.messages_removeLoading, Hm.
    rewrite filter_app, filter_cons, filter_nil.
    rewrite decide_False by (unfold not_loading; cbn; done).
    rewrite app_nil_r. apply filter_all.
    apply Forall_forall. intros y Hy. unfold not_loading.
    apply negb_true_iff. apply not_true_is_false. intros Hy'.
    assert (Hex : has_loading (state c) = true); [|congruence].
    apply existsb_exists. exists y. split; [|done].
    apply list_elem_of_In. by apply (subseteq_take (k + 1) (messages (state c))).
Qed.

End Reduction.


Lemma waiting_controller_ids :
  NoDup (map id_ (messages (state waiting_controller))).
Proof. apply (bool_decide_unpack _). by vm_compute. Qed.

Lemma waiting_controller_well_made :
  Forall well_made (messages (state waiting_controller)).
Proof.
  set (l := messages (state waiting_controller)). vm_compute in l. subst l.
  repeat (apply Forall_cons; split); try apply Forall_nil_2;
    intros Hr; try discriminate Hr.
  split; [reflexivity | discriminate].
Qed.

Lemma decision_clears_pending_witness :
  Approve None <> NoDecision
  /\ NoDup (map id_ (messages (state waiting_controller)))
  /\ Forall well_made (messages (state waiting_controller))
  /\ ChatController.getPendingApprovals
       (decide_between "t1" (Approve None) waiting_controller)
     = filter (fun m => id_ m <> "t1")
         (ChatController.getPendingApprovals waiting_controller).
Proof.
  assert (H1 : Approve None <> NoDecision) by discriminate.
  split; [exact H1|]. split; [exact waiting_controller_ids|].
  split; [exact waiting_controller_well_made|].
  exact (decision_clears_pending waiting_controller "t1" (Approve None) H1
           waiting_controller_ids waiting_controller_well_made).
Defined.

Lemma stopped_message_still_takes_tokens_witness :
  getMessage "m1" (state Samples.streaming_controller)
  = Some (assistant_message "m1" 20%Z)
  /\ Js.flag (isStreaming (assistant_message "m1" 20%Z)) = true
  /\ getMessage "m1"
       (state (onStreamEvent no_stringify (assistant_token "m1" "late") 50%Z "u-3"
                 (stop Samples.streaming_controller).1))
     = Some (set_message "late"
               (set_cancelled (Some true)
                  (set_isStreaming (Some false) (assistant_message "m1" 20%Z)))).
Proof.
  assert (H1 : getMessage "m1" (state Samples.streaming_controller)
               = Some (assistant_message "m1" 20%Z)) by reflexivity.
  assert (H2 : Js.flag (isStreaming (assistant_message "m1" 20%Z)) = true)
    by reflexivity.
  split; [exact H1|]. split; [exact H2|].
  exact (proj1 (proj2 (proj2
    (stopped_message_still_takes_tokens no_stringify Samples.streaming_controller
       "m1" "late" _ 50%Z "u-3" H1 H2)))).
Defined.

Lemma tool_complete_closes_tool_message_witness :
  exists tm tm',
    getToolMessageByCallId "t1" (state waiting_controller) = Some tm
    /\ getMessage "t1" (state waiting_controller) = Some tm
    /\ getToolMessageByCallId "t1"
         (state (onStreamEvent no_stringify
                   (tool_complete "t1" "lookup" (Js.Str "boom") StatusError)
                   60%Z "u-4" waiting_controller))
       = Some tm'
    /\ status (tool tm') = Some StatusError
    /\ Js.flag (isStreaming tm') = false
    /\ error tm' = Some "Tool execution failed: boom".
Proof.
  eexists.
  destruct (tool_complete_closes_tool_message no_stringify waiting_controller
              "t1" "lookup" (Js.Str "boom") StatusError _ 60%Z "u-4"
              eq_refl eq_refl)
    as (tm' & Hg & Hs & _ & Hf & He & _).
  exists tm'. split; [reflexivity|]. split; [reflexivity|].
  split; [exact Hg|]. split; [exact Hs|]. split; [exact Hf | exact He].
Defined.

Lemma failed_regenerate_keeps_cut_witness :
  findIndex (has_id "c-1") (messages (state Samples.streaming_controller)) = Some 0
  /\ has_loading (state Samples.streaming_controller) = false
  /\ ("l-2" ∉ map id_ (messages (state Samples.streaming_controller)))
  /\ length (messages (state Samples.streaming_controller)) = 2
  /\ messages
       (state (regenerate_settle (Rejected network_down)
                 (regenerate "c-1" "l-2" 70%Z Samples.streaming_controller).1).1)
     = take 1 (messages (state Samples.streaming_controller)).
Proof.
  assert (H1 : findIndex (has_id "c-1")
                 (messages (state Samples.streaming_controller)) = Some 0)
    by reflexivity.
  assert (H2 : has_loading (state Samples.streaming_controller) = false)
    by reflexivity.
  assert (H3 : "l-2" ∉ map id_ (messages (state Samples.streaming_controller))).
  { apply (bool_decide_unpack _). by vm_compute. }
  split; [exact H1|]. split; [exact H2|]. split; [exact H3|].
  split; [reflexivity|].
  exact (proj1 (proj2 (proj2
    (failed_regenerate_keeps_cut Samples.streaming_controller "c-1" "l-2" 70%Z 0
       network_down H1 H2 H3)))).
Defined.


End ControllerMore.

(** ** The controller on the REST transport: cancellation and failed requests *)

Module EndToEndFacts.
Import ChatState ChatController Scenario.

Lemma cancel_if_streaming_quiet (m : BaseMessage) :
  Js.flag (isStreaming m) = false -> cancel_if_streaming m = m.
Proof. intros H. unfold cancel_if_streaming. by rewrite H. Qed.

(** A decision made and the request for it failed on the way: the tool
    message after the error callback of the controller. *)
Lemma getTool_decided_onError (i : string) (approved : bool)
    (ups : list Assignment) (err : Js.Error) (now : Time) (uuid : string)
    (c : ChatController.t) (tm : BaseMessage) :
  getToolMessageByCallId i (state c) = Some tm ->
  Js.flag (isLoading tm) = false ->
  getToolMessageByCallId i
    (state (onError err now uuid
              (on_state (fun s => updateToolMessage i ups
                                    (updateApprovalRequest i approved s)) c)))
  = Some (Object_assign ups
            (set_approvalStatus (Some (if approved then Approved else Denied)) tm)).
Proof.
  intros Hf Hl.
  destruct (ChatControllerFacts.getTool_updateApprovalRequest i approved _ _ Hf)
    as [Ha _].
  destruct (ChatControllerFacts.getTool_updateToolMessage i ups _ _ Ha) as [Ha1 _].
  apply SystemFacts.getTool_onError; [exact Ha1|].
  by rewrite SystemFacts.Object_assign_isLoading.
Qed.

Section Engine.

Variable JSON_parse : string -> Js.Error + Js.value.
Variable ToString : Js.value -> Js.Error + string.
Variable TypeError_of : string -> Js.Error.
Variable JSON_stringify : Js.value -> string.

Abbreviation perform := (RestChatServiceCalls.perform JSON_parse ToString TypeError_of).

(** C3, on the code.  [send(text)] with two identifiers that are new to
    the transcript appends the pending user message and the loading
    placeholder.  The [assistant_start] case and the error callback of the
    transport leave no loading message in the transcript.  [stop()] does
    not: it changes streaming messages only and asks the transport to
    cancel, the placeholder stays where it is, and when the [fetch] of
    [send] is aborted before a response is there the transport swallows the
    [AbortError] and calls nothing, as the cancel request does, so that
    nothing removes the placeholder afterwards.  A [tool_start] event
    leaves the placeholder too. *)
Theorem stop_keeps_loading_placeholder (svc : RestChatService.t)
    (c : ChatController.t) (text cid lid : string) (now1 now2 : Time)
    (abort : Js.Error) :
  cid ∉ map id_ (messages (state c)) ->
  lid ∉ map id_ (messages (state c)) ->
  cid ≠ lid ->
  Js.name abort = "AbortError" ->
  let sent := send text cid lid now1 now2 c in
  let stopped := stop sent.1 in
  messages (state sent.1)
  = messages (state c) ++ [user_message cid text now1; loading_message lid now2]
  /\ sent.2 = Send (user_message cid text now1) (threadId (state c))
  /\ stopped.2 = Cancel (threadId (state c))
  /\ messages (state stopped.1)
     = map cancel_if_streaming (messages (state c))
         ++ [user_message cid text now1; loading_message lid now2]
  /\ has_loading (state stopped.1) = true
  /\ perform svc sent.2 Resolved (RestChatService.FetchRejects (Js.ThrownError abort))
     = ([], Resolved)
  /\ (forall headers outcome, perform svc stopped.2 headers outcome = ([], Resolved))
  /\ (forall m ts now uuid,
        has_loading
          (state (onStreamEvent JSON_stringify (assistant_start m ts) now uuid sent.1))
        = false)
  /\ (forall err now uuid, has_loading (state (onError err now uuid sent.1)) = false)
  /\ (forall i n input now uuid,
        loading_message lid now2
        ∈ messages
            (state (onStreamEvent JSON_stringify (tool_start i n input) now uuid
                      sent.1))).
Proof.
  intros Hcid Hlid Hne Hname sent stopped.
  destruct (ChatControllerFacts.loading_placeholder_removal JSON_stringify c text
              cid lid now1 now2 Hcid Hlid Hne)
    as (Hm & Hcall & _ & Hstart & Herr & Htool).
  fold sent in Hm, Hcall, Hstart, Herr, Htool.
  assert (Hs : messages (state stopped.1)
               = map cancel_if_streaming (messages (state c))
                   ++ [user_message cid text now1; loading_message lid now2]).
  { subst stopped. cbn [stop fst on_state state].
    rewrite ChatStateMore.messages_stopAllStreaming, Hm, map_app. reflexivity. }
  split; [exact Hm|]. split; [exact Hcall|]. split.
  { subst stopped. cbn [stop snd fst on_state state]. unfold getThreadId.
    rewrite NotificationFacts.threadId_stopAllStreaming.
    subst sent. cbn [send fst state].
    by rewrite !NotificationFacts.threadId_addMessage. }
  split; [exact Hs|]. split.
  { unfold has_loading. rewrite Hs, existsb_app. cbn. apply orb_true_r. }
  split.
  { rewrite Hcall. cbn [RestChatServiceCalls.perform RestChatServiceCalls.response_thread
                          RestChatService.handleStreamingResponse
                          RestChatService.is_AbortError].
    by rewrite Hname. }
  split; [by intros headers outcome|].
  split; [exact Hstart|]. split; [exact Herr | exact Htool].
Qed.

(** C5, on the code.  With the tool message of the call in the transcript
    and the callbacks registered, a network failure of the request (the
    [fetch] is rejected with an error that is not an abort) is reported by
    the transport to the error callback and the promise of [sendApproval]
    resolves.  So neither [catch] block runs: after [approveToolCall] the
    tool message stays approved and not waiting, after [denyToolCall] it
    stays denied, and in both cases it has the error it had, without a
    note.  The [catch] blocks do what the claim says when the promise is
    rejected, which on this transport takes a rejection of the request
    headers: the approval is reverted to waiting with the error
    [Failed to send approval: ...] and the rejection is passed on; the
    denial stays, with the note [Failed to send denial: ...], and the
    operation completes. *)
Theorem network_failure_keeps_decision (svc : RestChatService.t)
    (c : ChatController.t) (i : string) (lvl : option string) (tm : BaseMessage)
    (e : Js.Error) (now : Time) (uuid : string) :
  RestChatService.errorCallback svc = true ->
  Js.name e ≠ "AbortError" ->
  getToolMessageByCallId i (state c) = Some tm ->
  Js.flag (isLoading tm) = false ->
  let failed := RestChatService.FetchRejects (Js.ThrownError e) in
  let a1 := approveToolCall i lvl c in
  let a2 :=
    approveToolCall_settle i (perform svc a1.2 Resolved failed).2
      (onError e now uuid a1.1) in
  let d1 := denyToolCall i c in
  let d2 :=
    denyToolCall_settle i (perform svc d1.2 Resolved failed).2
      (onError e now uuid d1.1) in
  perform svc a1.2 Resolved failed = ([RestChatService.ErrorCb (Js.ThrownError e)], Resolved)
  /\ perform svc d1.2 Resolved failed
     = ([RestChatService.ErrorCb (Js.ThrownError e)], Resolved)
  /\ a2.2 = Resolved /\ d2.2 = Resolved
  /\ (exists ta td,
        getToolMessageByCallId i (state a2.1) = Some ta
        /\ approvalStatus (tool ta) = Some Approved
        /\ waitingForApproval (tool ta) = Some false
        /\ error ta = error tm
        /\ getToolMessageByCallId i (state d2.1) = Some td
        /\ approvalStatus (tool td) = Some Denied
        /\ waitingForApproval (tool td) = Some false
        /\ error td = error tm)
  /\ (forall reason outcome,
        let note :=
          match reason with
          | Js.ThrownError failure => Js.message failure
          | Js.ThrownValue _ => "Unknown error"
          end in
        let ra := approveToolCall_settle i (perform svc a1.2 (Rejected reason) outcome).2 a1.1 in
        let rd := denyToolCall_settle i (perform svc d1.2 (Rejected reason) outcome).2 d1.1 in
        ra.2 = Rejected reason /\ rd.2 = Resolved
        /\ exists ta td,
             getToolMessageByCallId i (state ra.1) = Some ta
             /\ waitingForApproval (tool ta) = Some true
             /\ approvalStatus (tool ta) = None
             /\ approvalLevel (tool ta) = None
             /\ error ta = Some ("Failed to send approval: " +:+ note)
             /\ getToolMessageByCallId i (state rd.1) = Some td
             /\ approvalStatus (tool td) = Some Denied
             /\ waitingForApproval (tool td) = Some false
             /\ error td = Some ("Failed to send denial: " +:+ note)).
Proof.
  intros Hreg Hname Hf Hl failed a1 a2 d1 d2.
  assert (Hcalls : forall call,
            match call with Cancel _ => False | _ => True end ->
            perform svc call Resolved failed
            = ([RestChatService.ErrorCb (Js.ThrownError e)], Resolved)).
  { intros call Hcall. subst failed.
    destruct call; try done;
      cbn [RestChatServiceCalls.perform RestChatService.handleStreamingResponse
             RestChatService.is_AbortError];
      apply String.eqb_neq in Hname; rewrite Hname;
      unfold RestChatService.call_error; by rewrite Hreg. }
  assert (Ha : perform svc a1.2 Resolved failed
               = ([RestChatService.ErrorCb (Js.ThrownError e)], Resolved))
    by (by apply Hcalls).
  assert (Hd : perform svc d1.2 Resolved failed
               = ([RestChatService.ErrorCb (Js.ThrownError e)], Resolved))
    by (by apply Hcalls).
  split; [exact Ha|]. split; [exact Hd|].
  subst a2 d2. rewrite Ha, Hd. cbn [snd approveToolCall_settle denyToolCall_settle fst].
  split; [done|]. split; [done|]. split.
  - eexists _, _.
    split; [exact (getTool_decided_onError i true _ e now uuid c tm Hf Hl)|].
    split; [reflexivity|]. split; [reflexivity|]. split; [reflexivity|].
    split; [exact (getTool_decided_onError i false _ e now uuid c tm Hf Hl)|].
    by repeat split.
  - intros reason outcome.
    assert (Hra : (perform svc a1.2 (Rejected reason) outcome).2 = Rejected reason)
      by reflexivity.
    assert (Hrd : (perform svc d1.2 (Rejected reason) outcome).2 = Rejected reason)
      by reflexivity.
    rewrite Hra, Hrd.
    destruct (ChatControllerFacts.approval_failure_reverts c i lvl tm reason Hf)
      as (_ & _ & t1 & t2 & t3 & t4 & _ & _ & _ & Hg2 & Hw2 & Hs2 & Hv2 & He2 & Hr2
          & _ & _ & _ & _ & Hg4 & Hs4 & Hw4 & He4 & Hr4).
    split; [exact Hr2|]. split; [exact Hr4|].
    exists t2, t4. split; [exact Hg2|]. split; [exact Hw2|]. split; [exact Hs2|].
    split; [exact Hv2|]. split; [by rewrite He2; destruct reason|].
    split; [exact Hg4|]. split; [exact Hs4|]. split; [exact Hw4|].
    by rewrite He4; destruct reason.
Qed.

End Engine.

Lemma stop_keeps_loading_placeholder_witness :
  let sent := send "Hello" "c-1" "l-1" 10%Z 11%Z fresh_controller in
  let stopped := stop sent.1 in
  ("c-1" ∉ map id_ (messages (state fresh_controller)))
  /\ ("l-1" ∉ map id_ (messages (state fresh_controller)))
  /\ "c-1" ≠ "l-1"
  /\ Js.name Samples.fetch_aborted = "AbortError"
  /\ RestChatServiceCalls.perform sample_parse sample_ToString sample_TypeError
       registered sent.2 Resolved
       (RestChatService.FetchRejects (Js.ThrownError Samples.fetch_aborted))
     = ([], Resolved)
  /\ map id_ (messages (state stopped.1)) = ["c-1"; "l-1"]
  /\ has_loading (state stopped.1) = true.
Proof.
  intros sent stopped.
  assert (H1 : "c-1" ∉ map id_ (messages (state fresh_controller)))
    by apply not_elem_of_nil.
  assert (H2 : "l-1" ∉ map id_ (messages (state fresh_controller)))
    by apply not_elem_of_nil.
  assert (H3 : "c-1" ≠ "l-1") by discriminate.
  assert (H4 : Js.name Samples.fetch_aborted = "AbortError") by reflexivity.
  destruct (stop_keeps_loading_placeholder sample_parse sample_ToString
              sample_TypeError no_stringify registered fresh_controller "Hello"
              "c-1" "l-1" 10%Z 11%Z Samples.fetch_aborted H1 H2 H3 H4)
    as (_ & _ & _ & _ & Hl & Hp & _).
  split; [exact H1|]. split; [exact H2|]. split; [exact H3|]. split; [exact H4|].
  split; [exact Hp|]. split; [reflexivity | exact Hl].
Defined.

Lemma network_failure_keeps_decision_witness :
  RestChatService.errorCallback registered = true
  /\ Js.name Samples.fetch_failed ≠ "AbortError"
  /\ exists tm ta td,
       getToolMessageByCallId "t1" (state waiting_controller) = Some tm
       /\ Js.flag (isLoading tm) = false
       /\ waitingForApproval (tool tm) = Some true
       /\ getToolMessageByCallId "t1"
            (state (approveToolCall_settle "t1" Resolved
                      (onError Samples.fetch_failed 40%Z "u-2"
                         (approveToolCall "t1" None waiting_controller).1)).1)
          = Some ta
       /\ approvalStatus (tool ta) = Some Approved
       /\ waitingForApproval (tool ta) = Some false
       /\ error ta = None
       /\ getToolMessageByCallId "t1"
            (state (denyToolCall_settle "t1" Resolved
                      (onError Samples.fetch_failed 40%Z "u-2"
                         (denyToolCall "t1" waiting_controller).1)).1)
          = Some td
       /\ approvalStatus (tool td) = Some Denied
       /\ error td = None
       /\ (error
             <$> getToolMessageByCallId "t1"
                   (state (approveToolCall_settle "t1" (Rejected network_down)
                             (approveToolCall "t1" None waiting_controller).1).1))
          = Some (Some "Failed to send approval: Failed to fetch")
       /\ (error
             <$> getToolMessageByCallId "t1"
                   (state (denyToolCall_settle "t1" (Rejected network_down)
                             (denyToolCall "t1" waiting_controller).1).1))
          = Some (Some "Failed to send denial: Failed to fetch").
Proof.
  assert (H1 : RestChatService.errorCallback registered = true) by reflexivity.
  assert (H2 : Js.name Samples.fetch_failed ≠ "AbortError") by discriminate.
  split; [exact H1|]. split; [exact H2|]. eexists.
  destruct (network_failure_keeps_decision sample_parse sample_ToString
              sample_TypeError registered waiting_controller "t1" None _
              Samples.fetch_failed 40%Z "u-2" H1 H2 eq_refl eq_refl)
    as (_ & _ & _ & _ & (ta & td & Hga & Hsa & Hwa & Hea & Hgd & Hsd & _ & Hed)
        & Hcatch).
  destruct (Hcatch network_down (RestChatService.FetchRejects network_down))
    as (_ & _ & ra & rd & Hra & _ & _ & _ & Hera & Hrd & _ & _ & Herd).
  exists ta, td. split; [reflexivity|]. split; [reflexivity|].
  split; [reflexivity|]. split; [exact Hga|]. split; [exact Hsa|].
  split; [exact Hwa|]. split; [exact Hea|]. split; [exact Hgd|].
  split; [exact Hsd|]. split; [exact Hed|]. split.
  - cbn [snd RestChatServiceCalls.perform approveToolCall] in Hra.
    rewrite Hra. cbn [fmap option_fmap option_map]. by rewrite Hera.
  - cbn [snd RestChatServiceCalls.perform denyToolCall] in Hrd.
    rewrite Hrd. cbn [fmap option_fmap option_map]. by rewrite Herd.
Defined.

End EndToEndFacts.
